(** * Access control and homework tools of the classroom bot

    A shallow embedding of the five Mastra tools of the repository
    ([studentVerificationTool], [studentRegistrationTool], [addHomeworkTool],
    [viewHomeworkTool], [deleteHomeworkTool]) over an explicit model of the
    three Postgres tables declared in [shared/schema.ts].

    Conventions.
    - A JS number that the code uses as an identifier or a count is a [Z].
    - A nullable column or an optional input is an [option]; the JS tests
      [if (x)], [x || y] are written out with the truthiness of each type.
    - A tool body runs in a small state-and-exception monad over a
      connection: every [await db....] is one round trip that is logged and
      that may throw; the outer [try { ... } catch] of a tool is [exec], an
      inner one is [try_catch].
    - Built-ins of the JS runtime ([String.prototype.toUpperCase],
      [String.prototype.trim], the [Date] constructor and
      [Date.prototype.toISOString]) are parameters of the development. *)

From Stdlib Require Import ZArith List String Ascii Bool Lia DecimalString.
From Stdlib Require Import Permutation Sorted.
Import ListNotations.
Local Open Scope Z_scope.

(** ** Strings and JS truthiness *)

Definition cat (a b : string) : string := String.append a b.
Infix "^^" := cat (at level 60, right associativity).

(** The double quote character that the message templates contain. *)
Definition dq : string := String (ascii_of_nat 34) EmptyString.

Definition show_nat (n : nat) : string := NilEmpty.string_of_uint (Nat.to_uint n).

(** [if (s)] for a [string | null | undefined]: the empty string is falsy. *)
Definition truthy (x : option string) : bool :=
  match x with
  | Some s => negb (String.eqb s EmptyString)
  | None => false
  end.

(** [if (n)] for a [number | null | undefined] holding an integer. *)
Definition truthyZ (x : option Z) : bool :=
  match x with
  | Some z => negb (z =? 0)
  | None => false
  end.

(** [if (b)] for a [boolean | null]. *)
Definition truthyB (x : option bool) : bool :=
  match x with
  | Some b => b
  | None => false
  end.

(** [x || y] on nullable strings. *)
Definition or_else (x y : option string) : option string :=
  if truthy x then x else y.

(** [x || "literal"]. *)
Definition or_default (x : option string) (d : string) : string :=
  match or_else x (Some d) with
  | Some s => s
  | None => d
  end.

(** [x || y] on nullable numbers. *)
Definition or_elseZ (x y : option Z) : option Z :=
  if truthyZ x then x else y.

(** [Array.prototype.includes] on an array of string literals. *)
Definition includes (l : list string) (s : string) : bool :=
  existsb (String.eqb s) l.

(** ** The schema: [shared/schema.ts] *)

Module groups.
Record row := {
  id : Z;
  groupName : string;
  description : option string;
  createdAt : option Z
}.
End groups.

Module students.
Record row := {
  id : Z;
  telegramUserId : Z;
  telegramUsername : option string;
  studentId : string;
  firstName : option string;
  lastName : option string;
  groupId : option Z;
  accessLevel : option string;
  isActive : option bool;
  createdAt : option Z;
  updatedAt : option Z
}.
End students.

Module homework.
Record row := {
  id : Z;
  title : string;
  description : option string;
  dueDate : option Z;
  subject : option string;
  groupId : option Z;
  createdBy : option Z;
  createdAt : option Z;
  updatedAt : option Z
}.
End homework.

(** The database: the rows of each table in insertion order and the two
    [serial] sequences the tools draw from. *)
Record Store := {
  groups_tbl : list groups.row;
  students_tbl : list students.row;
  homework_tbl : list homework.row;
  students_id_seq : Z;
  homework_id_seq : Z
}.

Definition with_students (st : Store) (l : list students.row) (seq : Z) : Store :=
  {| groups_tbl := groups_tbl st; students_tbl := l;
     homework_tbl := homework_tbl st;
     students_id_seq := seq; homework_id_seq := homework_id_seq st |}.

Definition with_homework (st : Store) (l : list homework.row) (seq : Z) : Store :=
  {| groups_tbl := groups_tbl st; students_tbl := students_tbl st;
     homework_tbl := l;
     students_id_seq := students_id_seq st; homework_id_seq := seq |}.

(** ** Connections, round trips and exceptions *)

Inductive Table := Tgroups | Tstudents | Thomework.
Inductive Query :=
| Select (t : Table)
| Insert (t : Table)
| Update (t : Table)
| Delete (t : Table).

(** The process environment of one tool call: [process.env.DATABASE_URL],
    the wall clock ([defaultNow()], [new Date()]) and, for each round trip
    to come, whether the store is unreachable for it ([true] = it throws;
    past the end of the list every round trip goes through). *)
Record Env := {
  DATABASE_URL : option string;
  now : Z;
  outages : list bool
}.

Record Conn := {
  db : Store;
  faults : list bool;
  log : list Query
}.

Inductive Outcome (A : Type) :=
| Ok (a : A)
| Throw.
Arguments Ok {A} a.
Arguments Throw {A}.

Definition M (A : Type) : Type := Conn -> Outcome A * Conn.

Definition ret {A} (a : A) : M A := fun c => (Ok a, c).

Definition throw {A} : M A := fun c => (Throw, c).

Definition bind {A B} (m : M A) (k : A -> M B) : M B :=
  fun c =>
    match m c with
    | (Ok a, c') => k a c'
    | (Throw, c') => (Throw, c')
    end.

Notation "x <- m ;; k" := (bind m (fun x => k))
  (at level 61, m at next level, right associativity).
Notation "m ;;; k" := (bind m (fun _ => k))
  (at level 61, right associativity).

(** [try { m } catch (error) { h }]. *)
Definition try_catch {A} (m h : M A) : M A :=
  fun c =>
    match m c with
    | (Ok a, c') => (Ok a, c')
    | (Throw, c') => h c'
    end.

(** One [await] on the driver: the statement is logged, and it throws when
    the store is unreachable for it. *)
Definition roundtrip (q : Query) : M unit :=
  fun c =>
    let c' := {| db := db c; faults := tl (faults c); log := log c ++ [q] |} in
    match faults c with
    | true :: _ => (Throw, c')
    | _ => (Ok tt, c')
    end.

Definition read {A} (f : Store -> A) : M A := fun c => (Ok (f (db c)), c).

Definition modify (f : Store -> Store) : M unit :=
  fun c => (Ok tt, {| db := f (db c); faults := faults c; log := log c |}).

(** What a tool call leaves behind: its structured result, the database
    after it, and the statements it sent. *)
Record Run (A : Type) := {
  output : A;
  store : Store;
  queries : list Query
}.
Arguments output {A} r.
Arguments store {A} r.
Arguments queries {A} r.

(** The outer [try { body } catch (error) { return failure }] of a tool. *)
Definition exec {A} (env : Env) (body : M A) (failure : A) (st : Store) : Run A :=
  match body {| db := st; faults := outages env; log := [] |} with
  | (Ok a, c) => {| output := a; store := db c; queries := log c |}
  | (Throw, c) => {| output := failure; store := db c; queries := log c |}
  end.

(** ** SQL fragments used by the tools *)

(** [eq(a, b)] on integers either of which may be NULL (a nullable column,
    a null or undefined parameter): NULL equals nothing. *)
Definition sql_eq (a b : option Z) : bool :=
  match a, b with
  | Some x, Some y => x =? y
  | _, _ => false
  end.

(** [.limit(n)]: drizzle writes a LIMIT clause only for a number that is
    not negative; with a negative one the query has no LIMIT and every row
    comes back. *)
Definition limited {A} (n : Z) (l : list A) : list A :=
  if n <? 0 then l else firstn (Z.to_nat n) l.

Definition limit {A} (n : Z) (l : list A) : M (list A) :=
  ret (limited n l).

(** [a.leftJoin(b, on)]: every row of [a] with each matching row of [b], or
    once with NULLs when none matches. *)
Definition leftJoin {A B} (on : A -> B -> bool) (l : list A) (r : list B)
  : list (A * option B) :=
  flat_map (fun a =>
    match filter (on a) r with
    | [] => [(a, None)]
    | bs => map (fun b => (a, Some b)) bs
    end) l.

(** [ORDER BY created_at DESC]: NULLs sort first; rows with equal keys keep
    their table order (Postgres leaves that order open). *)
Definition desc_before (a b : option Z) : bool :=
  match a, b with
  | None, _ => true
  | Some _, None => false
  | Some x, Some y => y <=? x
  end.

Fixpoint insert_desc {A} (key : A -> option Z) (x : A) (l : list A) : list A :=
  match l with
  | [] => [x]
  | y :: l' =>
      if desc_before (key x) (key y) then x :: y :: l'
      else y :: insert_desc key x l'
  end.

Definition orderBy_desc {A} (key : A -> option Z) (l : list A) : list A :=
  fold_right (insert_desc key) [] l.

Definition select_students (p : students.row -> bool) (n : Z)
  : M (list students.row) :=
  roundtrip (Select Tstudents) ;;;
  rows <- read (fun st => filter p (students_tbl st)) ;;
  limit n rows.

Definition select_groups (p : groups.row -> bool) (n : Z)
  : M (list groups.row) :=
  roundtrip (Select Tgroups) ;;;
  rows <- read (fun st => filter p (groups_tbl st)) ;;
  limit n rows.

Definition select_homework (p : homework.row -> bool) (n : Z)
  : M (list homework.row) :=
  roundtrip (Select Thomework) ;;;
  rows <- read (fun st => filter p (homework_tbl st)) ;;
  limit n rows.

(** A foreign key [references(() => groups.id)]: NULL is always allowed. *)
Definition fk_group (st : Store) (g : option Z) : bool :=
  match g with
  | Some x => existsb (fun r => groups.id r =? x) (groups_tbl st)
  | None => true
  end.

Definition fk_student (st : Store) (s : option Z) : bool :=
  match s with
  | Some x => existsb (fun r => students.id r =? x) (students_tbl st)
  | None => true
  end.

(** The constraints of table [students]: primary key, the two [unique()]
    columns and the foreign key to [groups]. *)
Definition students_accepts (st : Store) (r : students.row) : bool :=
  negb (existsb (fun s => students.id s =? students.id r) (students_tbl st))
  && negb (existsb (fun s => students.telegramUserId s =? students.telegramUserId r)
             (students_tbl st))
  && negb (existsb (fun s => String.eqb (students.studentId s) (students.studentId r))
             (students_tbl st))
  && fk_group st (students.groupId r).

Definition homework_accepts (st : Store) (r : homework.row) : bool :=
  negb (existsb (fun h => homework.id h =? homework.id r) (homework_tbl st))
  && fk_group st (homework.groupId r)
  && fk_student st (homework.createdBy r).

(** The row that [INSERT ... RETURNING *] stores for the values [v]: [id]
    from the sequence, [created_at] and [updated_at] from [defaultNow()]. *)
Definition students_stored (env : Env) (id : Z) (v : students.row) : students.row :=
  {| students.id := id;
     students.telegramUserId := students.telegramUserId v;
     students.telegramUsername := students.telegramUsername v;
     students.studentId := students.studentId v;
     students.firstName := students.firstName v;
     students.lastName := students.lastName v;
     students.groupId := students.groupId v;
     students.accessLevel := students.accessLevel v;
     students.isActive := students.isActive v;
     students.createdAt := Some (now env);
     students.updatedAt := Some (now env) |}.

Definition homework_stored (env : Env) (id : Z) (v : homework.row) : homework.row :=
  {| homework.id := id;
     homework.title := homework.title v;
     homework.description := homework.description v;
     homework.dueDate := homework.dueDate v;
     homework.subject := homework.subject v;
     homework.groupId := homework.groupId v;
     homework.createdBy := homework.createdBy v;
     homework.createdAt := Some (now env);
     homework.updatedAt := Some (now env) |}.

(** [db.insert(students).values(v).returning()]: the row gets the next value
    of the sequence (which is spent even when the row is rejected) and the
    column defaults; a rejected row throws and leaves the table as it was. *)
Definition insert_students (env : Env) (v : students.row)
  : M (list students.row) :=
  roundtrip (Insert Tstudents) ;;;
  st <- read (fun st => st) ;;
  let r := students_stored env (students_id_seq st) v in
  if students_accepts st r then
    modify (fun st => with_students st (students_tbl st ++ [r]) (students_id_seq st + 1)) ;;;
    ret [r]
  else
    modify (fun st => with_students st (students_tbl st) (students_id_seq st + 1)) ;;;
    throw.

Definition insert_homework (env : Env) (v : homework.row)
  : M (list homework.row) :=
  roundtrip (Insert Thomework) ;;;
  st <- read (fun st => st) ;;
  let r := homework_stored env (homework_id_seq st) v in
  if homework_accepts st r then
    modify (fun st => with_homework st (homework_tbl st ++ [r]) (homework_id_seq st + 1)) ;;;
    ret [r]
  else
    modify (fun st => with_homework st (homework_tbl st) (homework_id_seq st + 1)) ;;;
    throw.

(** [db.update(students).set({ telegramUsername, updatedAt }).where(p)]. *)
Definition set_username (u : string) (t : Z) (s : students.row) : students.row :=
  {| students.id := students.id s;
     students.telegramUserId := students.telegramUserId s;
     students.telegramUsername := Some u;
     students.studentId := students.studentId s;
     students.firstName := students.firstName s;
     students.lastName := students.lastName s;
     students.groupId := students.groupId s;
     students.accessLevel := students.accessLevel s;
     students.isActive := students.isActive s;
     students.createdAt := students.createdAt s;
     students.updatedAt := Some t |}.

Definition update_students (p : students.row -> bool)
  (f : students.row -> students.row) : M unit :=
  roundtrip (Update Tstudents) ;;;
  modify (fun st =>
    with_students st (map (fun s => if p s then f s else s) (students_tbl st))
      (students_id_seq st)).

(** [db.delete(homework).where(p)]. *)
Definition delete_homework (p : homework.row -> bool) : M unit :=
  roundtrip (Delete Thomework) ;;;
  modify (fun st =>
    with_homework st (filter (fun h => negb (p h)) (homework_tbl st))
      (homework_id_seq st)).

(** ** The roster: [AUTHORIZED_STUDENTS] of [studentRegistration.ts] *)

Module roster.
Record entry := {
  groupId : Z;
  firstName : option string;
  lastName : option string;
  accessLevel : string
}.
End roster.

Definition AUTHORIZED_STUDENTS : list (string * roster.entry) :=
  [ ("ST001", {| roster.groupId := 1; roster.firstName := Some "Иван";
                 roster.lastName := Some "Петров"; roster.accessLevel := "student" |});
    ("ST002", {| roster.groupId := 1; roster.firstName := Some "Мария";
                 roster.lastName := Some "Сидорова"; roster.accessLevel := "monitor" |});
    ("ST003", {| roster.groupId := 2; roster.firstName := Some "Алексей";
                 roster.lastName := Some "Козлов"; roster.accessLevel := "student" |});
    ("ST004", {| roster.groupId := 2; roster.firstName := Some "Анна";
                 roster.lastName := Some "Волкова"; roster.accessLevel := "admin" |});
    ("ST005", {| roster.groupId := 3; roster.firstName := Some "Дмитрий";
                 roster.lastName := Some "Новиков"; roster.accessLevel := "owner" |});
    ("ST006", {| roster.groupId := 3; roster.firstName := Some "Екатерина";
                 roster.lastName := Some "Смирнова"; roster.accessLevel := "student" |}) ]%string.

(** [AUTHORIZED_STUDENTS[key]]. The key is always an upper-cased string and
    every property name of [Object.prototype] has a lower-case letter, so
    only the own properties of the literal can be hit. *)
Fixpoint lookup_key {A} (k : string) (l : list (string * A)) : option A :=
  match l with
  | [] => None
  | (k', v) :: l' => if String.eqb k k' then Some v else lookup_key k l'
  end.

(** ** Tool inputs and outputs (the zod schemas) *)

Module registration.
Record input := {
  telegramUserId : Z;
  telegramUsername : option string;
  studentId : string;
  firstName : option string;
  lastName : option string
}.
Record student_out := {
  id : Z;
  out_studentId : string;
  out_firstName : option string;
  out_lastName : option string;
  groupId : option Z;
  groupName : string;
  accessLevel : string
}.
Record result := {
  success : bool;
  student : option student_out;
  message : string
}.
End registration.

Module verification.
Record input := {
  telegramUserId : Z;
  telegramUsername : option string
}.
Record student_out := {
  id : Z;
  studentId : string;
  firstName : option string;
  lastName : option string;
  groupId : option Z;
  groupName : option string;
  accessLevel : string;
  isActive : bool
}.
Record result := {
  isVerified : bool;
  student : option student_out;
  message : string
}.
End verification.

Module add.
Record input := {
  createdByTelegramId : Z;
  title : string;
  description : option string;
  subject : option string;
  dueDate : option string;
  groupId : option Z
}.
Record homework_out := {
  id : Z;
  out_title : string;
  out_description : option string;
  out_subject : option string;
  out_dueDate : option string;
  groupName : string
}.
Record result := {
  success : bool;
  homework : option homework_out;
  message : string
}.
End add.

Module view.
Record input := {
  telegramUserId : Z;
  groupId : option Z;
  limit : Z
}.
Record item := {
  id : Z;
  title : string;
  description : option string;
  subject : option string;
  dueDate : option string;
  groupName : string;
  creatorName : option string;
  createdAt : string
}.
Record result := {
  success : bool;
  homeworkList : list item;
  message : string
}.
End view.

Module delete.
Record input := {
  telegramUserId : Z;
  homeworkId : Z
}.
Record result := {
  success : bool;
  message : string
}.
End delete.

(** ** The tools *)

Definition opt_string_eqb (a b : option string) : bool :=
  match a, b with
  | Some x, Some y => String.eqb x y
  | None, None => true
  | _, _ => false
  end.

(** The tiers that may add and delete homework, and those that may view
    another group's homework. *)
Definition hasPermission (accessLevel : option string) : bool :=
  includes ["monitor"; "admin"; "owner"]%string (or_default accessLevel "student").

Definition isAdmin (accessLevel : option string) : bool :=
  includes ["admin"; "owner"]%string (or_default accessLevel "student").

Section Tools.

(** [String.prototype.toUpperCase], [String.prototype.trim],
    [new Date(s).getTime()] ([None] for an Invalid Date) and
    [Date.prototype.toISOString]. *)
Variable toUpperCase : string -> string.
Variable trim : string -> string.
Variable Date_parse : string -> option Z.
Variable toISOString : Z -> string.

Definition iso (d : option Z) : option string := option_map toISOString d.

(** *** [studentRegistrationTool] *)

Definition reg_fail (m : string) : registration.result :=
  {| registration.success := false; registration.student := None;
     registration.message := m |}.

Definition msg_db_config : string := "Ошибка подключения к базе данных".

Definition msg_reg_not_authorized (studentId : string) : string :=
  "ID студента " ^^ dq ^^ studentId ^^ dq
  ^^ " не найден в списке авторизованных. Доступ запрещен.".

Definition msg_reg_already : string := "Вы уже зарегистрированы в системе!".

Definition msg_reg_taken (studentId : string) : string :=
  "ID студента " ^^ dq ^^ studentId ^^ dq
  ^^ " уже используется другим пользователем Telegram.".

Definition msg_reg_bound (studentId : string) : string :=
  "Ваш Telegram аккаунт уже связан с ID студента " ^^ dq ^^ studentId ^^ dq ^^ ".".

Definition msg_reg_welcome (firstName : option string) (groupName : string) : string :=
  "Добро пожаловать! Вы успешно зарегистрированы как "
  ^^ or_default firstName "студент" ^^ " в группе " ^^ dq ^^ groupName ^^ dq ^^ ".".

Definition msg_reg_error : string :=
  "Произошла ошибка при регистрации. Попробуйте позже.".

(** [groupResult[0]?.groupName || "Неизвестно"]. *)
Definition groupName_of (groupResult : list groups.row) : string :=
  or_default (option_map groups.groupName (hd_error groupResult)) "Неизвестно".

Definition reg_student (s : students.row) (groupName : string)
  : registration.student_out :=
  {| registration.id := students.id s;
     registration.out_studentId := students.studentId s;
     registration.out_firstName := students.firstName s;
     registration.out_lastName := students.lastName s;
     registration.groupId := students.groupId s;
     registration.groupName := groupName;
     registration.accessLevel := or_default (students.accessLevel s) "student" |}.

(** The values of the INSERT: the roster decides group and tier, the names
    fall back to the roster's. The columns the code leaves out ([id],
    [createdAt], [updatedAt]) are set by [students_stored]; what stands in
    them here is never read. *)
Definition newStudentData (i : registration.input) (authorizedStudent : roster.entry)
  : students.row :=
  {| students.id := 0;
     students.telegramUserId := registration.telegramUserId i;
     students.telegramUsername := or_else (registration.telegramUsername i) None;
     students.studentId := toUpperCase (registration.studentId i);
     students.firstName :=
       or_else (or_else (registration.firstName i)
                  (roster.firstName authorizedStudent)) None;
     students.lastName :=
       or_else (or_else (registration.lastName i)
                  (roster.lastName authorizedStudent)) None;
     students.groupId := Some (roster.groupId authorizedStudent);
     students.accessLevel := Some (roster.accessLevel authorizedStudent);
     students.isActive := Some true;
     students.createdAt := None;
     students.updatedAt := None |}.

Definition registration_body (env : Env) (i : registration.input)
  : M registration.result :=
  let telegramUserId := registration.telegramUserId i in
  let studentId := registration.studentId i in
  match lookup_key (toUpperCase studentId) AUTHORIZED_STUDENTS with
  | None => ret (reg_fail (msg_reg_not_authorized studentId))
  | Some authorizedStudent =>
    if negb (truthy (DATABASE_URL env)) then ret (reg_fail msg_db_config)
    else
      existingStudent <-
        select_students
          (fun s => String.eqb (students.studentId s) (toUpperCase studentId)) 1 ;;
      match existingStudent with
      | existing :: _ =>
        if students.telegramUserId existing =? telegramUserId then
          groupResult <-
            select_groups
              (fun g => sql_eq (Some (groups.id g)) (students.groupId existing)) 1 ;;
          ret {| registration.success := true;
                 registration.student :=
                   Some (reg_student existing (groupName_of groupResult));
                 registration.message := msg_reg_already |}
        else ret (reg_fail (msg_reg_taken studentId))
      | [] =>
        existingTelegramUser <-
          select_students (fun s => students.telegramUserId s =? telegramUserId) 1 ;;
        match existingTelegramUser with
        | other :: _ => ret (reg_fail (msg_reg_bound (students.studentId other)))
        | [] =>
          insertResult <-
            insert_students env (newStudentData i authorizedStudent) ;;
          groupResult <-
            select_groups
              (fun g => groups.id g =? roster.groupId authorizedStudent) 1 ;;
          match insertResult with
          | newStudent :: _ =>
            let groupName := groupName_of groupResult in
            ret {| registration.success := true;
                   registration.student := Some (reg_student newStudent groupName);
                   registration.message :=
                     msg_reg_welcome (students.firstName newStudent) groupName |}
          | [] => throw
          end
        end
      end
  end.

Definition studentRegistrationTool (env : Env) (i : registration.input)
  : Store -> Run registration.result :=
  exec env (registration_body env i) (reg_fail msg_reg_error).

(** *** [studentVerificationTool] *)

Definition ver_fail (m : string) : verification.result :=
  {| verification.isVerified := false; verification.student := None;
     verification.message := m |}.

Definition msg_ver_not_found : string :=
  "Пользователь не найден в базе данных класса. Доступ запрещен.".

Definition msg_ver_deactivated : string :=
  "Учетная запись студента деактивирована. Обратитесь к администратору.".

Definition msg_ver_welcome (firstName telegramUsername groupName : option string)
  : string :=
  "Добро пожаловать, " ^^ or_default (or_else firstName telegramUsername) "студент"
  ^^ "! Ваша группа: " ^^ or_default groupName "не назначена".

Definition msg_ver_error : string :=
  "Произошла ошибка при проверке данных. Попробуйте позже.".

Definition ver_student (s : students.row) (g : option groups.row)
  : verification.student_out :=
  {| verification.id := students.id s;
     verification.studentId := students.studentId s;
     verification.firstName := students.firstName s;
     verification.lastName := students.lastName s;
     verification.groupId := students.groupId s;
     verification.groupName := option_map groups.groupName g;
     verification.accessLevel := or_default (students.accessLevel s) "student";
     verification.isActive := truthyB (students.isActive s) || true |}.

(** The joined lookup of the caller: [students LEFT JOIN groups ... WHERE
    telegram_user_id = $1 LIMIT 1]. *)
Definition select_student_with_group (telegramUserId : Z)
  : M (list (students.row * option groups.row)) :=
  roundtrip (Select Tstudents) ;;;
  rows <- read (fun st =>
    filter (fun r => students.telegramUserId (fst r) =? telegramUserId)
      (leftJoin (fun s g => sql_eq (students.groupId s) (Some (groups.id g)))
         (students_tbl st) (groups_tbl st))) ;;
  limit 1 rows.

Definition verification_body (env : Env) (i : verification.input)
  : M verification.result :=
  let telegramUserId := verification.telegramUserId i in
  let telegramUsername := verification.telegramUsername i in
  if negb (truthy (DATABASE_URL env)) then ret (ver_fail msg_db_config)
  else
    result <- select_student_with_group telegramUserId ;;
    match result with
    | [] => ret (ver_fail msg_ver_not_found)
    | (student, group) :: _ =>
      if negb (truthyB (students.isActive student)) then
        ret (ver_fail msg_ver_deactivated)
      else
        match telegramUsername with
        | Some username =>
          if truthy telegramUsername
             && negb (opt_string_eqb telegramUsername
                        (students.telegramUsername student))
          then
            try_catch
              (update_students
                 (fun s => students.telegramUserId s =? telegramUserId)
                 (set_username username (now env)))
              (ret tt)
          else ret tt
        | None => ret tt
        end ;;;
        ret {| verification.isVerified := true;
               verification.student := Some (ver_student student group);
               verification.message :=
                 msg_ver_welcome (students.firstName student) telegramUsername
                   (option_map groups.groupName group) |}
    end.

Definition studentVerificationTool (env : Env) (i : verification.input)
  : Store -> Run verification.result :=
  exec env (verification_body env i) (ver_fail msg_ver_error).

(** *** [addHomeworkTool] *)

Definition add_fail (m : string) : add.result :=
  {| add.success := false; add.homework := None; add.message := m |}.

Definition msg_user_not_found : string := "Пользователь не найден в базе данных".

Definition msg_add_denied : string :=
  "У вас нет прав для добавления домашних заданий. Обратитесь к старосте или администратору.".

Definition msg_add_no_group : string :=
  "Не удалось определить группу для домашнего задания".

Definition msg_add_group_missing : string := "Группа не найдена".

Definition msg_add_ok (title groupName : string) : string :=
  "Домашнее задание " ^^ dq ^^ title ^^ dq ^^ " успешно добавлено для группы "
  ^^ dq ^^ groupName ^^ dq ^^ ".".

Definition msg_add_error : string :=
  "Произошла ошибка при создании домашнего задания".

(** [new Date(dueDate)] followed by the [isNaN(getTime())] test; the
    constructor does not throw on a string, so the inner [catch] is dead. *)
Definition parse_dueDate (dueDate : option string) : option Z :=
  match dueDate with
  | Some d => if truthy dueDate then Date_parse d else None
  | None => None
  end.

Definition add_body (env : Env) (i : add.input) : M add.result :=
  if negb (truthy (DATABASE_URL env)) then ret (add_fail msg_db_config)
  else
    creator <-
      select_students
        (fun s => students.telegramUserId s =? add.createdByTelegramId i) 1 ;;
    match creator with
    | [] => ret (add_fail msg_user_not_found)
    | creatorData :: _ =>
      if negb (hasPermission (students.accessLevel creatorData)) then
        ret (add_fail msg_add_denied)
      else
        let targetGroupId := or_elseZ (add.groupId i) (students.groupId creatorData) in
        if negb (truthyZ targetGroupId) then ret (add_fail msg_add_no_group)
        else
          groupResult <-
            select_groups (fun g => sql_eq (Some (groups.id g)) targetGroupId) 1 ;;
          match groupResult with
          | [] => ret (add_fail msg_add_group_missing)
          | group :: _ =>
            let parsedDueDate := parse_dueDate (add.dueDate i) in
            newHomework <-
              insert_homework env
                {| homework.id := 0;
                   homework.title := add.title i;
                   homework.description := or_else (add.description i) None;
                   homework.dueDate := parsedDueDate;
                   homework.subject := or_else (add.subject i) None;
                   homework.groupId := targetGroupId;
                   homework.createdBy := Some (students.id creatorData);
                   homework.createdAt := None;
                   homework.updatedAt := None |} ;;
            match newHomework with
            | created :: _ =>
              ret {| add.success := true;
                     add.homework :=
                       Some {| add.id := homework.id created;
                               add.out_title := homework.title created;
                               add.out_description := homework.description created;
                               add.out_subject := homework.subject created;
                               add.out_dueDate :=
                                 or_else (iso (homework.dueDate created)) None;
                               add.groupName := groups.groupName group |};
                     add.message :=
                       msg_add_ok (add.title i) (groups.groupName group) |}
            | [] => throw
            end
          end
    end.

Definition addHomeworkTool (env : Env) (i : add.input) : Store -> Run add.result :=
  exec env (add_body env i) (add_fail msg_add_error).

(** *** [viewHomeworkTool] *)

Definition view_fail (m : string) : view.result :=
  {| view.success := false; view.homeworkList := []; view.message := m |}.

Definition msg_view_no_group : string := "Группа не определена".

Definition msg_view_found (n : nat) : string :=
  "Найдено " ^^ show_nat n ^^ " домашних заданий".

Definition msg_view_none : string := "Домашние задания не найдены".

Definition msg_view_error : string :=
  "Произошла ошибка при получении домашних заданий".

(** A row of [homework LEFT JOIN groups LEFT JOIN students]. *)
Definition joined : Type := homework.row * option groups.row * option students.row.

Definition joined_hw (r : joined) : homework.row := fst (fst r).

(** The group the listing is taken from: the requested one for an admin or
    owner who names a group, the caller's own otherwise. *)
Definition view_target (accessLevel : option string) (requested own : option Z)
  : option Z :=
  if negb (isAdmin accessLevel) || negb (truthyZ requested)
  then or_elseZ own None
  else requested.

(** [homework LEFT JOIN groups LEFT JOIN students WHERE homework.group_id =
    $1 ORDER BY homework.created_at DESC]. *)
Definition joined_rows (st : Store) (targetGroupId : option Z) : list joined :=
  orderBy_desc (fun r => homework.createdAt (joined_hw r))
    (filter (fun r => sql_eq (homework.groupId (joined_hw r)) targetGroupId)
       (leftJoin
          (fun (r : homework.row * option groups.row) s =>
             sql_eq (homework.createdBy (fst r)) (Some (students.id s)))
          (leftJoin
             (fun h g => sql_eq (homework.groupId h) (Some (groups.id g)))
             (homework_tbl st) (groups_tbl st))
          (students_tbl st))).

Definition select_homework_joined (targetGroupId : option Z) (n : Z)
  : M (list joined) :=
  roundtrip (Select Thomework) ;;;
  rows <- read (fun st => joined_rows st targetGroupId) ;;
  limit n rows.

Definition view_item (r : joined) : view.item :=
  let hw := joined_hw r in
  let creatorFirstName :=
    match snd r with Some s => students.firstName s | None => None end in
  let creatorLastName :=
    match snd r with Some s => students.lastName s | None => None end in
  {| view.id := homework.id hw;
     view.title := homework.title hw;
     view.description := homework.description hw;
     view.subject := homework.subject hw;
     view.dueDate := or_else (iso (homework.dueDate hw)) None;
     view.groupName :=
       or_default (option_map groups.groupName (snd (fst r))) "Неизвестно";
     view.creatorName :=
       if truthy creatorFirstName
       then Some (trim (or_default creatorFirstName EmptyString ^^ " "
                        ^^ or_default creatorLastName EmptyString))
       else None;
     view.createdAt := or_default (iso (homework.createdAt hw)) EmptyString |}.

Definition view_body (env : Env) (i : view.input) : M view.result :=
  if negb (truthy (DATABASE_URL env)) then ret (view_fail msg_db_config)
  else
    user <-
      select_students (fun s => students.telegramUserId s =? view.telegramUserId i) 1 ;;
    match user with
    | [] => ret (view_fail msg_user_not_found)
    | userData :: _ =>
      let targetGroupId :=
        view_target (students.accessLevel userData) (view.groupId i)
          (students.groupId userData) in
      if negb (truthyZ targetGroupId) then ret (view_fail msg_view_no_group)
      else
        homeworkResults <- select_homework_joined targetGroupId (view.limit i) ;;
        let homeworkList := map view_item homeworkResults in
        ret {| view.success := true;
               view.homeworkList := homeworkList;
               view.message :=
                 if (0 <? List.length homeworkList)%nat
                 then msg_view_found (List.length homeworkList)
                 else msg_view_none |}
    end.

Definition viewHomeworkTool (env : Env) (i : view.input) : Store -> Run view.result :=
  exec env (view_body env i) (view_fail msg_view_error).

(** *** [deleteHomeworkTool] *)

Definition del_fail (m : string) : delete.result :=
  {| delete.success := false; delete.message := m |}.

Definition msg_del_denied : string :=
  "У вас нет прав для удаления домашних заданий. Обратитесь к старосте или администратору.".

Definition msg_del_not_found : string := "Домашнее задание не найдено".

Definition msg_del_ok (title : string) : string :=
  "Домашнее задание " ^^ dq ^^ title ^^ dq ^^ " успешно удалено.".

Definition msg_del_error : string :=
  "Произошла ошибка при удалении домашнего задания".

Definition delete_body (env : Env) (i : delete.input) : M delete.result :=
  if negb (truthy (DATABASE_URL env)) then ret (del_fail msg_db_config)
  else
    user <-
      select_students
        (fun s => students.telegramUserId s =? delete.telegramUserId i) 1 ;;
    match user with
    | [] => ret (del_fail msg_user_not_found)
    | userData :: _ =>
      if negb (hasPermission (students.accessLevel userData)) then
        ret (del_fail msg_del_denied)
      else
        existingHomework <-
          select_homework (fun h => homework.id h =? delete.homeworkId i) 1 ;;
        match existingHomework with
        | [] => ret (del_fail msg_del_not_found)
        | existing :: _ =>
          delete_homework (fun h => homework.id h =? delete.homeworkId i) ;;;
          ret {| delete.success := true;
                 delete.message := msg_del_ok (homework.title existing) |}
        end
    end.

Definition deleteHomeworkTool (env : Env) (i : delete.input)
  : Store -> Run delete.result :=
  exec env (delete_body env i) (del_fail msg_del_error).

End Tools.

(** ** A concrete runtime and database, for evaluating the tools *)

(** [toUpperCase] on a string of ASCII characters. *)
Definition upper_char (c : ascii) : ascii :=
  let n := nat_of_ascii c in
  if ((97 <=? n) && (n <=? 122))%nat then ascii_of_nat (n - 32) else c.

Fixpoint upper_ascii (s : string) : string :=
  match s with
  | EmptyString => EmptyString
  | String c s' => String (upper_char c) (upper_ascii s')
  end.

(** [trim] on a string whose only white space is the ASCII space. *)
Fixpoint trim_left (s : string) : string :=
  match s with
  | String c s' => if Ascii.eqb c " " then trim_left s' else s
  | EmptyString => EmptyString
  end.

Fixpoint rev_string (s acc : string) : string :=
  match s with
  | EmptyString => acc
  | String c s' => rev_string s' (String c acc)
  end.

Definition trim_spaces (s : string) : string :=
  rev_string (trim_left (rev_string (trim_left s) EmptyString)) EmptyString.

(** A [Date] that knows one instant: enough to run a tool on a date that
    parses and on one that does not. *)
Definition sample_Date_parse (s : string) : option Z :=
  if String.eqb s "2025-09-01 10:00" then Some 1756720800000 else None.

Definition sample_toISOString (t : Z) : string :=
  if t =? 1756720800000 then "2025-09-01T10:00:00.000Z"
  else "t" ^^ show_nat (Z.to_nat t).

Definition sample_group (id : Z) (name : string) : groups.row :=
  {| groups.id := id; groups.groupName := name;
     groups.description := None; groups.createdAt := Some 0 |}.

Definition sample_student (id tg : Z) (sid : string) (first : string) (g : Z)
  (level : string) (active : bool) : students.row :=
  {| students.id := id; students.telegramUserId := tg;
     students.telegramUsername := None; students.studentId := sid;
     students.firstName := Some first; students.lastName := None;
     students.groupId := Some g; students.accessLevel := Some level;
     students.isActive := Some active;
     students.createdAt := Some 0; students.updatedAt := Some 0 |}.

Definition sample_homework (id : Z) (title : string) (g by_ at_ : Z) : homework.row :=
  {| homework.id := id; homework.title := title;
     homework.description := None; homework.dueDate := None;
     homework.subject := None; homework.groupId := Some g;
     homework.createdBy := Some by_;
     homework.createdAt := Some at_; homework.updatedAt := Some at_ |}.

(** Three groups; a student (ST003, group 2), an active monitor (ST002,
    group 1), a deactivated monitor (ST007, group 1) and an admin (ST004,
    group 2); one piece of homework in each of groups 1 and 2. *)
Definition alexey : students.row :=
  sample_student 1 1003 "ST003" "Алексей" 2 "student" true.
Definition maria : students.row :=
  sample_student 2 1002 "ST002" "Мария" 1 "monitor" true.
Definition oleg : students.row :=
  sample_student 3 1007 "ST007" "Олег" 1 "monitor" false.
Definition anna : students.row :=
  sample_student 4 1004 "ST004" "Анна" 2 "admin" true.

Definition group1 : groups.row := sample_group 1 "Группа 1".
Definition group2 : groups.row := sample_group 2 "Группа 2".
Definition group3 : groups.row := sample_group 3 "Группа 3".

Definition algebra : homework.row := sample_homework 1 "Алгебра" 1 2 10.
Definition physics : homework.row := sample_homework 2 "Физика" 2 2 20.

Definition sample_store : Store :=
  {| groups_tbl := [group1; group2; group3];
     students_tbl := [alexey; maria; oleg; anna];
     homework_tbl := [algebra; physics];
     students_id_seq := 5;
     homework_id_seq := 3 |}.

Definition sample_env : Env :=
  {| DATABASE_URL := Some "postgres://classroom"%string; now := 100; outages := [] |}.

(** No connection string, and a store that would not answer anyway. *)
Definition env_down : Env :=
  {| DATABASE_URL := None; now := 100; outages := [true; true; true; true] |}.

(** The lookup goes through and the statement after it throws. *)
Definition env_flaky : Env :=
  {| DATABASE_URL := Some "postgres://classroom"%string; now := 100;
     outages := [false; true] |}.

Definition registrationTool := studentRegistrationTool upper_ascii.
Definition addTool := addHomeworkTool sample_Date_parse sample_toISOString.
Definition viewTool := viewHomeworkTool trim_spaces sample_toISOString.

Definition reg_42 : registration.input :=
  {| registration.telegramUserId := 42; registration.telegramUsername := None;
     registration.studentId := "st001";
     registration.firstName := None; registration.lastName := None |}.

Definition reg_42_again : registration.input :=
  {| registration.telegramUserId := 42;
     registration.telegramUsername := Some "ivan42"%string;
     registration.studentId := "st001";
     registration.firstName := Some "Ваня"%string; registration.lastName := None |}.

Definition reg_43 : registration.input :=
  {| registration.telegramUserId := 43; registration.telegramUsername := None;
     registration.studentId := "St001";
     registration.firstName := None; registration.lastName := None |}.

Definition reg_unlisted : registration.input :=
  {| registration.telegramUserId := 44; registration.telegramUsername := None;
     registration.studentId := "st999";
     registration.firstName := None; registration.lastName := None |}.

Definition verify_oleg : verification.input :=
  {| verification.telegramUserId := 1007; verification.telegramUsername := None |}.

Definition verify_maria : verification.input :=
  {| verification.telegramUserId := 1002;
     verification.telegramUsername := Some "masha"%string |}.

Definition add_by (t : Z) (dueDate : string) : add.input :=
  {| add.createdByTelegramId := t; add.title := "Геометрия";
     add.description := None; add.subject := None;
     add.dueDate := Some dueDate; add.groupId := None |}.

Definition view_by (t : Z) (groupId : option Z) : view.input :=
  {| view.telegramUserId := t; view.groupId := groupId; view.limit := 10 |}.

Definition delete_by (t : Z) (homeworkId : Z) : delete.input :=
  {| delete.telegramUserId := t; delete.homeworkId := homeworkId |}.

(** ** Predicates used in the statements *)

(** No round trip of the call hits an outage. *)
Definition quiet (fs : list bool) : Prop := forallb negb fs = true.

(** The store is configured and reachable for the whole call. *)
Definition reliable (env : Env) : Prop :=
  truthy (DATABASE_URL env) = true /\ quiet (outages env).

(** The connection after one statement went through. *)
Definition step (c : Conn) (q : Query) : Conn :=
  {| db := db c; faults := tl (faults c); log := log c ++ [q] |}.

(** The [unique()] constraint on [students.telegram_user_id] and the primary
    key of [homework]. *)
Definition unique_telegramUserId (st : Store) : Prop :=
  NoDup (map students.telegramUserId (students_tbl st)).

Definition unique_homework_id (st : Store) : Prop :=
  NoDup (map homework.id (homework_tbl st)).

(** [u] is the Student row bound to the external identity [t]. *)
Definition bound_to (st : Store) (t : Z) (u : students.row) : Prop :=
  In u (students_tbl st) /\ students.telegramUserId u = t.

(** The tiers above [student]. *)
Definition privileged (accessLevel : option string) : Prop :=
  In accessLevel [Some "monitor"; Some "admin"; Some "owner"]%string.

(** The group row that the verification query joins to a student. *)
Definition group_of (st : Store) (u : students.row) : option groups.row :=
  hd_error
    (filter (fun g => sql_eq (students.groupId u) (Some (groups.id g)))
       (groups_tbl st)).

(** The [students] table after [UPDATE ... SET telegram_username = h,
    updated_at = now WHERE telegram_user_id = t] went through. *)
Definition handle_updated (st : Store) (t : Z) (h : string) (now : Z) : Store :=
  with_students st
    (map (fun s => if students.telegramUserId s =? t then set_username h now s else s)
       (students_tbl st))
    (students_id_seq st).

(** The rows, if any, that hold the roster key of [studentId]. *)
Definition holders (toUpperCase : string -> string) (studentId : string) (st : Store)
  : list students.row :=
  filter (fun s => String.eqb (students.studentId s) (toUpperCase studentId))
    (students_tbl st).

(** The answer of Registration to a caller whose identity already holds the
    key through row [e]. *)
Definition already (e : students.row) (st : Store) : registration.result :=
  {| registration.success := true;
     registration.student :=
       Some (reg_student e
               (groupName_of
                  (firstn 1
                     (filter (fun g => sql_eq (Some (groups.id g)) (students.groupId e))
                        (groups_tbl st)))));
     registration.message := msg_reg_already |}.

(** The primary key of [groups]. *)
Definition unique_groups_id (st : Store) : Prop :=
  NoDup (map groups.id (groups_tbl st)).

(** The [serial] sequence of [homework] is ahead of every id in use, as it
    is when ids only ever come from the sequence. *)
Definition homework_seq_ahead (st : Store) : Prop :=
  Forall (fun h => homework.id h < homework_id_seq st) (homework_tbl st).

(** The values that Add inserts when the due date is absent or does not
    parse ([id], [createdAt] and [updatedAt] are set by [homework_stored]). *)
Definition undated_homework (i : add.input) (u : students.row) : homework.row :=
  {| homework.id := 0;
     homework.title := add.title i;
     homework.description := or_else (add.description i) None;
     homework.dueDate := None;
     homework.subject := or_else (add.subject i) None;
     homework.groupId := or_elseZ (add.groupId i) (students.groupId u);
     homework.createdBy := Some (students.id u);
     homework.createdAt := None;
     homework.updatedAt := None |}.

(** The listed item shows a row of [homework] that belongs to group [g]. *)
Definition item_of_group (st : Store) (g : option Z) (it : view.item) : Prop :=
  exists h, In h (homework_tbl st)
            /\ homework.id h = view.id it
            /\ homework.title h = view.title it
            /\ homework.groupId h = g.

(** The same database with the [is_active] column rewritten by [f]. *)
Definition reflag_row (f : students.row -> option bool) (s : students.row)
  : students.row :=
  {| students.id := students.id s;
     students.telegramUserId := students.telegramUserId s;
     students.telegramUsername := students.telegramUsername s;
     students.studentId := students.studentId s;
     students.firstName := students.firstName s;
     students.lastName := students.lastName s;
     students.groupId := students.groupId s;
     students.accessLevel := students.accessLevel s;
     students.isActive := f s;
     students.createdAt := students.createdAt s;
     students.updatedAt := students.updatedAt s |}.

Definition reflag (f : students.row -> option bool) (st : Store) : Store :=
  with_students st (map (reflag_row f) (students_tbl st)) (students_id_seq st).

Definition reflag_run {A} (f : students.row -> option bool) (r : Run A) : Run A :=
  {| output := output r; store := reflag f (store r); queries := queries r |}.

(** A joined listing row whose student side is re-flagged. *)
Definition reflag_joined (f : students.row -> option bool) (r : joined) : joined :=
  (fst r, option_map (reflag_row f) (snd r)).

(** The constraints and the sequence position that the statements rely on,
    together: an invariant of the five tools. *)
Definition store_ok (st : Store) : Prop :=
  unique_telegramUserId st /\ unique_homework_id st /\ unique_groups_id st
  /\ homework_seq_ahead st.

(** A checker for the uniqueness hypotheses on concrete tables. *)
Fixpoint distinctZ (l : list Z) : bool :=
  match l with
  | [] => true
  | x :: l' => negb (existsb (Z.eqb x) l') && distinctZ l'
  end.

(** ** Further predicates *)

(** The [serial] sequence of [students] is ahead of every id in use. *)
Definition students_seq_ahead (st : Store) : Prop :=
  Forall (fun s => students.id s < students_id_seq st) (students_tbl st).

(** No Student row is bound to the external identity [t]. *)
Definition unbound (st : Store) (t : Z) : Prop :=
  forall s, In s (students_tbl st) -> students.telegramUserId s <> t.

(** No Group row has the id [g]. *)
Definition no_group (st : Store) (g : Z) : Prop :=
  forall r, In r (groups_tbl st) -> groups.id r <> g.

(** A Student row without the two columns that Verification may write. *)
Definition forget_handle (s : students.row) : students.row :=
  {| students.id := students.id s;
     students.telegramUserId := students.telegramUserId s;
     students.telegramUsername := None;
     students.studentId := students.studentId s;
     students.firstName := students.firstName s;
     students.lastName := students.lastName s;
     students.groupId := students.groupId s;
     students.accessLevel := students.accessLevel s;
     students.isActive := students.isActive s;
     students.createdAt := students.createdAt s;
     students.updatedAt := None |}.

(** The answer of Verification for an active row [u] joined to [g]. *)
Definition verified (u : students.row) (g : option groups.row)
  (telegramUsername : option string) : verification.result :=
  {| verification.isVerified := true;
     verification.student := Some (ver_student u g);
     verification.message :=
       msg_ver_welcome (students.firstName u) telegramUsername
         (option_map groups.groupName g) |}.

(** The primary key of [students]. *)
Definition unique_students_id (st : Store) : Prop :=
  NoDup (map students.id (students_tbl st)).

(** What a listing by falling creation time promises of a row shown above
    another: it was not created before the other one. A row without a
    creation time is shown above every dated row. *)
Definition not_older (a b : option Z) : Prop :=
  match a, b with
  | Some x, Some y => y <= x
  | None, _ => True
  | Some _, None => False
  end.

(** The homework rows of group [g], in table order. *)
Definition homework_of (st : Store) (g : option Z) : list homework.row :=
  filter (fun h => sql_eq (homework.groupId h) g) (homework_tbl st).

(** Everything [shared/schema.ts] declares for the three tables, with the
    two sequences ahead of the ids in use: primary keys, the [unique()]
    columns of [students], and the foreign keys of [students] and
    [homework]. *)
Definition schema_ok (st : Store) : Prop :=
  unique_groups_id st
  /\ unique_students_id st
  /\ unique_telegramUserId st
  /\ NoDup (map students.studentId (students_tbl st))
  /\ unique_homework_id st
  /\ Forall (fun s => fk_group st (students.groupId s) = true) (students_tbl st)
  /\ Forall (fun h => fk_group st (homework.groupId h) = true
                      /\ fk_student st (homework.createdBy h) = true)
       (homework_tbl st)
  /\ students_seq_ahead st
  /\ homework_seq_ahead st.

(** ** The Bot API transport: [telegramMessaging.ts] and the delivery step

    [fetch] is the one effect: it is asked at most once per call, and what
    it was asked is kept beside the answer. A thrown value is kept as the
    text that [String(error)] gives for it. *)

Inductive Attempt (A : Type) :=
| Done (a : A)
| Failed (error : string).
Arguments Done {A} a.
Arguments Failed {A} error.

(** A value as [JSON.parse] builds it; an object lists its members in the
    order of the text. *)
#[warnings="-register-all"]
Inductive JSON :=
| JNull
| JBool (b : bool)
| JNumber (n : Z)
| JString (s : string)
| JArray (items : list JSON)
| JObject (members : list (string * JSON)).

Module keyboard.
Record button := {
  text : string;
  callback_data : string
}.
End keyboard.

(** [replyMarkup]: an object whose [inline_keyboard] is optional. *)
Record ReplyMarkup := {
  inline_keyboard : option (list (list keyboard.button))
}.

Module payload.
Record t := {
  chat_id : Z;
  text : string;
  parse_mode : string;
  reply_markup : option ReplyMarkup
}.
End payload.

(** The arguments of [fetch]. The body is [JSON.stringify(payload)]; the
    payload is kept as the object it is made from. *)
Record Request := {
  url : string;
  method : string;
  content_type : string;
  body : payload.t
}.

Module response.
Record t := {
  ok : bool;
  status : Z;
  statusText : string;
  text : Attempt string;
  json : Attempt JSON
}.
End response.

Record Net := {
  TELEGRAM_BOT_TOKEN : option string;
  fetch : Request -> Attempt response.t
}.

Record Delivery (A : Type) := {
  reply : A;
  requests : list Request
}.
Arguments reply {A} d.
Arguments requests {A} d.

(** A number in a template literal, for an integer. *)
Definition show_Z (z : Z) : string :=
  if z <? 0 then "-" ^^ show_nat (Z.to_nat (- z)) else show_nat (Z.to_nat z).

(** [JSON.parse] keeps the last of several members with one name. *)
Definition member (k : string) (members : list (string * JSON)) : option JSON :=
  lookup_key k (rev members).

(** [v.k] for a parsed value and a name that no prototype has: [undefined]
    unless [v] is an object with that member; reading a property of [null]
    throws (the text is V8's). *)
Definition property (k : string) (v : JSON) : Attempt (option JSON) :=
  match v with
  | JNull =>
      Failed ("TypeError: Cannot read properties of null (reading '" ^^ k ^^ "')")
  | JObject members => Done (member k members)
  | _ => Done None
  end.

(** [v?.k] where [v] may be [undefined]. *)
Definition optional_property (k : string) (v : option JSON) : option JSON :=
  match v with
  | Some (JObject members) => member k members
  | _ => None
  end.

Definition sendMessage_request (botToken : string) (chatId : Z) (text : string)
  (reply_markup : option ReplyMarkup) : Request :=
  {| url := "https://api.telegram.org/bot" ^^ botToken ^^ "/sendMessage";
     method := "POST";
     content_type := "application/json";
     body := {| payload.chat_id := chatId;
                payload.text := text;
                payload.parse_mode := "HTML";
                payload.reply_markup := reply_markup |} |}.

Module send.
Record input := {
  chatId : Z;
  message : string;
  replyMarkup : option ReplyMarkup
}.
Record result := {
  success : bool;
  messageId : option JSON;
  error : option string
}.
End send.

Definition send_fail (e : string) : send.result :=
  {| send.success := false; send.messageId := None; send.error := Some e |}.

(** [if (replyMarkup && replyMarkup.inline_keyboard)]: an array is truthy
    even when empty. *)
Definition attached_markup (replyMarkup : option ReplyMarkup) : option ReplyMarkup :=
  match replyMarkup with
  | Some m =>
      match inline_keyboard m with
      | Some _ => Some m
      | None => None
      end
  | None => None
  end.

(** *** [sendTelegramMessageTool] *)
Definition sendTelegramMessageTool (net : Net) (i : send.input)
  : Delivery send.result :=
  match TELEGRAM_BOT_TOKEN net with
  | Some botToken =>
    if negb (truthy (Some botToken)) then
      {| reply := send_fail "Bot token not configured"; requests := [] |}
    else
      let request :=
        sendMessage_request botToken (send.chatId i) (send.message i)
          (attached_markup (send.replyMarkup i)) in
      {| reply :=
           match fetch net request with
           | Failed error => send_fail error
           | Done response =>
             if negb (response.ok response) then
               match response.text response with
               | Failed error => send_fail error
               | Done _ =>
                 send_fail ("Telegram API error: " ^^ show_Z (response.status response)
                            ^^ " " ^^ response.statusText response)
               end
             else
               match response.json response with
               | Failed error => send_fail error
               | Done result =>
                 match property "result" result with
                 | Failed error => send_fail error
                 | Done inner =>
                   {| send.success := true;
                      send.messageId := optional_property "message_id" inner;
                      send.error := None |}
                 end
               end
           end;
         requests := [request] |}
  | None => {| reply := send_fail "Bot token not configured"; requests := [] |}
  end.

(** *** The workflow step [send-telegram-reply] *)

Module delivery.
Record input := {
  response : string;
  chatId : Z
}.
Record result := {
  sent : bool
}.
End delivery.

Definition send_telegram_reply (net : Net) (i : delivery.input)
  : Delivery delivery.result :=
  match TELEGRAM_BOT_TOKEN net with
  | Some botToken =>
    if negb (truthy (Some botToken)) then
      {| reply := {| delivery.sent := false |}; requests := [] |}
    else
      let request :=
        sendMessage_request botToken (delivery.chatId i) (delivery.response i) None in
      {| reply :=
           match fetch net request with
           | Failed _ => {| delivery.sent := false |}
           | Done telegramResponse =>
             if negb (response.ok telegramResponse) then
               match response.text telegramResponse with
               | Failed _ => {| delivery.sent := false |}
               | Done _ => {| delivery.sent := false |}
               end
             else {| delivery.sent := true |}
           end;
         requests := [request] |}
  | None => {| reply := {| delivery.sent := false |}; requests := [] |}
  end.

(** The transport accepted the request: [fetch] resolved with [ok]. *)
Definition accepted (net : Net) (request : Request) : Prop :=
  exists r, fetch net request = Done r /\ response.ok r = true.

(** ** More sample data *)

(** A database with the three tables empty. *)
Definition empty_store : Store :=
  {| groups_tbl := []; students_tbl := []; homework_tbl := [];
     students_id_seq := 1; homework_id_seq := 1 |}.

(** A monitor whose row names no group, and the sample database with him. *)
Definition boris : students.row :=
  {| students.id := 5; students.telegramUserId := 1005;
     students.telegramUsername := None; students.studentId := "ST008";
     students.firstName := Some "Борис"%string; students.lastName := None;
     students.groupId := None; students.accessLevel := Some "monitor"%string;
     students.isActive := Some true;
     students.createdAt := Some 0; students.updatedAt := Some 0 |}.

Definition store_with_boris : Store :=
  with_students sample_store (students_tbl sample_store ++ [boris]) 6.

(** Three statements go through and the fourth hits an outage. *)
Definition env_outage_after_insert : Env :=
  {| DATABASE_URL := Some "postgres://classroom"%string; now := 100;
     outages := [false; false; false; true] |}.

Definition reg_42_caps : registration.input :=
  {| registration.telegramUserId := 42; registration.telegramUsername := None;
     registration.studentId := "ST001";
     registration.firstName := None; registration.lastName := None |}.

Definition reg_maria_second : registration.input :=
  {| registration.telegramUserId := 1002; registration.telegramUsername := None;
     registration.studentId := "st001";
     registration.firstName := None; registration.lastName := None |}.

Definition verify_42 : verification.input :=
  {| verification.telegramUserId := 42; verification.telegramUsername := None |}.

Definition verify_maria_quiet : verification.input :=
  {| verification.telegramUserId := 1002; verification.telegramUsername := None |}.

Definition add_to (t : Z) (g : Z) (dueDate : string) : add.input :=
  {| add.createdByTelegramId := t; add.title := "Геометрия";
     add.description := None; add.subject := None;
     add.dueDate := Some dueDate; add.groupId := Some g |}.

Definition view_limit (t : Z) (n : Z) : view.input :=
  {| view.telegramUserId := t; view.groupId := None; view.limit := n |}.

(** Group 1 in mid-term: three pieces of homework, entered out of the order
    of their creation times. *)
Definition essay : homework.row := sample_homework 3 "Сочинение" 1 2 30.
Definition drawing : homework.row := sample_homework 4 "Черчение" 1 3 5.

Definition term_store : Store :=
  {| groups_tbl := [group1; group2; group3];
     students_tbl := [alexey; maria; oleg; anna];
     homework_tbl := [algebra; physics; essay; drawing];
     students_id_seq := 5;
     homework_id_seq := 5 |}.

(** A transport that accepts every request the way the Bot API answers. *)
Definition bot_api_answer : response.t :=
  {| response.ok := true; response.status := 200; response.statusText := "OK";
     response.text := Done "{}"%string;
     response.json :=
       Done (JObject [("ok"%string, JBool true);
                      ("result"%string, JObject [("message_id"%string, JNumber 7)])]) |}.

Definition net_ok : Net :=
  {| TELEGRAM_BOT_TOKEN := Some "123:abc"%string;
     fetch := fun _ => Done bot_api_answer |}.

(** A transport that accepts the request and answers with a body that is
    not JSON. *)
Definition net_unparsed : Net :=
  {| TELEGRAM_BOT_TOKEN := Some "123:abc"%string;
     fetch := fun _ =>
       Done {| response.ok := true; response.status := 200;
               response.statusText := "OK";
               response.text := Done "<html>"%string;
               response.json := Failed "SyntaxError: Unexpected token <" |} |}.

Definition net_no_token : Net :=
  {| TELEGRAM_BOT_TOKEN := Some EmptyString; fetch := fun _ => Done bot_api_answer |}.

Definition hello : send.input :=
  {| send.chatId := -1001; send.message := "Привет";
     send.replyMarkup := Some {| inline_keyboard := None |} |}.

Definition hello_reply : delivery.input :=
  {| delivery.response := "Привет"; delivery.chatId := -1001 |}.

(** * Properties *)

(** ** The monad under a reachable store *)

Lemma quiet_tl (fs : list bool) : quiet fs -> quiet (tl fs).
Proof.
  unfold quiet. destruct fs as [|b fs]; simpl; auto.
  intros H. apply andb_true_iff in H. tauto.
Qed.

Lemma roundtrip_quiet (q : Query) (c : Conn) :
  quiet (faults c) -> roundtrip q c = (Ok tt, step c q).
Proof.
  unfold roundtrip, step, quiet. destruct (faults c) as [|[] fs]; simpl; auto.
  discriminate.
Qed.

Lemma bind_ok {A B} (m : M A) (k : A -> M B) (c c' : Conn) (a : A) :
  m c = (Ok a, c') -> bind m k c = k a c'.
Proof. unfold bind. intros ->. reflexivity. Qed.

Lemma select_students_quiet (p : students.row -> bool) (c : Conn) :
  quiet (faults c) ->
  select_students p 1 c
  = (Ok (firstn 1 (filter p (students_tbl (db c)))), step c (Select Tstudents)).
Proof.
  intros Hq. unfold select_students.
  rewrite (bind_ok _ _ _ _ _ (roundtrip_quiet _ _ Hq)). reflexivity.
Qed.

Lemma select_groups_quiet (p : groups.row -> bool) (c : Conn) :
  quiet (faults c) ->
  select_groups p 1 c
  = (Ok (firstn 1 (filter p (groups_tbl (db c)))), step c (Select Tgroups)).
Proof.
  intros Hq. unfold select_groups.
  rewrite (bind_ok _ _ _ _ _ (roundtrip_quiet _ _ Hq)). reflexivity.
Qed.

Lemma select_homework_quiet (p : homework.row -> bool) (c : Conn) :
  quiet (faults c) ->
  select_homework p 1 c
  = (Ok (firstn 1 (filter p (homework_tbl (db c)))), step c (Select Thomework)).
Proof.
  intros Hq. unfold select_homework.
  rewrite (bind_ok _ _ _ _ _ (roundtrip_quiet _ _ Hq)). reflexivity.
Qed.

(** The caller's lookup under any connection: it throws exactly when the
    next round trip hits an outage. *)
Lemma select_students_run (p : students.row -> bool) (c : Conn) :
  select_students p 1 c
  = (if hd false (faults c) then Throw
     else Ok (firstn 1 (filter p (students_tbl (db c)))),
     step c (Select Tstudents)).
Proof.
  unfold select_students, bind, roundtrip, step.
  destruct (faults c) as [|[] fs]; reflexivity.
Qed.

Lemma quiet_hd (fs : list bool) : quiet fs -> hd false fs = false.
Proof.
  unfold quiet. destruct fs as [|[] fs]; simpl; auto; discriminate.
Qed.

(** ** Unique keys *)

Lemma filter_none {A} (p : A -> bool) (l : list A) :
  (forall x, In x l -> p x = false) -> filter p l = [].
Proof.
  induction l as [|a l IH]; simpl; intros H; auto.
  rewrite (H a (or_introl eq_refl)). apply IH. intros x Hx. apply H. now right.
Qed.

Lemma filter_unique {A} (key : A -> Z) (l : list A) (s : A) (k : Z) :
  NoDup (map key l) -> In s l -> key s = k ->
  filter (fun x => key x =? k) l = [s].
Proof.
  induction l as [|a l IH]; simpl; intros Hnd Hin Hk; [contradiction|].
  inversion Hnd as [|? ? Hnotin Hnd']; subst.
  destruct Hin as [->|Hin].
  - rewrite Z.eqb_refl. f_equal. apply filter_none.
    intros x Hx. apply Z.eqb_neq. intros E. apply Hnotin.
    rewrite <- E. now apply in_map.
  - destruct (Z.eqb_spec (key a) (key s)) as [E|E].
    + exfalso. apply Hnotin. rewrite E. now apply in_map.
    + now apply IH.
Qed.

Lemma bound_to_select (st : Store) (t : Z) (u : students.row) :
  unique_telegramUserId st -> bound_to st t u ->
  firstn 1 (filter (fun s => students.telegramUserId s =? t) (students_tbl st)) = [u].
Proof.
  intros Hu [Hin Ht].
  now rewrite (filter_unique students.telegramUserId _ u t Hu Hin Ht).
Qed.

Lemma privileged_hasPermission (a : option string) :
  privileged a -> hasPermission a = true.
Proof.
  unfold privileged. simpl. intros [<-|[<-|[<-|[]]]]; reflexivity.
Qed.

(** Projections of a connection written as a record. *)
Ltac conn := unfold step; cbn [db faults log negb].
Ltac conn_in H := unfold step in H; cbn [db faults log negb] in H.

(** The side condition of the [_quiet] lemmas, after any number of round
    trips. *)
Ltac still_quiet := conn; repeat apply quiet_tl; assumption.

(** ** Delete *)

Lemma delete_homework_quiet (p : homework.row -> bool) (c : Conn) :
  quiet (faults c) ->
  delete_homework p c
  = (Ok tt,
     {| db := with_homework (db c) (filter (fun h => negb (p h)) (homework_tbl (db c)))
                (homework_id_seq (db c));
        faults := tl (faults c);
        log := log c ++ [Delete Thomework] |}).
Proof.
  intros Hq. unfold delete_homework.
  rewrite (bind_ok _ _ _ _ _ (roundtrip_quiet _ _ Hq)). reflexivity.
Qed.

(** C10. Delete checks the caller's tier and nothing else: a monitor, admin
    or owner deletes any existing homework, whatever group it belongs to.
    The statement has no hypothesis relating the caller's group to the
    homework's group. *)
Theorem delete_checks_tier_only
  (env : Env) (i : delete.input) (st : Store) (u : students.row) (h : homework.row) :
  reliable env ->
  unique_telegramUserId st -> unique_homework_id st ->
  bound_to st (delete.telegramUserId i) u ->
  privileged (students.accessLevel u) ->
  In h (homework_tbl st) -> homework.id h = delete.homeworkId i ->
  let r := deleteHomeworkTool env i st in
  output r = {| delete.success := true;
                delete.message := msg_del_ok (homework.title h) |}
  /\ store r
     = with_homework st
         (filter (fun x => negb (homework.id x =? delete.homeworkId i)) (homework_tbl st))
         (homework_id_seq st)
  /\ ~ In h (homework_tbl (store r))
  /\ queries r = [Select Tstudents; Select Thomework; Delete Thomework].
Proof.
  intros [Hurl Hq] Hut Huh Hu Hp Hin Hid r.
  assert (E : r =
    {| output := {| delete.success := true;
                    delete.message := msg_del_ok (homework.title h) |};
       store := with_homework st
         (filter (fun x => negb (homework.id x =? delete.homeworkId i)) (homework_tbl st))
         (homework_id_seq st);
       queries := [Select Tstudents; Select Thomework; Delete Thomework] |}).
  { subst r. unfold deleteHomeworkTool, exec, delete_body.
    rewrite Hurl. cbn [negb].
    erewrite bind_ok by (apply select_students_quiet; still_quiet).
    conn. rewrite (bound_to_select _ _ _ Hut Hu).
    rewrite (privileged_hasPermission _ Hp). cbn [negb].
    erewrite bind_ok
      by (apply select_homework_quiet; still_quiet).
    conn.
    rewrite (filter_unique homework.id _ h _ Huh Hin Hid). cbn [firstn].
    erewrite bind_ok
      by (apply delete_homework_quiet; still_quiet).
    reflexivity. }
  rewrite E. simpl. repeat split.
  intros Hin'. apply filter_In in Hin'. destruct Hin' as [_ Hne].
  rewrite Hid, Z.eqb_refl in Hne. discriminate.
Qed.

(** A caller without the tier is turned away before any statement on
    [homework], whatever the state of the connection. *)
Lemma delete_unprivileged (env : Env) (i : delete.input) (st : Store) (u : students.row) :
  unique_telegramUserId st ->
  bound_to st (delete.telegramUserId i) u ->
  hasPermission (students.accessLevel u) = false ->
  let r := deleteHomeworkTool env i st in
  delete.success (output r) = false
  /\ store r = st
  /\ (reliable env ->
      output r = del_fail msg_del_denied /\ queries r = [Select Tstudents]).
Proof.
  intros Hut Hu Hp r. subst r.
  unfold deleteHomeworkTool, exec, delete_body, reliable, quiet.
  destruct (truthy (DATABASE_URL env)); cbn [negb].
  2:{ simpl. split; [|split]; auto. intros [? _]; discriminate. }
  unfold bind. rewrite select_students_run. conn.
  destruct (hd false (outages env)) eqn:Hhd.
  - simpl. split; [|split]; auto. intros [_ Hq].
    apply quiet_hd in Hq. congruence.
  - rewrite (bound_to_select _ _ _ Hut Hu), Hp. simpl. auto.
Qed.

(** C8. A [student]-tier caller cannot delete: the call fails, with the
    authorisation message when the store answers, and the targeted row is
    still in the table. A privileged caller deleting an id that no row has
    gets the not-found failure, and no DELETE is sent. *)
Theorem delete_denied_or_not_found
  (env : Env) (i : delete.input) (st : Store) (u : students.row) :
  unique_telegramUserId st ->
  bound_to st (delete.telegramUserId i) u ->
  let r := deleteHomeworkTool env i st in
  (students.accessLevel u = Some "student"%string ->
   delete.success (output r) = false
   /\ store r = st
   /\ (forall h, In h (homework_tbl st) -> homework.id h = delete.homeworkId i ->
       In h (homework_tbl (store r)))
   /\ (reliable env -> output r = del_fail msg_del_denied))
  /\ (privileged (students.accessLevel u) ->
      (forall h, In h (homework_tbl st) -> homework.id h <> delete.homeworkId i) ->
      reliable env ->
      output r = del_fail msg_del_not_found
      /\ store r = st
      /\ queries r = [Select Tstudents; Select Thomework]).
Proof.
  intros Hut Hu r. split.
  - intros Hlvl.
    assert (Hp : hasPermission (students.accessLevel u) = false)
      by (rewrite Hlvl; reflexivity).
    destruct (delete_unprivileged env i st u Hut Hu Hp) as (Hs & Hst & Hrel).
    fold r in Hs, Hst, Hrel. repeat split; auto.
    + intros h Hin _. now rewrite Hst.
    + intros Hr. now destruct (Hrel Hr).
  - intros Hp Hnone [Hurl Hq]. subst r.
    unfold deleteHomeworkTool, exec, delete_body.
    rewrite Hurl. cbn [negb].
    erewrite bind_ok by (apply select_students_quiet; still_quiet).
    conn. rewrite (bound_to_select _ _ _ Hut Hu).
    rewrite (privileged_hasPermission _ Hp). cbn [negb].
    erewrite bind_ok by (apply select_homework_quiet; still_quiet).
    conn. rewrite filter_none.
    + simpl. auto.
    + intros h Hin. apply Z.eqb_neq. now apply Hnone.
Qed.

(** ** Registration *)

(** C6. A studentId whose upper-cased form is not a roster key is refused
    before the connection string is even read: the failure and the database
    are the same for every environment, and no statement is sent. *)
Theorem registration_unlisted_no_store_access
  (toUpperCase : string -> string)
  (env : Env) (i : registration.input) (st : Store) :
  lookup_key (toUpperCase (registration.studentId i)) AUTHORIZED_STUDENTS = None ->
  studentRegistrationTool toUpperCase env i st
  = {| output := reg_fail (msg_reg_not_authorized (registration.studentId i));
       store := st;
       queries := [] |}.
Proof.
  intros H. unfold studentRegistrationTool, exec, registration_body.
  rewrite H. reflexivity.
Qed.

(** ** Verification *)

Lemma leftJoin_filter_fst {A B} (on : A -> B -> bool) (p : A -> bool)
  (l : list A) (r : list B) :
  filter (fun x => p (fst x)) (leftJoin on l r) = leftJoin on (filter p l) r.
Proof.
  unfold leftJoin. induction l as [|a l IH]; [reflexivity|].
  cbn [flat_map]. rewrite filter_app, IH. cbn [filter].
  destruct (p a) eqn:Hp; cbn [flat_map].
  - f_equal. destruct (filter (on a) r) as [|b bs].
    + simpl. now rewrite Hp.
    + generalize (b :: bs). intros l0.
      induction l0 as [|b' l0 IHb]; simpl; auto. now rewrite Hp, IHb.
  - rewrite filter_none; auto.
    intros [a' b'] Hin. simpl.
    destruct (filter (on a) r) as [|b bs].
    + destruct Hin as [E|[]]. now inversion E; subst.
    + apply in_map_iff in Hin. destruct Hin as (x & E & _). now inversion E; subst.
Qed.

Lemma leftJoin_single_hd {A B} (on : A -> B -> bool) (a : A) (r : list B) :
  firstn 1 (leftJoin on [a] r) = [(a, hd_error (filter (on a) r))].
Proof.
  unfold leftJoin. simpl. destruct (filter (on a) r) as [|b bs]; reflexivity.
Qed.

Lemma select_student_with_group_run (t : Z) (c : Conn) :
  select_student_with_group t c
  = (if hd false (faults c) then Throw
     else Ok (firstn 1
                (leftJoin (fun s g => sql_eq (students.groupId s) (Some (groups.id g)))
                   (filter (fun s => students.telegramUserId s =? t)
                      (students_tbl (db c)))
                   (groups_tbl (db c)))),
     step c (Select Tstudents)).
Proof.
  unfold select_student_with_group, bind, roundtrip, step, read.
  rewrite <- (leftJoin_filter_fst _ (fun s => students.telegramUserId s =? t)).
  destruct (faults c) as [|[] fs]; reflexivity.
Qed.

Lemma bound_to_joined (st : Store) (t : Z) (u : students.row) :
  unique_telegramUserId st -> bound_to st t u ->
  firstn 1
    (leftJoin (fun s g => sql_eq (students.groupId s) (Some (groups.id g)))
       (filter (fun s => students.telegramUserId s =? t) (students_tbl st))
       (groups_tbl st))
  = [(u, group_of st u)].
Proof.
  intros Hu [Hin Ht].
  rewrite (filter_unique students.telegramUserId _ u t Hu Hin Ht).
  apply leftJoin_single_hd.
Qed.

(** C3. Verification of a deactivated student never verifies: whatever the
    other columns of the row, the answer has [isVerified = false] and no
    student, the tables are untouched, and the message is the deactivation
    notice whenever the store answers. *)
Theorem verification_rejects_deactivated
  (env : Env) (i : verification.input) (st : Store) (u : students.row) :
  unique_telegramUserId st ->
  bound_to st (verification.telegramUserId i) u ->
  students.isActive u = Some false ->
  let r := studentVerificationTool env i st in
  verification.isVerified (output r) = false
  /\ verification.student (output r) = None
  /\ store r = st
  /\ (reliable env -> output r = ver_fail msg_ver_deactivated).
Proof.
  intros Hut Hu Hact r. subst r.
  unfold studentVerificationTool, exec, verification_body, reliable.
  destruct (truthy (DATABASE_URL env)); cbn [negb].
  2:{ simpl. repeat (split; auto). intros [? _]; discriminate. }
  unfold bind. rewrite select_student_with_group_run. conn.
  destruct (hd false (outages env)) eqn:Hhd.
  - simpl. repeat (split; auto). intros [_ Hq].
    apply quiet_hd in Hq. congruence.
  - rewrite (bound_to_joined _ _ _ Hut Hu), Hact. simpl. auto.
Qed.

Lemma update_students_run (p : students.row -> bool)
  (f : students.row -> students.row) (c : Conn) :
  update_students p f c
  = (if hd false (faults c) then Throw else Ok tt,
     {| db := if hd false (faults c) then db c
              else with_students (db c)
                     (map (fun s => if p s then f s else s) (students_tbl (db c)))
                     (students_id_seq (db c));
        faults := tl (faults c);
        log := log c ++ [Update Tstudents] |}).
Proof.
  unfold update_students, bind, roundtrip, modify.
  destruct (faults c) as [|[] fs]; reflexivity.
Qed.


(** ** Registration: the three ways a call can end *)

Lemma select_groups_run (p : groups.row -> bool) (c : Conn) :
  select_groups p 1 c
  = (if hd false (faults c) then Throw
     else Ok (firstn 1 (filter p (groups_tbl (db c)))),
     step c (Select Tgroups)).
Proof.
  unfold select_groups, bind, roundtrip, step.
  destruct (faults c) as [|[] fs]; reflexivity.
Qed.

Lemma insert_students_run (env : Env) (v : students.row) (c : Conn) :
  insert_students env v c
  = if hd false (faults c) then (Throw, step c (Insert Tstudents))
    else
      let r := students_stored env (students_id_seq (db c)) v in
      if students_accepts (db c) r
      then (Ok [r],
            {| db := with_students (db c) (students_tbl (db c) ++ [r])
                       (students_id_seq (db c) + 1);
               faults := tl (faults c);
               log := log c ++ [Insert Tstudents] |})
      else (Throw,
            {| db := with_students (db c) (students_tbl (db c))
                       (students_id_seq (db c) + 1);
               faults := tl (faults c);
               log := log c ++ [Insert Tstudents] |}).
Proof.
  unfold insert_students, bind, roundtrip, step, read.
  destruct (faults c) as [|[] fs]; cbn [hd tl db];
    try reflexivity;
    destruct (students_accepts _ _); reflexivity.
Qed.

Section Registration.

Variable toUpperCase : string -> string.

Local Abbreviation tool := (studentRegistrationTool toUpperCase).

Lemma registration_same_identity
  (env : Env) (i : registration.input) (st : Store) (e : students.row)
  (rest : list students.row) :
  reliable env ->
  lookup_key (toUpperCase (registration.studentId i)) AUTHORIZED_STUDENTS <> None ->
  holders toUpperCase (registration.studentId i) st = e :: rest ->
  students.telegramUserId e = registration.telegramUserId i ->
  tool env i st
  = {| output := already e st; store := st;
       queries := [Select Tstudents; Select Tgroups] |}.
Proof.
  intros [Hurl Hq] Hk Hh Ht. unfold tool, studentRegistrationTool, exec, registration_body.
  destruct (lookup_key _ _) as [a|]; [|contradiction].
  rewrite Hurl. cbn [negb].
  erewrite bind_ok by (apply select_students_quiet; still_quiet).
  conn. fold (holders toUpperCase (registration.studentId i) st). rewrite Hh. cbn [firstn].
  rewrite Ht, Z.eqb_refl.
  erewrite bind_ok by (apply select_groups_quiet; still_quiet).
  reflexivity.
Qed.

Lemma registration_other_identity
  (env : Env) (i : registration.input) (st : Store) (e : students.row)
  (rest : list students.row) :
  reliable env ->
  lookup_key (toUpperCase (registration.studentId i)) AUTHORIZED_STUDENTS <> None ->
  holders toUpperCase (registration.studentId i) st = e :: rest ->
  students.telegramUserId e <> registration.telegramUserId i ->
  tool env i st
  = {| output := reg_fail (msg_reg_taken (registration.studentId i)); store := st;
       queries := [Select Tstudents] |}.
Proof.
  intros [Hurl Hq] Hk Hh Ht. unfold tool, studentRegistrationTool, exec, registration_body.
  destruct (lookup_key _ _) as [a|]; [|contradiction].
  rewrite Hurl. cbn [negb].
  erewrite bind_ok by (apply select_students_quiet; still_quiet).
  conn. fold (holders toUpperCase (registration.studentId i) st). rewrite Hh. cbn [firstn].
  apply Z.eqb_neq in Ht. rewrite Ht. reflexivity.
Qed.

(** A successful registration leaves the key held by the caller's identity,
    by the row that the answer projects; the [groups] table is as before. *)
Lemma registration_success_binds
  (env : Env) (i : registration.input) (st : Store) :
  let r := tool env i st in
  registration.success (output r) = true ->
  lookup_key (toUpperCase (registration.studentId i)) AUTHORIZED_STUDENTS <> None
  /\ exists e rest,
       holders toUpperCase (registration.studentId i) (store r) = e :: rest
       /\ students.telegramUserId e = registration.telegramUserId i
       /\ registration.student (output r)
          = registration.student (already e (store r))
       /\ (store r = st
           \/ (holders toUpperCase (registration.studentId i) st = []
               /\ store r
                  = with_students st (students_tbl st ++ [e])
                      (students_id_seq st + 1))).
Proof.
  intros r. remember (tool env i st) as r0 eqn:Hr. subst r.
  unfold tool, studentRegistrationTool, exec, registration_body in Hr.
  destruct (lookup_key _ _) as [a|] eqn:Hk; [|now subst r0].
  destruct (truthy (DATABASE_URL env)); cbn [negb] in Hr; [|now subst r0].
  unfold bind at 1 in Hr. rewrite select_students_run in Hr. conn_in Hr.
  destruct (hd false (outages env)); [now subst r0|].
  fold (holders toUpperCase (registration.studentId i) st) in Hr.
  destruct (holders toUpperCase (registration.studentId i) st) as [|e rest] eqn:Hh;
    cbn [firstn] in Hr.
  - unfold bind at 1 in Hr. rewrite select_students_run in Hr. conn_in Hr.
    destruct (hd false (tl (outages env))); [now subst r0|].
    destruct (filter _ (students_tbl st)) as [|o os]; cbn [firstn] in Hr;
      [|now subst r0].
    unfold bind at 1 in Hr. rewrite insert_students_run in Hr. conn_in Hr.
    destruct (hd false (tl (tl (outages env)))); [now subst r0|].
    cbv zeta in Hr.
    destruct (students_accepts st _); [|now subst r0].
    unfold bind in Hr. rewrite select_groups_run in Hr. conn_in Hr.
    destruct (hd false (tl (tl (tl (outages env))))); [now subst r0|].
    subst r0. cbn [ret output store registration.success registration.student].
    intros _. split; [discriminate|].
    set (e := students_stored env (students_id_seq st) (newStudentData toUpperCase i a)).
    exists e, []. unfold holders, already, with_students.
    cbn [db students_tbl groups_tbl registration.student].
    rewrite filter_app. fold (holders toUpperCase (registration.studentId i) st). rewrite Hh.
    cbn [filter app]. unfold e at 1.
    cbn [students_stored newStudentData students.studentId].
    rewrite String.eqb_refl. repeat split; auto.
  - destruct (students.telegramUserId e =? registration.telegramUserId i) eqn:Ht;
      [|now subst r0].
    unfold bind in Hr. rewrite select_groups_run in Hr. conn_in Hr.
    destruct (hd false (tl (outages env))); [now subst r0|].
    subst r0. cbn [ret output store registration.success registration.student].
    intros _. split; [discriminate|].
    exists e, rest. cbn [db]. rewrite Hh. apply Z.eqb_eq in Ht. repeat split; auto.
Qed.

(** A caller whose key is held by another identity never gets through,
    whatever the state of the connection, and nothing is written. *)
Lemma registration_other_identity_fails
  (env : Env) (i : registration.input) (st : Store) (e : students.row)
  (rest : list students.row) :
  holders toUpperCase (registration.studentId i) st = e :: rest ->
  students.telegramUserId e <> registration.telegramUserId i ->
  registration.success (output (tool env i st)) = false
  /\ registration.student (output (tool env i st)) = None
  /\ store (tool env i st) = st.
Proof.
  intros Hh Ht. remember (tool env i st) as r eqn:Hr.
  unfold studentRegistrationTool, exec, registration_body in Hr.
  destruct (lookup_key _ _) as [a|]; [|now subst r].
  destruct (truthy (DATABASE_URL env)); cbn [negb] in Hr; [|now subst r].
  unfold bind at 1 in Hr. rewrite select_students_run in Hr. conn_in Hr.
  destruct (hd false (outages env)); [now subst r|].
  fold (holders toUpperCase (registration.studentId i) st) in Hr. rewrite Hh in Hr.
  cbn [firstn] in Hr. apply Z.eqb_neq in Ht. rewrite Ht in Hr. now subst r.
Qed.

(** C1. Registering again with the same identity and the same studentId,
    after a registration that succeeded, succeeds and returns a Student
    record: the one the first call returned, and it is read off the row [e]
    of the [students] table that binds this identity to this studentId (its
    id, studentId, names and groupId, its tier or [student] when the column
    is empty, and the name of its group when there is one). The message is
    the already-registered one; the database is left as it was, and only two
    SELECTs are sent: no row is inserted. *)
Theorem registration_idempotent
  (env1 env2 : Env) (i1 i2 : registration.input) (st : Store) :
  registration.telegramUserId i2 = registration.telegramUserId i1 ->
  registration.studentId i2 = registration.studentId i1 ->
  let r1 := studentRegistrationTool toUpperCase env1 i1 st in
  registration.success (output r1) = true ->
  reliable env2 ->
  let r2 := studentRegistrationTool toUpperCase env2 i2 (store r1) in
  exists (e : students.row) (s : registration.student_out),
    In e (students_tbl (store r1))
    /\ students.telegramUserId e = registration.telegramUserId i1
    /\ students.studentId e = toUpperCase (registration.studentId i1)
    /\ registration.success (output r2) = true
    /\ registration.student (output r2) = Some s
    /\ registration.student (output r1) = Some s
    /\ registration.id s = students.id e
    /\ registration.out_studentId s = students.studentId e
    /\ registration.out_firstName s = students.firstName e
    /\ registration.out_lastName s = students.lastName e
    /\ registration.groupId s = students.groupId e
    /\ registration.accessLevel s
       = match students.accessLevel e with
         | Some EmptyString | None => "student"%string
         | Some level => level
         end
    /\ (registration.groupName s = "Неизвестно"%string
        \/ exists g, In g (groups_tbl (store r1))
                     /\ students.groupId e = Some (groups.id g)
                     /\ registration.groupName s = groups.groupName g)
    /\ registration.message (output r2) = msg_reg_already
    /\ store r2 = store r1
    /\ queries r2 = [Select Tstudents; Select Tgroups].
Proof.
  intros Ht Hs r1 Hok Hrel r2.
  destruct (registration_success_binds env1 i1 st Hok)
    as (Hk & e & rest & Hh & Hte & Hstu & _).
  fold r1 in Hh, Hstu.
  assert (E : r2 = {| output := already e (store r1); store := store r1;
                      queries := [Select Tstudents; Select Tgroups] |}).
  { subst r2. apply registration_same_identity with (rest := rest); auto.
    - now rewrite Hs.
    - now rewrite Hs.
    - now rewrite Ht. }
  assert (Hin : In e (holders toUpperCase (registration.studentId i1) (store r1)))
    by (rewrite Hh; now left).
  apply filter_In in Hin. destruct Hin as [Hin Hkey]. apply String.eqb_eq in Hkey.
  exists e. eexists.
  split; [exact Hin|]. split; [exact Hte|]. split; [exact Hkey|].
  rewrite E, Hstu.
  cbn [output store queries already registration.success registration.student
       registration.message].
  do 3 (split; [reflexivity|]).
  cbn [reg_student registration.id registration.out_studentId
       registration.out_firstName registration.out_lastName registration.groupId
       registration.accessLevel registration.groupName].
  do 5 (split; [reflexivity|]).
  split; [now destruct (students.accessLevel e) as [[|c level]|]|].
  split; [|repeat split; reflexivity].
  destruct (filter (fun g => sql_eq (Some (groups.id g)) (students.groupId e))
              (groups_tbl (store r1))) as [|g gs] eqn:Hg; [now left|].
  assert (Hing : In g (filter (fun g => sql_eq (Some (groups.id g)) (students.groupId e))
                         (groups_tbl (store r1)))) by (rewrite Hg; now left).
  apply filter_In in Hing. destruct Hing as [Hing Hon].
  unfold groupName_of, or_default, or_else, truthy.
  cbn [firstn hd_error option_map].
  destruct (groups.groupName g) as [|c name] eqn:Hname; [now left|].
  cbn [String.eqb negb].
  right. exists g. split; [exact Hing|]. split.
  - destruct (students.groupId e) as [x|]; [|discriminate].
    simpl in Hon. apply Z.eqb_eq in Hon. now subst.
  - now rewrite Hname.
Qed.

(** C2. Once an identity has registered a studentId, a different identity
    asking for the same studentId (in any letter case) never succeeds and
    leaves the database untouched; when the store answers, the failure is
    the already-used conflict and a single SELECT was sent. *)
Theorem registration_conflict
  (env1 env2 : Env) (i1 i2 : registration.input) (st : Store) :
  registration.telegramUserId i2 <> registration.telegramUserId i1 ->
  toUpperCase (registration.studentId i2) = toUpperCase (registration.studentId i1) ->
  let r1 := studentRegistrationTool toUpperCase env1 i1 st in
  registration.success (output r1) = true ->
  let r2 := studentRegistrationTool toUpperCase env2 i2 (store r1) in
  registration.success (output r2) = false
  /\ registration.student (output r2) = None
  /\ store r2 = store r1
  /\ (reliable env2 ->
      output r2 = reg_fail (msg_reg_taken (registration.studentId i2))
      /\ queries r2 = [Select Tstudents]).
Proof.
  intros Ht Hs r1 Hok r2.
  destruct (registration_success_binds env1 i1 st Hok)
    as (Hk & e & rest & Hh & Hte & _).
  fold r1 in Hh.
  assert (Hh2 : holders toUpperCase (registration.studentId i2) (store r1) = e :: rest).
  { unfold holders in *. now rewrite Hs. }
  assert (Hne : students.telegramUserId e <> registration.telegramUserId i2)
    by (rewrite Hte; auto).
  destruct (registration_other_identity_fails env2 i2 (store r1) e rest Hh2 Hne)
    as (F1 & F2 & F3).
  fold r2 in F1, F2, F3. do 3 (split; [assumption|]).
  intros Hrel.
  assert (E : r2 = {| output := reg_fail (msg_reg_taken (registration.studentId i2));
                      store := store r1; queries := [Select Tstudents] |}).
  { subst r2. apply registration_other_identity with (e := e) (rest := rest); auto.
    now rewrite Hs. }
  rewrite E. split; reflexivity.
Qed.

End Registration.

(** ** Add *)

Lemma insert_homework_run (env : Env) (v : homework.row) (c : Conn) :
  insert_homework env v c
  = if hd false (faults c) then (Throw, step c (Insert Thomework))
    else
      let r := homework_stored env (homework_id_seq (db c)) v in
      if homework_accepts (db c) r
      then (Ok [r],
            {| db := with_homework (db c) (homework_tbl (db c) ++ [r])
                       (homework_id_seq (db c) + 1);
               faults := tl (faults c);
               log := log c ++ [Insert Thomework] |})
      else (Throw,
            {| db := with_homework (db c) (homework_tbl (db c))
                       (homework_id_seq (db c) + 1);
               faults := tl (faults c);
               log := log c ++ [Insert Thomework] |}).
Proof.
  unfold insert_homework, bind, roundtrip, step, read.
  destruct (faults c) as [|[] fs]; cbn [hd tl db];
    try reflexivity;
    destruct (homework_accepts _ _); reflexivity.
Qed.

Lemma existsb_In_true {A} (p : A -> bool) (l : list A) (x : A) :
  In x l -> p x = true -> existsb p l = true.
Proof. intros Hin Hp. apply existsb_exists. now exists x. Qed.

Lemma seq_ahead_fresh (st : Store) :
  homework_seq_ahead st ->
  existsb (fun h => homework.id h =? homework_id_seq st) (homework_tbl st) = false.
Proof.
  unfold homework_seq_ahead. intros H.
  destruct (existsb _ _) eqn:E; auto.
  apply existsb_exists in E. destruct E as (h & Hin & Hid).
  rewrite Forall_forall in H. apply H in Hin. apply Z.eqb_eq in Hid. lia.
Qed.

Section Add.

Variable Date_parse : string -> option Z.
Variable toISOString : Z -> string.

(** C7. A monitor, admin or owner whose target group exists adds homework
    with a due-date string that does not parse: the call succeeds, the row
    is stored with [dueDate = NULL] and the answer carries [dueDate = null]. *)
Theorem add_unparseable_dueDate_is_null
  (env : Env) (i : add.input) (st : Store) (u : students.row) (g : groups.row)
  (d : string) :
  reliable env ->
  unique_telegramUserId st -> unique_groups_id st -> homework_seq_ahead st ->
  bound_to st (add.createdByTelegramId i) u ->
  privileged (students.accessLevel u) ->
  In g (groups_tbl st) ->
  or_elseZ (add.groupId i) (students.groupId u) = Some (groups.id g) ->
  groups.id g <> 0 ->
  add.dueDate i = Some d -> Date_parse d = None ->
  let created := homework_stored env (homework_id_seq st) (undated_homework i u) in
  addHomeworkTool Date_parse toISOString env i st
  = {| output :=
         {| add.success := true;
            add.homework :=
              Some {| add.id := homework_id_seq st;
                      add.out_title := add.title i;
                      add.out_description := or_else (add.description i) None;
                      add.out_subject := or_else (add.subject i) None;
                      add.out_dueDate := None;
                      add.groupName := groups.groupName g |};
            add.message := msg_add_ok (add.title i) (groups.groupName g) |};
       store := with_homework st (homework_tbl st ++ [created]) (homework_id_seq st + 1);
       queries := [Select Tstudents; Select Tgroups; Insert Thomework] |}
  /\ homework.dueDate created = None.
Proof.
  intros [Hurl Hq] Hut Hug Hseq Hu Hp Hg Htarget Hnz Hd Hparse created.
  split; [|reflexivity].
  unfold addHomeworkTool, exec, add_body.
  rewrite Hurl. cbn [negb].
  erewrite bind_ok by (apply select_students_quiet; still_quiet).
  conn. rewrite (bound_to_select _ _ _ Hut Hu).
  rewrite (privileged_hasPermission _ Hp). cbn [negb].
  rewrite Htarget.
  assert (Htr : truthyZ (Some (groups.id g)) = true).
  { simpl. apply negb_true_iff. now apply Z.eqb_neq. }
  rewrite Htr. cbn [negb].
  erewrite bind_ok by (apply select_groups_quiet; still_quiet).
  conn. cbn [sql_eq].
  rewrite (filter_unique groups.id _ g _ Hug Hg eq_refl). cbn [firstn].
  unfold bind. rewrite insert_homework_run. conn.
  rewrite (quiet_hd _ (quiet_tl _ (quiet_tl _ Hq))). cbv zeta.
  assert (Hpd : parse_dueDate Date_parse (add.dueDate i) = None).
  { unfold parse_dueDate. rewrite Hd, Hparse. now destruct (truthy (Some d)). }
  rewrite Hpd.
  assert (Hacc :
    homework_accepts st
      (homework_stored env (homework_id_seq st)
         {| homework.id := 0;
            homework.title := add.title i;
            homework.description := or_else (add.description i) None;
            homework.dueDate := None;
            homework.subject := or_else (add.subject i) None;
            homework.groupId := Some (groups.id g);
            homework.createdBy := Some (students.id u);
            homework.createdAt := None;
            homework.updatedAt := None |}) = true).
  { unfold homework_accepts, homework_stored, fk_group, fk_student.
    cbn [homework.id homework.groupId homework.createdBy].
    rewrite (seq_ahead_fresh _ Hseq).
    rewrite (existsb_In_true _ _ g Hg (Z.eqb_refl _)).
    destruct Hu as [Hin _].
    rewrite (existsb_In_true _ _ u Hin (Z.eqb_refl _)). reflexivity. }
  rewrite Hacc. subst created. unfold undated_homework. rewrite Htarget.
  reflexivity.
Qed.

End Add.

(** ** View *)

Lemma In_firstn {A} (n : nat) (l : list A) (x : A) : In x (firstn n l) -> In x l.
Proof.
  intros H. rewrite <- (firstn_skipn n l). apply in_or_app. now left.
Qed.

Lemma In_insert_desc {A} (key : A -> option Z) (x y : A) (l : list A) :
  In y (insert_desc key x l) -> y = x \/ In y l.
Proof.
  induction l as [|a l IH]; simpl.
  - intros [<-|[]]. now left.
  - destruct (desc_before (key x) (key a)); simpl.
    + intros [<-|H]; auto.
    + intros [<-|H]; auto. destruct (IH H); auto.
Qed.

Lemma In_orderBy_desc {A} (key : A -> option Z) (y : A) (l : list A) :
  In y (orderBy_desc key l) -> In y l.
Proof.
  unfold orderBy_desc. induction l as [|a l IH]; simpl; auto.
  intros H. apply In_insert_desc in H. destruct H as [->|H]; auto.
Qed.

Lemma In_leftJoin_fst {A B} (on : A -> B -> bool) (l : list A) (r : list B)
  (x : A * option B) :
  In x (leftJoin on l r) -> In (fst x) l.
Proof.
  unfold leftJoin. intros H. apply in_flat_map in H.
  destruct H as (a & Ha & Hx).
  destruct (filter (on a) r) as [|b bs].
  - destruct Hx as [<-|[]]. exact Ha.
  - apply in_map_iff in Hx. destruct Hx as (b' & <- & _). exact Ha.
Qed.

(** Every row of the listing query is a row of [homework] of the target
    group. *)
Lemma joined_rows_scope (st : Store) (tg : option Z) (r : joined) :
  In r (joined_rows st tg) ->
  In (joined_hw r) (homework_tbl st) /\ homework.groupId (joined_hw r) = tg.
Proof.
  unfold joined_rows. intros H.
  apply In_orderBy_desc in H. apply filter_In in H. destruct H as [H Heq].
  split.
  - apply In_leftJoin_fst in H. apply In_leftJoin_fst in H. exact H.
  - destruct (homework.groupId (joined_hw r)) as [x|], tg as [y|]; try discriminate.
    simpl in Heq. apply Z.eqb_eq in Heq. now subst.
Qed.

Lemma In_limited {A} (n : Z) (l : list A) (x : A) :
  In x (limited n l) -> In x l.
Proof.
  unfold limited. destruct (n <? 0); [auto|apply In_firstn].
Qed.

Lemma limited_map {A B} (f : A -> B) (n : Z) (l : list A) :
  limited n (map f l) = map f (limited n l).
Proof.
  unfold limited. destruct (n <? 0); [reflexivity|apply firstn_map].
Qed.

Lemma select_homework_joined_run (tg : option Z) (n : Z) (c : Conn) :
  select_homework_joined tg n c
  = (if hd false (faults c) then Throw
     else Ok (limited n (joined_rows (db c) tg)),
     step c (Select Thomework)).
Proof.
  unfold select_homework_joined, bind, roundtrip, step, read, limit, ret.
  destruct (faults c) as [|[] fs]; cbn [hd tl db]; reflexivity.
Qed.

Section View.

Variable trim : string -> string.
Variable toISOString : Z -> string.

Local Abbreviation tool := (viewHomeworkTool trim toISOString).

(** Whoever the caller, the items listed are rows of the group that
    [view_target] picks, and that group is a proper (truthy) id. *)
Lemma view_items_of_target
  (env : Env) (i : view.input) (st : Store) (u : students.row) :
  unique_telegramUserId st ->
  bound_to st (view.telegramUserId i) u ->
  let target :=
    view_target (students.accessLevel u) (view.groupId i) (students.groupId u) in
  Forall (fun it => truthyZ target = true /\ item_of_group st target it)
    (view.homeworkList (output (tool env i st))).
Proof.
  intros Hut Hu target. remember (tool env i st) as r eqn:Hr.
  unfold viewHomeworkTool, exec, view_body in Hr.
  destruct (truthy (DATABASE_URL env)); cbn [negb] in Hr;
    [|subst r; constructor].
  unfold bind at 1 in Hr. rewrite select_students_run in Hr. conn_in Hr.
  destruct (hd false (outages env)); [subst r; constructor|].
  rewrite (bound_to_select _ _ _ Hut Hu) in Hr. fold target in Hr.
  destruct (truthyZ target) eqn:Htr; cbn [negb] in Hr; [|subst r; constructor].
  unfold bind in Hr. rewrite select_homework_joined_run in Hr. conn_in Hr.
  destruct (hd false (tl (outages env))); [subst r; constructor|].
  subst r. cbn [ret output view.homeworkList].
  apply Forall_forall. intros it Hit.
  apply in_map_iff in Hit. destruct Hit as (row & <- & Hrow).
  apply In_limited in Hrow. apply joined_rows_scope in Hrow.
  destruct Hrow as [Hin Hg].
  split; [reflexivity|]. exists (joined_hw row). auto.
Qed.

(** For a caller below admin the requested group plays no part. *)
Lemma view_ignores_request
  (env : Env) (i : view.input) (st : Store) (u : students.row) :
  unique_telegramUserId st ->
  bound_to st (view.telegramUserId i) u ->
  isAdmin (students.accessLevel u) = false ->
  tool env i st
  = tool env {| view.telegramUserId := view.telegramUserId i;
                view.groupId := None;
                view.limit := view.limit i |} st.
Proof.
  intros Hut Hu Hadm.
  unfold viewHomeworkTool, exec, view_body.
  destruct (truthy (DATABASE_URL env)); cbn [negb]; [|reflexivity].
  unfold bind at 1 3. cbn [view.telegramUserId].
  rewrite !select_students_run. conn.
  destruct (hd false (outages env)); [reflexivity|].
  rewrite (bound_to_select _ _ _ Hut Hu).
  unfold view_target. rewrite Hadm. reflexivity.
Qed.

Lemma truthy_own (own : option Z) :
  truthyZ (or_elseZ own None) = true -> or_elseZ own None = own.
Proof. unfold or_elseZ. destruct (truthyZ own); [reflexivity|discriminate]. Qed.

Lemma unique_key_eq {A} (key : A -> Z) (l : list A) (a b : A) :
  NoDup (map key l) -> In a l -> In b l -> key a = key b -> a = b.
Proof.
  intros Hnd Ha Hb Hk.
  pose proof (filter_unique key l a (key a) Hnd Ha eq_refl) as Fa.
  pose proof (filter_unique key l b (key a) Hnd Hb (eq_sym Hk)) as Fb.
  congruence.
Qed.

(** C5. A caller who is neither admin nor owner gets the listing of the
    caller's own group whatever group was requested: the call is the same
    as one naming no group, every item shows a row of the own group, and no
    row of another group is listed. A requested group is honoured for an
    admin or owner. *)
Theorem view_scoped_to_own_group
  (env : Env) (i : view.input) (st : Store) (u : students.row) :
  unique_telegramUserId st ->
  bound_to st (view.telegramUserId i) u ->
  let r := viewHomeworkTool trim toISOString env i st in
  (isAdmin (students.accessLevel u) = false ->
   r = viewHomeworkTool trim toISOString env
         {| view.telegramUserId := view.telegramUserId i;
            view.groupId := None;
            view.limit := view.limit i |} st
   /\ Forall (item_of_group st (students.groupId u)) (view.homeworkList (output r))
   /\ (unique_homework_id st ->
       forall h, In h (homework_tbl st) ->
                 homework.groupId h <> students.groupId u ->
                 ~ In (homework.id h) (map view.id (view.homeworkList (output r)))))
  /\ (isAdmin (students.accessLevel u) = true ->
      truthyZ (view.groupId i) = true ->
      Forall (item_of_group st (view.groupId i)) (view.homeworkList (output r))).
Proof.
  intros Hut Hu r.
  pose proof (view_items_of_target env i st u Hut Hu) as Hall.
  cbv zeta in Hall. fold r in Hall. split.
  - intros Hadm.
    assert (Hown : Forall (item_of_group st (students.groupId u))
                     (view.homeworkList (output r))).
    { eapply Forall_impl; [|exact Hall]. cbv beta. intros it [Htr Hit].
      unfold view_target in Htr, Hit. rewrite Hadm in Htr, Hit.
      cbn [negb orb] in Htr, Hit. now rewrite (truthy_own _ Htr) in Hit. }
    split; [now apply (view_ignores_request env i st u)|]. split; [exact Hown|].
    intros Huh h Hin Hother Hlisted.
    apply in_map_iff in Hlisted. destruct Hlisted as (it & Hid & Hit).
    rewrite Forall_forall in Hown.
    destruct (Hown it Hit) as (h0 & Hin0 & Hid0 & _ & Hg0).
    assert (h0 = h) by (apply (unique_key_eq homework.id _ _ _ Huh Hin0 Hin); congruence).
    subst h0. contradiction.
  - intros Hadm Hreq.
    eapply Forall_impl; [|exact Hall]. cbv beta. intros it [_ Hit].
    unfold view_target in Hit. rewrite Hadm, Hreq in Hit. exact Hit.
Qed.

End View.

(** ** The homework tools never read [is_active] *)

Lemma existsb_map {A B} (p : B -> bool) (g : A -> B) (l : list A) :
  existsb p (map g l) = existsb (fun a => p (g a)) l.
Proof. induction l as [|a l IH]; simpl; auto. now rewrite IH. Qed.

Lemma filter_map_respect {A B} (p : B -> bool) (q : A -> bool) (g : A -> B)
  (l : list A) :
  (forall a, p (g a) = q a) -> filter p (map g l) = map g (filter q l).
Proof.
  intros H. rewrite filter_map_swap. f_equal. apply filter_ext. exact H.
Qed.

Lemma caller_reflag (f : students.row -> option bool) (st : Store) (t : Z) :
  firstn 1 (filter (fun s => students.telegramUserId s =? t)
              (students_tbl (reflag f st)))
  = map (reflag_row f)
      (firstn 1 (filter (fun s => students.telegramUserId s =? t) (students_tbl st))).
Proof.
  unfold reflag, with_students. cbn [students_tbl].
  rewrite <- firstn_map. f_equal.
  now apply filter_map_respect.
Qed.

Lemma leftJoin_map_r {A B} (on : A -> B -> bool) (g : B -> B) (l : list A)
  (r : list B) :
  (forall a b, on a (g b) = on a b) ->
  leftJoin on l (map g r)
  = map (fun x => (fst x, option_map g (snd x))) (leftJoin on l r).
Proof.
  intros H. unfold leftJoin. induction l as [|a l IH]; [reflexivity|].
  cbn [flat_map]. rewrite map_app, IH. f_equal.
  rewrite (filter_map_respect (on a) (on a) g r (H a)).
  destruct (filter (on a) r) as [|b bs]; [reflexivity|].
  cbn [map]. rewrite !map_map. reflexivity.
Qed.

Lemma insert_desc_map {A} (key : A -> option Z) (g : A -> A) (x : A) (l : list A) :
  (forall a, key (g a) = key a) ->
  insert_desc key (g x) (map g l) = map g (insert_desc key x l).
Proof.
  intros H. induction l as [|a l IH]; [reflexivity|].
  cbn [map insert_desc]. rewrite !H.
  destruct (desc_before (key x) (key a)); cbn [map]; [reflexivity|].
  now rewrite IH.
Qed.

Lemma orderBy_desc_map {A} (key : A -> option Z) (g : A -> A) (l : list A) :
  (forall a, key (g a) = key a) ->
  orderBy_desc key (map g l) = map g (orderBy_desc key l).
Proof.
  intros H. unfold orderBy_desc. induction l as [|a l IH]; [reflexivity|].
  cbn [map fold_right]. rewrite IH. now apply insert_desc_map.
Qed.

Lemma joined_rows_reflag (f : students.row -> option bool) (st : Store)
  (tg : option Z) :
  joined_rows (reflag f st) tg = map (reflag_joined f) (joined_rows st tg).
Proof.
  unfold joined_rows, reflag, with_students.
  cbn [students_tbl groups_tbl homework_tbl].
  rewrite (leftJoin_map_r _ (reflag_row f)) by reflexivity.
  fold (reflag_joined f).
  rewrite (filter_map_respect _
             (fun r => sql_eq (homework.groupId (joined_hw r)) tg))
    by reflexivity.
  now rewrite orderBy_desc_map by reflexivity.
Qed.

Lemma select_homework_run (p : homework.row -> bool) (c : Conn) :
  select_homework p 1 c
  = (if hd false (faults c) then Throw
     else Ok (firstn 1 (filter p (homework_tbl (db c)))),
     step c (Select Thomework)).
Proof.
  unfold select_homework, bind, roundtrip, step.
  destruct (faults c) as [|[] fs]; reflexivity.
Qed.

Lemma delete_homework_run (p : homework.row -> bool) (c : Conn) :
  delete_homework p c
  = (if hd false (faults c) then Throw else Ok tt,
     {| db := if hd false (faults c) then db c
              else with_homework (db c)
                     (filter (fun h => negb (p h)) (homework_tbl (db c)))
                     (homework_id_seq (db c));
        faults := tl (faults c);
        log := log c ++ [Delete Thomework] |}).
Proof.
  unfold delete_homework, bind, roundtrip, modify.
  destruct (faults c) as [|[] fs]; reflexivity.
Qed.

Lemma homework_accepts_reflag (f : students.row -> option bool) (st : Store)
  (r : homework.row) :
  homework_accepts (reflag f st) r = homework_accepts st r.
Proof.
  unfold homework_accepts, fk_group, fk_student, reflag, with_students.
  cbn [homework_tbl groups_tbl students_tbl].
  destruct (homework.createdBy r); [|reflexivity].
  now rewrite existsb_map.
Qed.

Section Deactivation.

Variable trim : string -> string.
Variable Date_parse : string -> option Z.
Variable toISOString : Z -> string.
Variable f : students.row -> option bool.

Lemma delete_reflag (env : Env) (i : delete.input) (st : Store) :
  deleteHomeworkTool env i (reflag f st)
  = reflag_run f (deleteHomeworkTool env i st).
Proof.
  unfold deleteHomeworkTool, exec, delete_body.
  destruct (truthy (DATABASE_URL env)); cbn [negb]; [|reflexivity].
  unfold bind at 1 4. rewrite !select_students_run. conn.
  destruct (hd false (outages env)); [reflexivity|].
  rewrite caller_reflag.
  destruct (firstn 1 _) as [|u l]; [reflexivity|].
  cbn [map reflag_row students.accessLevel].
  destruct (hasPermission (students.accessLevel u)); cbn [negb]; [|reflexivity].
  unfold bind at 1 3. rewrite !select_homework_run. conn.
  destruct (hd false (tl (outages env))); [reflexivity|].
  cbn [reflag with_students homework_tbl].
  destruct (firstn 1 _) as [|h hs]; [reflexivity|].
  unfold bind. rewrite !delete_homework_run. conn.
  destruct (hd false (tl (tl (outages env)))); reflexivity.
Qed.

Lemma add_reflag (env : Env) (i : add.input) (st : Store) :
  addHomeworkTool Date_parse toISOString env i (reflag f st)
  = reflag_run f (addHomeworkTool Date_parse toISOString env i st).
Proof.
  unfold addHomeworkTool, exec, add_body.
  destruct (truthy (DATABASE_URL env)); cbn [negb]; [|reflexivity].
  unfold bind at 1 4. rewrite !select_students_run. conn.
  destruct (hd false (outages env)); [reflexivity|].
  rewrite caller_reflag.
  destruct (firstn 1 _) as [|u l]; [reflexivity|].
  cbn [map reflag_row students.accessLevel students.groupId students.id].
  destruct (hasPermission (students.accessLevel u)); cbn [negb]; [|reflexivity].
  destruct (truthyZ _); cbn [negb]; [|reflexivity].
  unfold bind at 1 3. rewrite !select_groups_run. conn.
  destruct (hd false (tl (outages env))); [reflexivity|].
  cbn [reflag with_students groups_tbl].
  destruct (firstn 1 _) as [|g gs]; [reflexivity|].
  unfold bind. rewrite !insert_homework_run. conn.
  destruct (hd false (tl (tl (outages env)))); [reflexivity|].
  cbv zeta. fold (reflag f st). rewrite homework_accepts_reflag.
  cbn [reflag with_students homework_id_seq homework_tbl].
  destruct (homework_accepts st _); reflexivity.
Qed.

Lemma view_item_reflag (r : joined) :
  view_item trim toISOString (reflag_joined f r) = view_item trim toISOString r.
Proof.
  destruct r as [[h g] [s|]]; reflexivity.
Qed.

Lemma view_reflag (env : Env) (i : view.input) (st : Store) :
  viewHomeworkTool trim toISOString env i (reflag f st)
  = reflag_run f (viewHomeworkTool trim toISOString env i st).
Proof.
  unfold viewHomeworkTool, exec, view_body.
  destruct (truthy (DATABASE_URL env)); cbn [negb]; [|reflexivity].
  unfold bind at 1 3. rewrite !select_students_run. conn.
  destruct (hd false (outages env)); [reflexivity|].
  rewrite caller_reflag.
  destruct (firstn 1 _) as [|u l]; [reflexivity|].
  cbn [map reflag_row students.accessLevel students.groupId].
  destruct (truthyZ _); cbn [negb]; [|reflexivity].
  unfold bind. rewrite !select_homework_joined_run. conn.
  destruct (hd false (tl (outages env))); [reflexivity|].
  rewrite joined_rows_reflag, limited_map, map_map.
  rewrite (map_ext _ _ view_item_reflag).
  reflexivity.
Qed.

(** How far the missing check reaches. Verification tests [is_active]
    before it answers; Add, View and Delete look the caller up again by
    external identity and never select that column. Rewriting it in any
    way, for any rows, therefore changes neither the answer of a homework
    call nor the statements it sends, and the database it leaves is the one
    of the original call with the column rewritten the same way: to these
    three tools a deactivated student is the same caller as before. *)
Theorem homework_tools_ignore_isActive (env : Env) (st : Store) :
  (forall i, addHomeworkTool Date_parse toISOString env i (reflag f st)
             = reflag_run f (addHomeworkTool Date_parse toISOString env i st))
  /\ (forall i, viewHomeworkTool trim toISOString env i (reflag f st)
                = reflag_run f (viewHomeworkTool trim toISOString env i st))
  /\ (forall i, deleteHomeworkTool env i (reflag f st)
                = reflag_run f (deleteHomeworkTool env i st)).
Proof.
  split; [|split]; intros i.
  - apply add_reflag.
  - apply view_reflag.
  - apply delete_reflag.
Qed.

End Deactivation.

(** ** The constraints are an invariant of the tools *)

Lemma registration_store_cases
  (toUpperCase : string -> string) (env : Env) (i : registration.input) (st : Store) :
  let s' := store (studentRegistrationTool toUpperCase env i st) in
  s' = st
  \/ s' = with_students st (students_tbl st) (students_id_seq st + 1)
  \/ exists e, students_accepts st e = true
               /\ s' = with_students st (students_tbl st ++ [e]) (students_id_seq st + 1).
Proof.
  cbv zeta. remember (studentRegistrationTool toUpperCase env i st) as r eqn:Hr.
  unfold studentRegistrationTool, exec, registration_body in Hr.
  destruct (lookup_key _ _) as [a|]; [|subst r; now left].
  destruct (truthy (DATABASE_URL env)); cbn [negb] in Hr; [|subst r; now left].
  unfold bind at 1 in Hr. rewrite select_students_run in Hr. conn_in Hr.
  destruct (hd false (outages env)); [subst r; now left|].
  destruct (firstn 1 _) as [|e l].
  - unfold bind at 1 in Hr. rewrite select_students_run in Hr. conn_in Hr.
    destruct (hd false (tl (outages env))); [subst r; now left|].
    destruct (firstn 1 _) as [|o os]; [|subst r; now left].
    unfold bind at 1 in Hr. rewrite insert_students_run in Hr. conn_in Hr.
    destruct (hd false (tl (tl (outages env)))); [subst r; now left|].
    cbv zeta in Hr.
    destruct (students_accepts st _) eqn:Hacc.
    + unfold bind in Hr. rewrite select_groups_run in Hr. conn_in Hr.
      right; right. eexists. split; [exact Hacc|].
      destruct (hd false (tl (tl (tl (outages env))))); subst r; reflexivity.
    + subst r. right; left. reflexivity.
  - destruct (students.telegramUserId e =? _); [|subst r; now left].
    unfold bind in Hr. rewrite select_groups_run in Hr. conn_in Hr.
    destruct (hd false (tl (outages env))); subst r; now left.
Qed.

Lemma verification_store_cases (env : Env) (i : verification.input) (st : Store) :
  let s' := store (studentVerificationTool env i st) in
  s' = st
  \/ exists h, s' = handle_updated st (verification.telegramUserId i) h (now env).
Proof.
  cbv zeta. remember (studentVerificationTool env i st) as r eqn:Hr.
  unfold studentVerificationTool, exec, verification_body in Hr.
  destruct (truthy (DATABASE_URL env)); cbn [negb] in Hr; [|subst r; now left].
  unfold bind at 1 in Hr. rewrite select_student_with_group_run in Hr. conn_in Hr.
  destruct (hd false (outages env)); [subst r; now left|].
  destruct (firstn 1 _) as [|[u g] l]; [subst r; now left|].
  destruct (truthyB (students.isActive u)); cbn [negb] in Hr; [|subst r; now left].
  destruct (verification.telegramUsername i) as [h|]; [|subst r; now left].
  destruct (truthy (Some h) && _); [|subst r; now left].
  unfold bind, try_catch in Hr. rewrite update_students_run in Hr. conn_in Hr.
  destruct (hd false (tl (outages env))); subst r; [now left|].
  right. exists h. reflexivity.
Qed.

Lemma view_store (trim : string -> string) (toISOString : Z -> string)
  (env : Env) (i : view.input) (st : Store) :
  store (viewHomeworkTool trim toISOString env i st) = st.
Proof.
  remember (viewHomeworkTool trim toISOString env i st) as r eqn:Hr.
  unfold viewHomeworkTool, exec, view_body in Hr.
  destruct (truthy (DATABASE_URL env)); cbn [negb] in Hr; [|now subst r].
  unfold bind at 1 in Hr. rewrite select_students_run in Hr. conn_in Hr.
  destruct (hd false (outages env)); [now subst r|].
  destruct (firstn 1 _) as [|u l]; [now subst r|].
  destruct (truthyZ _); cbn [negb] in Hr; [|now subst r].
  unfold bind in Hr. rewrite select_homework_joined_run in Hr. conn_in Hr.
  destruct (hd false (tl (outages env))); now subst r.
Qed.

Lemma add_store_cases (Date_parse : string -> option Z) (toISOString : Z -> string)
  (env : Env) (i : add.input) (st : Store) :
  let s' := store (addHomeworkTool Date_parse toISOString env i st) in
  s' = st
  \/ s' = with_homework st (homework_tbl st) (homework_id_seq st + 1)
  \/ exists h, homework_accepts st h = true
               /\ homework.id h = homework_id_seq st
               /\ s' = with_homework st (homework_tbl st ++ [h]) (homework_id_seq st + 1).
Proof.
  cbv zeta. remember (addHomeworkTool Date_parse toISOString env i st) as r eqn:Hr.
  unfold addHomeworkTool, exec, add_body in Hr.
  destruct (truthy (DATABASE_URL env)); cbn [negb] in Hr; [|subst r; now left].
  unfold bind at 1 in Hr. rewrite select_students_run in Hr. conn_in Hr.
  destruct (hd false (outages env)); [subst r; now left|].
  destruct (firstn 1 _) as [|u l]; [subst r; now left|].
  destruct (hasPermission _); cbn [negb] in Hr; [|subst r; now left].
  destruct (truthyZ _); cbn [negb] in Hr; [|subst r; now left].
  unfold bind at 1 in Hr. rewrite select_groups_run in Hr. conn_in Hr.
  destruct (hd false (tl (outages env))); [subst r; now left|].
  destruct (firstn 1 _) as [|g gs]; [subst r; now left|].
  unfold bind in Hr. rewrite insert_homework_run in Hr. conn_in Hr.
  destruct (hd false (tl (tl (outages env)))); [subst r; now left|].
  cbv zeta in Hr.
  destruct (homework_accepts st _) eqn:Hacc; subst r.
  - right; right. eexists. split; [exact Hacc|]. split; reflexivity.
  - right; left. reflexivity.
Qed.

Lemma delete_store_cases (env : Env) (i : delete.input) (st : Store) :
  let s' := store (deleteHomeworkTool env i st) in
  s' = st
  \/ s' = with_homework st
            (filter (fun h => negb (homework.id h =? delete.homeworkId i))
               (homework_tbl st))
            (homework_id_seq st).
Proof.
  cbv zeta. remember (deleteHomeworkTool env i st) as r eqn:Hr.
  unfold deleteHomeworkTool, exec, delete_body in Hr.
  destruct (truthy (DATABASE_URL env)); cbn [negb] in Hr; [|subst r; now left].
  unfold bind at 1 in Hr. rewrite select_students_run in Hr. conn_in Hr.
  destruct (hd false (outages env)); [subst r; now left|].
  destruct (firstn 1 _) as [|u l]; [subst r; now left|].
  destruct (hasPermission _); cbn [negb] in Hr; [|subst r; now left].
  unfold bind at 1 in Hr. rewrite select_homework_run in Hr. conn_in Hr.
  destruct (hd false (tl (outages env))); [subst r; now left|].
  destruct (firstn 1 _) as [|h hs]; [subst r; now left|].
  unfold bind in Hr. rewrite delete_homework_run in Hr. conn_in Hr.
  destruct (hd false (tl (tl (outages env)))); subst r; [now left|now right].
Qed.

Lemma NoDup_snoc (l : list Z) (x : Z) : NoDup l -> ~ In x l -> NoDup (l ++ [x]).
Proof.
  intros Hl Hx. apply NoDup_app; auto.
  - repeat constructor. intros [].
  - intros y Hy [<-|[]]. contradiction.
Qed.

Lemma NoDup_map_filter {A} (key : A -> Z) (p : A -> bool) (l : list A) :
  NoDup (map key l) -> NoDup (map key (filter p l)).
Proof.
  induction l as [|a l IH]; simpl; auto.
  intros H. inversion H as [|? ? Hn Hl]; subst.
  destruct (p a); simpl; auto. constructor; auto.
  intros Hin. apply Hn. apply in_map_iff in Hin. destruct Hin as (b & Hb & Hin).
  apply filter_In in Hin. rewrite <- Hb. apply in_map. tauto.
Qed.

Lemma existsb_false_not_in {A} (key : A -> Z) (l : list A) (k : Z) :
  existsb (fun a => key a =? k) l = false -> ~ In k (map key l).
Proof.
  intros H Hin. apply in_map_iff in Hin. destruct Hin as (a & Ha & Hin).
  rewrite (existsb_In_true _ _ a Hin) in H; [discriminate|].
  now apply Z.eqb_eq.
Qed.

(** Every tool, in every environment and on every input, takes a database
    that meets the constraints to one that meets them. *)
Lemma tools_preserve_store_ok
  (toUpperCase trim : string -> string) (Date_parse : string -> option Z)
  (toISOString : Z -> string) (env : Env) (st : Store) :
  store_ok st ->
  (forall i, store_ok (store (studentRegistrationTool toUpperCase env i st)))
  /\ (forall i, store_ok (store (studentVerificationTool env i st)))
  /\ (forall i, store_ok (store (addHomeworkTool Date_parse toISOString env i st)))
  /\ (forall i, store_ok (store (viewHomeworkTool trim toISOString env i st)))
  /\ (forall i, store_ok (store (deleteHomeworkTool env i st))).
Proof.
  intros (Ht & Hh & Hg & Hs). repeat split.
  all: try (rewrite view_store; assumption).
  all: try match goal with
       | |- _ (store (studentRegistrationTool _ _ ?i _)) =>
           destruct (registration_store_cases toUpperCase env i st)
             as [-> | [-> | (e & Hacc & ->)]]
       | |- _ (store (studentVerificationTool _ ?i _)) =>
           destruct (verification_store_cases env i st) as [-> | (h & ->)]
       | |- _ (store (addHomeworkTool _ _ _ ?i _)) =>
           destruct (add_store_cases Date_parse toISOString env i st)
             as [-> | [-> | (h & Hacc & Hid & ->)]]
       | |- _ (store (deleteHomeworkTool _ ?i _)) =>
           destruct (delete_store_cases env i st) as [-> | ->]
       end; try assumption.
  all: unfold unique_telegramUserId, unique_homework_id, unique_groups_id,
         homework_seq_ahead, handle_updated, with_students, with_homework in *;
       cbn [students_tbl homework_tbl groups_tbl homework_id_seq] in *;
       try assumption.
  all: try rewrite map_app; try rewrite map_map.
  all: match goal with
       | |- NoDup (map students.telegramUserId _ ++ _) =>
           (* registration appended a row *)
           apply NoDup_snoc; [exact Ht|];
           unfold students_accepts in Hacc;
           repeat (apply andb_true_iff in Hacc; destruct Hacc as [Hacc ?]);
           apply existsb_false_not_in; now apply negb_true_iff
       | |- NoDup (map _ (students_tbl _)) =>
           (* verification rewrote a handle *)
           erewrite map_ext; [exact Ht|];
           intros s; cbv beta; now destruct (students.telegramUserId s =? _)
       | |- NoDup (map homework.id _ ++ _) =>
           (* add appended a row *)
           apply NoDup_snoc; [exact Hh|];
           unfold homework_accepts in Hacc;
           repeat (apply andb_true_iff in Hacc; destruct Hacc as [Hacc ?]);
           apply existsb_false_not_in; now apply negb_true_iff
       | |- NoDup (map homework.id (filter _ _)) =>
           (* delete removed rows *)
           now apply NoDup_map_filter
       | |- Forall _ (_ ++ _) =>
           apply Forall_app; split;
           [eapply Forall_impl; [|exact Hs]; cbv beta; intros; lia
           |repeat constructor; lia]
       | |- Forall _ (filter _ _) =>
           rewrite Forall_forall in *; intros x Hin;
           apply filter_In in Hin; now apply Hs
       | |- Forall _ (homework_tbl _) =>
           (* the sequence moved on *)
           eapply Forall_impl; [|exact Hs]; cbv beta; intros; lia
       end.
Qed.

(** ** The statements at work on the sample database *)

Lemma distinctZ_NoDup (l : list Z) : distinctZ l = true -> NoDup l.
Proof.
  induction l as [|x l IH]; simpl; intros H; constructor.
  - apply andb_true_iff in H. destruct H as [H _].
    apply negb_true_iff in H. intros Hin.
    rewrite (existsb_In_true _ _ x Hin (Z.eqb_refl x)) in H. discriminate.
  - apply IH. apply andb_true_iff in H. tauto.
Qed.

Lemma sample_unique_telegramUserId : unique_telegramUserId sample_store.
Proof. apply distinctZ_NoDup. reflexivity. Qed.

Lemma sample_unique_homework_id : unique_homework_id sample_store.
Proof. apply distinctZ_NoDup. reflexivity. Qed.

Lemma sample_unique_groups_id : unique_groups_id sample_store.
Proof. apply distinctZ_NoDup. reflexivity. Qed.

Lemma sample_env_reliable : reliable sample_env.
Proof. split; reflexivity. Qed.

Lemma sample_store_ok : store_ok sample_store.
Proof.
  repeat split; try (apply distinctZ_NoDup; reflexivity).
  unfold homework_seq_ahead. simpl.
  repeat (constructor; [reflexivity|]). constructor.
Qed.

Lemma registration_idempotent_witness :
  (let r1 := registrationTool sample_env reg_42 sample_store in
   let r2 := registrationTool sample_env reg_42_again (store r1) in
   registration.success (output r1) = true
   /\ map students.id (students_tbl (store r1)) = [1; 2; 3; 4; 5]
   /\ option_map
        (fun s => (registration.id s, registration.out_studentId s,
                   registration.groupId s, registration.accessLevel s))
        (registration.student (output r2))
      = Some (5, "ST001"%string, Some 1, "student"%string)
   /\ students_tbl (store r2) = students_tbl (store r1))
  /\ reliable sample_env
  /\ exists e s,
       In e (students_tbl (store (registrationTool sample_env reg_42 sample_store)))
       /\ students.telegramUserId e = 42
       /\ students.studentId e = "ST001"%string
       /\ registration.student
            (output (registrationTool sample_env reg_42_again
                       (store (registrationTool sample_env reg_42 sample_store))))
          = Some s
       /\ registration.student (output (registrationTool sample_env reg_42 sample_store))
          = Some s
       /\ registration.id s = students.id e
       /\ registration.groupId s = students.groupId e.
Proof.
  split; [repeat split; reflexivity|]. split; [exact sample_env_reliable|].
  destruct (registration_idempotent upper_ascii sample_env sample_env
              reg_42 reg_42_again sample_store eq_refl eq_refl eq_refl
              sample_env_reliable)
    as (e & s & Hin & Ht & Hk & _ & H2 & H1 & Hid & _ & _ & _ & Hg & _).
  exists e, s. split; [exact Hin|]. split; [exact Ht|]. split; [exact Hk|].
  split; [exact H2|]. split; [exact H1|]. split; [exact Hid|exact Hg].
Defined.

Lemma registration_conflict_witness :
  registration.telegramUserId reg_43 <> registration.telegramUserId reg_42
  /\ upper_ascii (registration.studentId reg_43)
     = upper_ascii (registration.studentId reg_42)
  /\ registration.success (output (registrationTool sample_env reg_42 sample_store)) = true
  /\ let r1 := registrationTool sample_env reg_42 sample_store in
     (let r2 := registrationTool sample_env reg_43 (store r1) in
      output r2 = reg_fail (msg_reg_taken "St001")
      /\ store r2 = store r1
      /\ queries r2 = [Select Tstudents])
     /\ (let r2 := registrationTool env_down reg_43 (store r1) in
         registration.success (output r2) = false /\ store r2 = store r1).
Proof.
  assert (Hne : registration.telegramUserId reg_43 <> registration.telegramUserId reg_42)
    by discriminate.
  split; [exact Hne|]. split; [reflexivity|]. split; [reflexivity|].
  cbv zeta. split.
  - destruct (registration_conflict upper_ascii sample_env sample_env
                reg_42 reg_43 sample_store Hne eq_refl eq_refl)
      as (_ & _ & Hst & Hmsg).
    destruct (Hmsg sample_env_reliable) as [Hout Hq].
    split; [exact Hout|]. split; [exact Hst|exact Hq].
  - destruct (registration_conflict upper_ascii sample_env env_down
                reg_42 reg_43 sample_store Hne eq_refl eq_refl)
      as (Hs & _ & Hst & _).
    split; [exact Hs|exact Hst].
Defined.

Lemma verification_rejects_deactivated_witness :
  bound_to sample_store 1007 oleg
  /\ students.isActive oleg = Some false
  /\ studentVerificationTool sample_env verify_oleg sample_store
     = {| output := ver_fail msg_ver_deactivated; store := sample_store;
          queries := [Select Tstudents] |}
  /\ verification.isVerified
       (output (studentVerificationTool env_flaky verify_oleg sample_store)) = false.
Proof.
  assert (Hb : bound_to sample_store 1007 oleg) by (split; simpl; auto).
  split; [exact Hb|]. split; [reflexivity|].
  destruct (verification_rejects_deactivated sample_env verify_oleg sample_store oleg
              sample_unique_telegramUserId Hb eq_refl) as (_ & _ & Hst & Hmsg).
  destruct (verification_rejects_deactivated env_flaky verify_oleg sample_store oleg
              sample_unique_telegramUserId Hb eq_refl) as (Hv & _).
  split; [|exact Hv].
  specialize (Hmsg sample_env_reliable). cbv zeta in Hst, Hmsg.
  destruct (studentVerificationTool sample_env verify_oleg sample_store)
    as [o s q] eqn:E.
  cbn [output store] in Hst, Hmsg. subst o s. f_equal.
  apply (f_equal queries) in E. cbn [queries] in E. rewrite <- E. reflexivity.
Defined.

Lemma registration_unlisted_no_store_access_witness :
  lookup_key (upper_ascii (registration.studentId reg_unlisted)) AUTHORIZED_STUDENTS
  = None
  /\ registrationTool env_down reg_unlisted sample_store
     = {| output := reg_fail (msg_reg_not_authorized "st999");
          store := sample_store; queries := [] |}
  /\ registrationTool sample_env reg_unlisted sample_store
     = registrationTool env_down reg_unlisted sample_store.
Proof.
  split; [reflexivity|]. split.
  - apply (registration_unlisted_no_store_access upper_ascii env_down
             reg_unlisted sample_store). reflexivity.
  - unfold registrationTool.
    rewrite (registration_unlisted_no_store_access upper_ascii env_down
               reg_unlisted sample_store eq_refl).
    apply (registration_unlisted_no_store_access upper_ascii sample_env
             reg_unlisted sample_store). reflexivity.
Defined.

Lemma view_scoped_to_own_group_witness :
  (bound_to sample_store 1003 alexey
   /\ isAdmin (students.accessLevel alexey) = false
   /\ let r := viewTool sample_env (view_by 1003 (Some 1)) sample_store in
      r = viewTool sample_env (view_by 1003 None) sample_store
      /\ Forall (item_of_group sample_store (Some 2)) (view.homeworkList (output r))
      /\ map view.title (view.homeworkList (output r)) = ["Физика"%string]
      /\ ~ In (homework.id algebra) (map view.id (view.homeworkList (output r))))
  /\ (bound_to sample_store 1004 anna
      /\ isAdmin (students.accessLevel anna) = true
      /\ let r := viewTool sample_env (view_by 1004 (Some 1)) sample_store in
         Forall (item_of_group sample_store (Some 1)) (view.homeworkList (output r))
         /\ map view.title (view.homeworkList (output r)) = ["Алгебра"%string]).
Proof.
  assert (Hb : bound_to sample_store 1003 alexey) by (split; simpl; auto).
  assert (Ha : bound_to sample_store 1004 anna) by (split; simpl; auto).
  split.
  - split; [exact Hb|]. split; [reflexivity|].
    destruct (view_scoped_to_own_group trim_spaces sample_toISOString sample_env
                (view_by 1003 (Some 1)) sample_store alexey
                sample_unique_telegramUserId Hb) as [Hstudent _].
    destruct (Hstudent eq_refl) as (Hsame & Hown & Hnever).
    split; [exact Hsame|]. split; [exact Hown|]. split; [reflexivity|].
    apply (Hnever sample_unique_homework_id algebra).
    + simpl. auto.
    + discriminate.
  - split; [exact Ha|]. split; [reflexivity|].
    destruct (view_scoped_to_own_group trim_spaces sample_toISOString sample_env
                (view_by 1004 (Some 1)) sample_store anna
                sample_unique_telegramUserId Ha) as [_ Hadmin].
    split; [exact (Hadmin eq_refl eq_refl)|reflexivity].
Defined.

Lemma add_unparseable_dueDate_is_null_witness :
  reliable sample_env
  /\ bound_to sample_store 1002 maria
  /\ privileged (students.accessLevel maria)
  /\ sample_Date_parse "завтра" = None
  /\ add.success (output (addTool sample_env (add_by 1002 "завтра") sample_store)) = true
  /\ option_map add.out_dueDate
       (add.homework (output (addTool sample_env (add_by 1002 "завтра") sample_store)))
     = Some None
  /\ map homework.dueDate
       (homework_tbl (store (addTool sample_env (add_by 1002 "завтра") sample_store)))
     = [None; None; None].
Proof.
  assert (Hb : bound_to sample_store 1002 maria) by (split; simpl; auto).
  assert (Hp : privileged (students.accessLevel maria)) by (left; reflexivity).
  assert (Hs : homework_seq_ahead sample_store)
    by (unfold homework_seq_ahead; simpl;
        repeat (constructor; [reflexivity|]); constructor).
  assert (Hg : In group1 (groups_tbl sample_store)) by (simpl; auto).
  assert (Hnz : groups.id group1 <> 0) by discriminate.
  split; [exact sample_env_reliable|]. split; [exact Hb|]. split; [exact Hp|].
  split; [reflexivity|].
  destruct (add_unparseable_dueDate_is_null sample_Date_parse sample_toISOString
              sample_env (add_by 1002 "завтра") sample_store maria group1 "завтра"
              sample_env_reliable sample_unique_telegramUserId
              sample_unique_groups_id Hs Hb Hp Hg eq_refl Hnz eq_refl eq_refl)
    as [Hrun _].
  unfold addTool. rewrite Hrun. repeat split; reflexivity.
Defined.

Lemma delete_denied_or_not_found_witness :
  (bound_to sample_store 1003 alexey
   /\ students.accessLevel alexey = Some "student"%string
   /\ In physics (homework_tbl sample_store)
   /\ let r := deleteHomeworkTool sample_env (delete_by 1003 2) sample_store in
      output r = del_fail msg_del_denied
      /\ store r = sample_store
      /\ In physics (homework_tbl (store r)))
  /\ (bound_to sample_store 1002 maria
      /\ privileged (students.accessLevel maria)
      /\ let r := deleteHomeworkTool sample_env (delete_by 1002 99) sample_store in
         output r = del_fail msg_del_not_found
         /\ store r = sample_store
         /\ queries r = [Select Tstudents; Select Thomework]).
Proof.
  assert (Ha : bound_to sample_store 1003 alexey) by (split; simpl; auto).
  assert (Hm : bound_to sample_store 1002 maria) by (split; simpl; auto).
  assert (Hp : privileged (students.accessLevel maria)) by (left; reflexivity).
  assert (Hphys : In physics (homework_tbl sample_store)) by (simpl; auto).
  split.
  - split; [exact Ha|]. split; [reflexivity|]. split; [exact Hphys|].
    destruct (delete_denied_or_not_found sample_env (delete_by 1003 2) sample_store
                alexey sample_unique_telegramUserId Ha) as [Hstudent _].
    destruct (Hstudent eq_refl) as (_ & Hst & Hkept & Hmsg).
    split; [exact (Hmsg sample_env_reliable)|]. split; [exact Hst|].
    apply Hkept; [exact Hphys|reflexivity].
  - split; [exact Hm|]. split; [exact Hp|].
    destruct (delete_denied_or_not_found sample_env (delete_by 1002 99) sample_store
                maria sample_unique_telegramUserId Hm) as [_ Hmonitor].
    apply (Hmonitor Hp); [|exact sample_env_reliable].
    intros h Hin. simpl in Hin.
    destruct Hin as [<-|[<-|[]]]; discriminate.
Defined.


Lemma delete_checks_tier_only_witness :
  bound_to sample_store 1002 maria
  /\ privileged (students.accessLevel maria)
  /\ students.groupId maria = Some 1
  /\ homework.groupId physics = Some 2
  /\ let r := deleteHomeworkTool sample_env (delete_by 1002 2) sample_store in
     output r = {| delete.success := true;
                   delete.message := msg_del_ok (homework.title physics) |}
     /\ homework_tbl (store r) = [algebra]
     /\ ~ In physics (homework_tbl (store r)).
Proof.
  assert (Hb : bound_to sample_store 1002 maria) by (split; simpl; auto).
  assert (Hp : privileged (students.accessLevel maria)) by (left; reflexivity).
  assert (Hin : In physics (homework_tbl sample_store)) by (simpl; auto).
  split; [exact Hb|]. split; [exact Hp|]. split; [reflexivity|]. split; [reflexivity|].
  destruct (delete_checks_tier_only sample_env (delete_by 1002 2) sample_store
              maria physics sample_env_reliable sample_unique_telegramUserId
              sample_unique_homework_id Hb Hp Hin eq_refl)
    as (Ho & Hs & Hgone & _).
  split; [exact Ho|]. split; [|exact Hgone].
  cbv zeta. rewrite Hs. reflexivity.
Defined.

(** C4, at the failing input. Oleg is a monitor of group 1 whose row has
    [is_active = false]. Verification refuses him as deactivated, and an
    identity without a row is refused by Add, View and Delete. Called with
    Oleg's identity the three homework tools nevertheless succeed: Add
    stores a new piece of homework, View lists the homework of his group and
    Delete removes homework 1. *)
Lemma deactivated_monitor_still_served :
  bound_to sample_store 1007 oleg
  /\ students.isActive oleg = Some false
  /\ add.success (output (addTool sample_env (add_by 1007 "2025-09-01 10:00") sample_store))
     = true
  /\ view.success (output (viewTool sample_env (view_by 1007 None) sample_store)) = true
  /\ delete.success (output (deleteHomeworkTool sample_env (delete_by 1007 1) sample_store))
     = true
  /\ homework_tbl (store (deleteHomeworkTool sample_env (delete_by 1007 1) sample_store))
     = [physics]
  /\ map homework.title
       (homework_tbl
          (store (addTool sample_env (add_by 1007 "2025-09-01 10:00") sample_store)))
     = ["Алгебра"%string; "Физика"%string; "Геометрия"%string]
  /\ map view.title
       (view.homeworkList (output (viewTool sample_env (view_by 1007 None) sample_store)))
     = ["Алгебра"%string]
  /\ output (studentVerificationTool sample_env verify_oleg sample_store)
     = ver_fail msg_ver_deactivated
  /\ add.success (output (addTool sample_env (add_by 9999 "2025-09-01 10:00") sample_store))
     = false
  /\ view.success (output (viewTool sample_env (view_by 9999 None) sample_store)) = false
  /\ delete.success (output (deleteHomeworkTool sample_env (delete_by 9999 1) sample_store))
     = false.
Proof.
  split; [split; simpl; auto|]. repeat split; reflexivity.
Qed.

(** * Further properties of the tools *)

(** ** Registration: the remaining paths *)

Lemma unbound_select (st : Store) (t : Z) :
  unbound st t ->
  filter (fun s => students.telegramUserId s =? t) (students_tbl st) = [].
Proof.
  intros H. apply filter_none. intros s Hs. apply Z.eqb_neq. now apply H.
Qed.

Lemma roster_tiers (k : string) (a : roster.entry) :
  lookup_key k AUTHORIZED_STUDENTS = Some a ->
  or_default (Some (roster.accessLevel a)) "student" = roster.accessLevel a.
Proof.
  unfold AUTHORIZED_STUDENTS. cbn [lookup_key].
  repeat (destruct (String.eqb k _); [intros E; inversion E; reflexivity|]).
  discriminate.
Qed.

Lemma existsb_none {A} (p : A -> bool) (l : list A) :
  (forall x, In x l -> p x = false) -> existsb p l = false.
Proof.
  intros H. destruct (existsb p l) eqn:E; auto.
  apply existsb_exists in E. destruct E as (x & Hin & Hx).
  rewrite (H x Hin) in Hx. discriminate.
Qed.

Section RegistrationPaths.

Variable toUpperCase : string -> string.

Local Abbreviation tool := (studentRegistrationTool toUpperCase).

(** An identity that already holds a roster slot cannot take a second one:
    the call fails naming the studentId it holds, and nothing is written. *)
Theorem registration_identity_already_bound
  (env : Env) (i : registration.input) (st : Store) (other : students.row) :
  reliable env ->
  lookup_key (toUpperCase (registration.studentId i)) AUTHORIZED_STUDENTS <> None ->
  holders toUpperCase (registration.studentId i) st = [] ->
  unique_telegramUserId st ->
  bound_to st (registration.telegramUserId i) other ->
  tool env i st
  = {| output := reg_fail (msg_reg_bound (students.studentId other));
       store := st;
       queries := [Select Tstudents; Select Tstudents] |}.
Proof.
  intros [Hurl Hq] Hk Hh Hut Hb.
  unfold studentRegistrationTool, exec, registration_body.
  destruct (lookup_key _ _) as [a|]; [|contradiction].
  rewrite Hurl. cbn [negb].
  erewrite bind_ok by (apply select_students_quiet; still_quiet).
  conn. fold (holders toUpperCase (registration.studentId i) st). rewrite Hh.
  cbn [firstn].
  erewrite bind_ok by (apply select_students_quiet; still_quiet).
  conn. rewrite (bound_to_select _ _ _ Hut Hb). reflexivity.
Qed.

(** The run of a first registration, up to the verdict of the table's
    constraints on the new row. *)
Lemma registration_reaches_insert
  (env : Env) (i : registration.input) (st : Store) (a : roster.entry) :
  reliable env ->
  lookup_key (toUpperCase (registration.studentId i)) AUTHORIZED_STUDENTS = Some a ->
  holders toUpperCase (registration.studentId i) st = [] ->
  unbound st (registration.telegramUserId i) ->
  let e := students_stored env (students_id_seq st) (newStudentData toUpperCase i a) in
  let groupName :=
    groupName_of
      (firstn 1 (filter (fun g => groups.id g =? roster.groupId a) (groups_tbl st))) in
  tool env i st
  = if students_accepts st e
    then {| output :=
              {| registration.success := true;
                 registration.student := Some (reg_student e groupName);
                 registration.message :=
                   msg_reg_welcome (students.firstName e) groupName |};
            store := with_students st (students_tbl st ++ [e]) (students_id_seq st + 1);
            queries := [Select Tstudents; Select Tstudents; Insert Tstudents;
                        Select Tgroups] |}
    else {| output := reg_fail msg_reg_error;
            store := with_students st (students_tbl st) (students_id_seq st + 1);
            queries := [Select Tstudents; Select Tstudents; Insert Tstudents] |}.
Proof.
  intros [Hurl Hq] Hk Hh Hunb e groupName.
  unfold studentRegistrationTool, exec, registration_body.
  rewrite Hk, Hurl. cbn [negb].
  erewrite bind_ok by (apply select_students_quiet; still_quiet).
  conn. fold (holders toUpperCase (registration.studentId i) st). rewrite Hh.
  cbn [firstn].
  erewrite bind_ok by (apply select_students_quiet; still_quiet).
  conn. rewrite (unbound_select _ _ Hunb). cbn [firstn].
  unfold bind at 1. rewrite insert_students_run. conn.
  rewrite (quiet_hd _ (quiet_tl _ (quiet_tl _ Hq))). cbv zeta. fold e.
  destruct (students_accepts st e); [|reflexivity].
  unfold bind. rewrite select_groups_run. conn.
  rewrite (quiet_hd _ (quiet_tl _ (quiet_tl _ (quiet_tl _ Hq)))).
  reflexivity.
Qed.

Lemma fresh_row_accepted
  (env : Env) (i : registration.input) (st : Store) (a : roster.entry) (g : groups.row) :
  holders toUpperCase (registration.studentId i) st = [] ->
  unbound st (registration.telegramUserId i) ->
  students_seq_ahead st ->
  In g (groups_tbl st) -> groups.id g = roster.groupId a ->
  students_accepts st
    (students_stored env (students_id_seq st) (newStudentData toUpperCase i a)) = true.
Proof.
  intros Hh Hunb Hseq Hg Hid.
  unfold students_accepts, students_stored, newStudentData, fk_group.
  cbn [students.id students.telegramUserId students.studentId students.groupId].
  assert (E1 : existsb (fun s => students.id s =? students_id_seq st) (students_tbl st)
               = false).
  { apply existsb_none. intros s Hin. apply Z.eqb_neq.
    unfold students_seq_ahead in Hseq. rewrite Forall_forall in Hseq.
    apply Hseq in Hin. lia. }
  assert (E2 : existsb (fun s => students.telegramUserId s =? registration.telegramUserId i)
                 (students_tbl st) = false).
  { apply existsb_none. intros s Hin. apply Z.eqb_neq. now apply Hunb. }
  assert (E3 : existsb
                 (fun s => String.eqb (students.studentId s)
                             (toUpperCase (registration.studentId i)))
                 (students_tbl st) = false).
  { apply existsb_none. intros s Hin.
    destruct (String.eqb _ _) eqn:E; auto.
    assert (Hin' : In s (holders toUpperCase (registration.studentId i) st))
      by (apply filter_In; auto).
    rewrite Hh in Hin'. destruct Hin'. }
  rewrite E1, E2, E3.
  rewrite (existsb_In_true _ _ g Hg); [reflexivity|]. now apply Z.eqb_eq.
Qed.

(** A first registration goes through: when the studentId is on the roster
    and unclaimed, the identity is unbound and the roster's group exists,
    one Student row is appended with the next id of the sequence, the
    roster's group and tier and [isActive = true], and the answer projects
    that row. The pre-checks of the code are enough for the table's unique
    constraints never to reject the row. *)
Theorem registration_first_time_succeeds
  (env : Env) (i : registration.input) (st : Store) (a : roster.entry) (g : groups.row) :
  reliable env ->
  lookup_key (toUpperCase (registration.studentId i)) AUTHORIZED_STUDENTS = Some a ->
  holders toUpperCase (registration.studentId i) st = [] ->
  unbound st (registration.telegramUserId i) ->
  students_seq_ahead st ->
  unique_groups_id st ->
  In g (groups_tbl st) -> groups.id g = roster.groupId a ->
  let names (given listed : option string) := or_else (or_else given listed) None in
  let e :=
    {| students.id := students_id_seq st;
       students.telegramUserId := registration.telegramUserId i;
       students.telegramUsername := or_else (registration.telegramUsername i) None;
       students.studentId := toUpperCase (registration.studentId i);
       students.firstName := names (registration.firstName i) (roster.firstName a);
       students.lastName := names (registration.lastName i) (roster.lastName a);
       students.groupId := Some (roster.groupId a);
       students.accessLevel := Some (roster.accessLevel a);
       students.isActive := Some true;
       students.createdAt := Some (now env);
       students.updatedAt := Some (now env) |} in
  let groupName := or_default (Some (groups.groupName g)) "Неизвестно" in
  tool env i st
  = {| output :=
         {| registration.success := true;
            registration.student :=
              Some {| registration.id := students_id_seq st;
                      registration.out_studentId :=
                        toUpperCase (registration.studentId i);
                      registration.out_firstName := students.firstName e;
                      registration.out_lastName := students.lastName e;
                      registration.groupId := Some (roster.groupId a);
                      registration.groupName := groupName;
                      registration.accessLevel := roster.accessLevel a |};
            registration.message := msg_reg_welcome (students.firstName e) groupName |};
       store := with_students st (students_tbl st ++ [e]) (students_id_seq st + 1);
       queries := [Select Tstudents; Select Tstudents; Insert Tstudents;
                   Select Tgroups] |}.
Proof.
  intros Hrel Hk Hh Hunb Hseq Hug Hg Hid names e groupName.
  rewrite (registration_reaches_insert env i st a Hrel Hk Hh Hunb).
  rewrite (fresh_row_accepted env i st a g Hh Hunb Hseq Hg Hid).
  rewrite (filter_unique groups.id _ g _ Hug Hg Hid). cbn [firstn].
  unfold reg_student, groupName_of. cbn [hd_error option_map].
  fold groupName.
  change (students_stored env (students_id_seq st) (newStudentData toUpperCase i a))
    with e.
  cbn [students.id students.studentId students.firstName students.lastName
       students.groupId students.accessLevel e].
  now rewrite (roster_tiers _ _ Hk).
Qed.

(** When the roster's group has no row in [groups], the foreign key rejects
    the INSERT: the caller gets the generic registration error and no
    Student row is created (the sequence value is spent). *)
Theorem registration_group_not_provisioned
  (env : Env) (i : registration.input) (st : Store) (a : roster.entry) :
  reliable env ->
  lookup_key (toUpperCase (registration.studentId i)) AUTHORIZED_STUDENTS = Some a ->
  holders toUpperCase (registration.studentId i) st = [] ->
  unbound st (registration.telegramUserId i) ->
  no_group st (roster.groupId a) ->
  tool env i st
  = {| output := reg_fail msg_reg_error;
       store := with_students st (students_tbl st) (students_id_seq st + 1);
       queries := [Select Tstudents; Select Tstudents; Insert Tstudents] |}.
Proof.
  intros Hrel Hk Hh Hunb Hng.
  rewrite (registration_reaches_insert env i st a Hrel Hk Hh Hunb).
  assert (E : students_accepts st
                (students_stored env (students_id_seq st)
                   (newStudentData toUpperCase i a)) = false).
  { unfold students_accepts, students_stored, newStudentData, fk_group.
    cbn [students.groupId].
    rewrite (existsb_none (fun r => groups.id r =? roster.groupId a));
      [now rewrite andb_false_r|].
    intros r Hin. apply Z.eqb_neq. now apply Hng. }
  now rewrite E.
Qed.


(** In every environment and on every input, Registration leaves the rows
    that exist as they are, in [students], [groups] and [homework]; it adds
    at most one Student row, and a row it adds is bound to the caller's
    identity and to the upper-cased studentId, is active, and takes its
    group and tier from the roster entry, never from the request. *)
Theorem registration_only_appends_roster_row
  (env : Env) (i : registration.input) (st : Store) :
  let r := tool env i st in
  groups_tbl (store r) = groups_tbl st
  /\ homework_tbl (store r) = homework_tbl st
  /\ homework_id_seq (store r) = homework_id_seq st
  /\ (students_tbl (store r) = students_tbl st
      \/ exists a e,
           lookup_key (toUpperCase (registration.studentId i)) AUTHORIZED_STUDENTS
           = Some a
           /\ students_tbl (store r) = students_tbl st ++ [e]
           /\ students.telegramUserId e = registration.telegramUserId i
           /\ students.studentId e = toUpperCase (registration.studentId i)
           /\ students.groupId e = Some (roster.groupId a)
           /\ students.accessLevel e = Some (roster.accessLevel a)
           /\ students.isActive e = Some true).
Proof.
  cbv zeta. remember (tool env i st) as r eqn:Hr.
  unfold studentRegistrationTool, exec, registration_body in Hr.
  destruct (lookup_key _ _) as [a|] eqn:Hk; [|subst r; cbn; auto].
  destruct (truthy (DATABASE_URL env)); cbn [negb] in Hr; [|subst r; cbn; auto].
  unfold bind at 1 in Hr. rewrite select_students_run in Hr. conn_in Hr.
  destruct (hd false (outages env)); [subst r; cbn; auto|].
  destruct (firstn 1 _) as [|e l].
  - unfold bind at 1 in Hr. rewrite select_students_run in Hr. conn_in Hr.
    destruct (hd false (tl (outages env))); [subst r; cbn; auto|].
    destruct (firstn 1 _) as [|o os]; [|subst r; cbn; auto].
    unfold bind at 1 in Hr. rewrite insert_students_run in Hr. conn_in Hr.
    destruct (hd false (tl (tl (outages env)))); [subst r; cbn; auto|].
    cbv zeta in Hr.
    destruct (students_accepts st _) eqn:Hacc; [|subst r; cbn; auto].
    unfold bind in Hr. rewrite select_groups_run in Hr. conn_in Hr.
    assert (Hs : store r
                 = with_students st
                     (students_tbl st
                      ++ [students_stored env (students_id_seq st)
                            (newStudentData toUpperCase i a)])
                     (students_id_seq st + 1))
      by (destruct (hd false (tl (tl (tl (outages env))))); subst r; reflexivity).
    rewrite Hs. cbn [with_students groups_tbl homework_tbl homework_id_seq students_tbl].
    do 3 (split; [reflexivity|]). right.
    exists a, (students_stored env (students_id_seq st) (newStudentData toUpperCase i a)).
    repeat split.
  - destruct (students.telegramUserId e =? _); [|subst r; cbn; auto].
    unfold bind in Hr. rewrite select_groups_run in Hr. conn_in Hr.
    destruct (hd false (tl (outages env))); subst r; cbn; auto.
Qed.

(** A partial outcome the code allows: when the INSERT goes through and the
    store gives out on the group-name lookup after it, the caller is told
    that registration failed although the Student row is stored; asking
    again then answers already-registered with that row. *)
Theorem registration_outage_after_insert
  (env env' : Env) (i : registration.input) (st : Store) (a : roster.entry)
  (g : groups.row) :
  truthy (DATABASE_URL env) = true ->
  outages env = [false; false; false; true] ->
  lookup_key (toUpperCase (registration.studentId i)) AUTHORIZED_STUDENTS = Some a ->
  holders toUpperCase (registration.studentId i) st = [] ->
  unbound st (registration.telegramUserId i) ->
  students_seq_ahead st ->
  In g (groups_tbl st) -> groups.id g = roster.groupId a ->
  reliable env' ->
  let e := students_stored env (students_id_seq st) (newStudentData toUpperCase i a) in
  let r := tool env i st in
  output r = reg_fail msg_reg_error
  /\ students_tbl (store r) = students_tbl st ++ [e]
  /\ output (tool env' i (store r)) = already e (store r)
  /\ store (tool env' i (store r)) = store r.
Proof.
  intros Hurl Hout Hk Hh Hunb Hseq Hg Hid Hrel e r.
  assert (E : r = {| output := reg_fail msg_reg_error;
                     store := with_students st (students_tbl st ++ [e])
                                (students_id_seq st + 1);
                     queries := [Select Tstudents; Select Tstudents; Insert Tstudents;
                                 Select Tgroups] |}).
  { subst r. unfold studentRegistrationTool, exec, registration_body.
    rewrite Hk, Hurl, Hout. cbn [negb].
    unfold bind at 1. rewrite select_students_run. conn. cbn [hd tl].
    fold (holders toUpperCase (registration.studentId i) st). rewrite Hh.
    cbn [firstn].
    unfold bind at 1. rewrite select_students_run. conn. cbn [hd tl].
    rewrite (unbound_select _ _ Hunb). cbn [firstn].
    unfold bind at 1. rewrite insert_students_run. conn. cbn [hd tl]. cbv zeta.
    rewrite (fresh_row_accepted env i st a g Hh Hunb Hseq Hg Hid).
    unfold bind. rewrite select_groups_run. conn. reflexivity. }
  rewrite E. cbn [output store with_students students_tbl].
  split; [reflexivity|]. split; [reflexivity|].
  assert (Hh' : holders toUpperCase (registration.studentId i)
                  (with_students st (students_tbl st ++ [e]) (students_id_seq st + 1))
                = [e]).
  { unfold holders, with_students. cbn [students_tbl]. rewrite filter_app.
    fold (holders toUpperCase (registration.studentId i) st). rewrite Hh.
    cbn [filter app]. unfold e at 1.
    cbn [students_stored newStudentData students.studentId].
    now rewrite String.eqb_refl. }
  rewrite (registration_same_identity toUpperCase env' i _ e [] Hrel); auto.
  - now rewrite Hk.
Qed.

End RegistrationPaths.

(** ** Verification: the remaining paths *)

(** Once the lookup has returned an active row, the answer is fixed: the
    handle update, sent or not, failing or not, has no say in it. *)
Lemma verification_active_output
  (env : Env) (i : verification.input) (st : Store) (u : students.row)
  (g : option groups.row) :
  truthy (DATABASE_URL env) = true ->
  hd false (outages env) = false ->
  firstn 1
    (leftJoin (fun s g => sql_eq (students.groupId s) (Some (groups.id g)))
       (filter (fun s => students.telegramUserId s =? verification.telegramUserId i)
          (students_tbl st))
       (groups_tbl st))
  = [(u, g)] ->
  truthyB (students.isActive u) = true ->
  output (studentVerificationTool env i st)
  = verified u g (verification.telegramUsername i).
Proof.
  intros Hurl Hhd Hrow Hact.
  unfold studentVerificationTool, exec, verification_body.
  rewrite Hurl. cbn [negb].
  unfold bind at 1. rewrite select_student_with_group_run. conn.
  rewrite Hhd, Hrow, Hact. cbn [negb].
  destruct (verification.telegramUsername i) as [h|]; [|reflexivity].
  destruct (truthy (Some h) && _); [|reflexivity].
  unfold bind, try_catch. rewrite update_students_run. conn.
  destruct (hd false (tl (outages env))); reflexivity.
Qed.

Lemma unbound_joined (st : Store) (t : Z) :
  unbound st t ->
  firstn 1
    (leftJoin (fun s g => sql_eq (students.groupId s) (Some (groups.id g)))
       (filter (fun s => students.telegramUserId s =? t) (students_tbl st))
       (groups_tbl st))
  = [].
Proof. intros H. now rewrite (unbound_select _ _ H). Qed.

(** The run of Verification for an identity with no Student row. *)
Lemma verification_unbound_run
  (env : Env) (i : verification.input) (st : Store) :
  reliable env ->
  unbound st (verification.telegramUserId i) ->
  studentVerificationTool env i st
  = {| output := ver_fail msg_ver_not_found; store := st;
       queries := [Select Tstudents] |}.
Proof.
  intros [Hurl Hq] Hunb.
  unfold studentVerificationTool, exec, verification_body.
  rewrite Hurl. cbn [negb].
  unfold bind. rewrite select_student_with_group_run. conn.
  rewrite (quiet_hd _ Hq), (unbound_joined _ _ Hunb). reflexivity.
Qed.

(** An identity with no Student row is not verified; the answer is the
    not-registered message and the only statement sent is the lookup. *)
Theorem verification_unknown_identity
  (env : Env) (i : verification.input) (st : Store) :
  reliable env ->
  unbound st (verification.telegramUserId i) ->
  let r := studentVerificationTool env i st in
  output r = ver_fail msg_ver_not_found
  /\ verification.isVerified (output r) = false
  /\ store r = st
  /\ queries r = [Select Tstudents].
Proof.
  intros Hrel Hunb r. subst r.
  rewrite (verification_unbound_run env i st Hrel Hunb). repeat split.
Qed.

Lemma bound_not_unbound (st : Store) (t : Z) :
  (forall u, ~ bound_to st t u) -> unbound st t.
Proof. intros H s Hin Ht. exact (H s (conj Hin Ht)). Qed.

(** Verification says yes exactly for an identity bound to a row whose
    [is_active] is [true]: a row with [false] or with NULL there is turned
    away like a missing one. *)
Theorem verification_verifies_exactly_the_active
  (env : Env) (i : verification.input) (st : Store) :
  reliable env ->
  unique_telegramUserId st ->
  verification.isVerified (output (studentVerificationTool env i st)) = true
  <-> exists u, bound_to st (verification.telegramUserId i) u
                /\ students.isActive u = Some true.
Proof.
  intros [Hurl Hq] Hut. split.
  - intros Hv.
    destruct (filter (fun s => students.telegramUserId s =? verification.telegramUserId i)
                (students_tbl st)) as [|u l] eqn:Hf.
    + exfalso.
      rewrite verification_unbound_run in Hv; [discriminate|split; auto|].
      intros s Hin Ht.
      assert (Hin' : In s (filter (fun s => students.telegramUserId s
                                            =? verification.telegramUserId i)
                             (students_tbl st)))
        by (apply filter_In; split; auto; now apply Z.eqb_eq).
      rewrite Hf in Hin'. destruct Hin'.
    + assert (Hu : In u (filter (fun s => students.telegramUserId s
                                          =? verification.telegramUserId i)
                           (students_tbl st)))
        by (rewrite Hf; now left).
      apply filter_In in Hu. destruct Hu as [Hin Ht]. apply Z.eqb_eq in Ht.
      assert (Hb : bound_to st (verification.telegramUserId i) u) by (split; auto).
      exists u. split; [exact Hb|].
      destruct (students.isActive u) as [[]|] eqn:Hact; [reflexivity| |].
      all: exfalso; revert Hv;
        unfold studentVerificationTool, exec, verification_body;
        rewrite Hurl; cbn [negb];
        unfold bind; rewrite select_student_with_group_run; conn;
        rewrite (quiet_hd _ Hq), (bound_to_joined _ _ _ Hut Hb), Hact;
        discriminate.
  - intros (u & Hb & Hact).
    rewrite (verification_active_output env i st u (group_of st u)); auto.
    + now apply quiet_hd.
    + now apply bound_to_joined.
    + now rewrite Hact.
Qed.

(** The run of Verification for an active student whose handle needs no
    update. *)
Lemma verification_quiet_run
  (env : Env) (i : verification.input) (st : Store) (u : students.row) :
  reliable env ->
  unique_telegramUserId st ->
  bound_to st (verification.telegramUserId i) u ->
  students.isActive u = Some true ->
  truthy (verification.telegramUsername i) = false
  \/ verification.telegramUsername i = students.telegramUsername u ->
  studentVerificationTool env i st
  = {| output := verified u (group_of st u) (verification.telegramUsername i);
       store := st;
       queries := [Select Tstudents] |}.
Proof.
  intros [Hurl Hq] Hut Hb Hact Hsame.
  unfold studentVerificationTool, exec, verification_body.
  rewrite Hurl. cbn [negb].
  unfold bind at 1. rewrite select_student_with_group_run. conn.
  rewrite (quiet_hd _ Hq), (bound_to_joined _ _ _ Hut Hb), Hact. cbn [truthyB negb].
  destruct (verification.telegramUsername i) as [h|] eqn:Hh; [|reflexivity].
  assert (E : truthy (Some h)
              && negb (opt_string_eqb (Some h) (students.telegramUsername u)) = false).
  { destruct Hsame as [Hf|He].
    - now rewrite Hf.
    - rewrite <- He. simpl. rewrite String.eqb_refl. apply andb_false_r. }
  rewrite E. reflexivity.
Qed.

(** With no handle, an empty one, or the handle already stored, the call
    only reads: one SELECT, and the database is as before. *)
Theorem verification_without_drift_only_reads
  (env : Env) (i : verification.input) (st : Store) (u : students.row) :
  reliable env ->
  unique_telegramUserId st ->
  bound_to st (verification.telegramUserId i) u ->
  students.isActive u = Some true ->
  truthy (verification.telegramUsername i) = false
  \/ verification.telegramUsername i = students.telegramUsername u ->
  let r := studentVerificationTool env i st in
  verification.isVerified (output r) = true
  /\ verification.student (output r) = Some (ver_student u (group_of st u))
  /\ store r = st
  /\ queries r = [Select Tstudents].
Proof.
  intros Hrel Hut Hb Hact Hsame r. subst r.
  rewrite (verification_quiet_run env i st u Hrel Hut Hb Hact Hsame). repeat split.
Qed.

Lemma forget_handle_updated (t : Z) (h : string) (n : Z) (l : list students.row) :
  map forget_handle
    (map (fun s => if students.telegramUserId s =? t then set_username h n s else s) l)
  = map forget_handle l.
Proof.
  rewrite map_map. apply map_ext. intros s.
  now destruct (students.telegramUserId s =? t).
Qed.

(** In every environment, Verification writes nothing but the handle and
    [updated_at] of rows bound to the caller's identity: ids, bindings,
    names, groups, tiers and activity of all Students, the other tables and
    the sequences are as before, and rows of other identities are
    untouched. *)
Theorem verification_writes_only_the_handle
  (env : Env) (i : verification.input) (st : Store) :
  let r := studentVerificationTool env i st in
  map forget_handle (students_tbl (store r)) = map forget_handle (students_tbl st)
  /\ filter (fun s => negb (students.telegramUserId s =? verification.telegramUserId i))
       (students_tbl (store r))
     = filter (fun s => negb (students.telegramUserId s =? verification.telegramUserId i))
         (students_tbl st)
  /\ groups_tbl (store r) = groups_tbl st
  /\ homework_tbl (store r) = homework_tbl st
  /\ students_id_seq (store r) = students_id_seq st
  /\ homework_id_seq (store r) = homework_id_seq st.
Proof.
  cbv zeta.
  destruct (verification_store_cases env i st) as [-> | (h & ->)]; [repeat split|].
  unfold handle_updated, with_students.
  cbn [students_tbl groups_tbl homework_tbl students_id_seq homework_id_seq].
  split; [apply forget_handle_updated|]. split; [|repeat split].
  induction (students_tbl st) as [|s l IH]; [reflexivity|].
  cbn [map filter].
  destruct (students.telegramUserId s =? verification.telegramUserId i) eqn:E.
  - cbn [set_username students.telegramUserId]. rewrite E. cbn [negb]. exact IH.
  - rewrite E. cbn [negb]. now rewrite IH.
Qed.

Lemma handle_updated_unique (st : Store) (t : Z) (h : string) (n : Z) :
  unique_telegramUserId st -> unique_telegramUserId (handle_updated st t h n).
Proof.
  unfold unique_telegramUserId, handle_updated, with_students. cbn [students_tbl].
  intros H. rewrite map_map. erewrite map_ext; [exact H|].
  intros s. cbv beta. now destruct (students.telegramUserId s =? t).
Qed.

(** Handle drift is repaired once: after a verification whose UPDATE went
    through, verifying again with the same handle gives the same answer,
    sends no UPDATE and leaves the database as it is. *)
Theorem verification_repeated_is_read_only
  (env1 env2 : Env) (i : verification.input) (st : Store) (u : students.row)
  (h : string) :
  reliable env1 -> reliable env2 ->
  unique_telegramUserId st ->
  bound_to st (verification.telegramUserId i) u ->
  students.isActive u = Some true ->
  verification.telegramUsername i = Some h ->
  let r1 := studentVerificationTool env1 i st in
  let r2 := studentVerificationTool env2 i (store r1) in
  output r2 = output r1
  /\ store r2 = store r1
  /\ queries r2 = [Select Tstudents]
  /\ (h <> EmptyString ->
      exists u', bound_to (store r1) (verification.telegramUserId i) u'
                 /\ students.telegramUsername u' = Some h).
Proof.
  intros Hr1 Hr2 Hut Hb Hact Hh r1 r2.
  destruct (truthy (Some h)
            && negb (opt_string_eqb (Some h) (students.telegramUsername u))) eqn:Hd.
  - (* the first call updates *)
    apply andb_true_iff in Hd. destruct Hd as [Ht Hne].
    assert (E1 : r1 = {| output := verified u (group_of st u) (Some h);
                         store := handle_updated st (verification.telegramUserId i) h
                                    (now env1);
                         queries := [Select Tstudents; Update Tstudents] |}).
    { subst r1. destruct Hr1 as [Hurl Hq].
      unfold studentVerificationTool, exec, verification_body.
      rewrite Hurl. cbn [negb].
      unfold bind at 1. rewrite select_student_with_group_run. conn.
      rewrite (quiet_hd _ Hq), (bound_to_joined _ _ _ Hut Hb), Hact, Hh.
      cbn [truthyB negb]. rewrite Ht, Hne. cbn [andb].
      unfold bind, try_catch. rewrite update_students_run. conn.
      rewrite (quiet_hd _ (quiet_tl _ Hq)). reflexivity. }
    set (u' := set_username h (now env1) u).
    assert (Hb' : bound_to (store r1) (verification.telegramUserId i) u').
    { rewrite E1. cbn [store]. destruct Hb as [Hin Hte]. split; [|exact Hte].
      unfold handle_updated, with_students. cbn [students_tbl].
      apply in_map_iff. exists u. split; [|exact Hin].
      now rewrite Hte, Z.eqb_refl. }
    assert (Hut' : unique_telegramUserId (store r1))
      by (rewrite E1; now apply handle_updated_unique).
    assert (E2 : r2 = {| output := verified u' (group_of (store r1) u') (Some h);
                         store := store r1;
                         queries := [Select Tstudents] |}).
    { subst r2. rewrite <- Hh.
      apply (verification_quiet_run env2 i (store r1) u'); auto;
        try (right; now rewrite Hh). }
    rewrite E2. cbn [output store queries].
    split; [rewrite E1; reflexivity|]. split; [reflexivity|]. split; [reflexivity|].
    intros _. exists u'. split; [exact Hb'|reflexivity].
  - (* the first call only reads *)
    assert (Hsame : truthy (verification.telegramUsername i) = false
                    \/ verification.telegramUsername i = students.telegramUsername u).
    { rewrite Hh. apply andb_false_iff in Hd. destruct Hd as [Hd|Hd]; [now left|right].
      apply negb_false_iff in Hd.
      destruct (students.telegramUsername u) as [x|]; simpl in Hd; [|discriminate].
      apply String.eqb_eq in Hd. now subst. }
    assert (E1 : r1 = {| output := verified u (group_of st u)
                                     (verification.telegramUsername i);
                         store := st; queries := [Select Tstudents] |})
      by (subst r1; now apply verification_quiet_run).
    assert (E2 : r2 = {| output := verified u (group_of st u)
                                     (verification.telegramUsername i);
                         store := st; queries := [Select Tstudents] |}).
    { subst r2. rewrite E1. cbn [store].
      now apply verification_quiet_run. }
    rewrite E2, E1. cbn [output store queries].
    do 3 (split; [reflexivity|]).
    intros Hne. exists u. split; [exact Hb|].
    destruct Hsame as [Hf|He]; [|now rewrite <- He].
    rewrite Hh in Hf. simpl in Hf. apply negb_false_iff in Hf.
    apply String.eqb_eq in Hf. contradiction.
Qed.

(** ** Registration composed with Verification, and letter case *)

Lemma hd_error_firstn1 {A} (l : list A) : hd_error (firstn 1 l) = hd_error l.
Proof. now destruct l. Qed.

Section RegistrationComposed.

Variable toUpperCase : string -> string.

Local Abbreviation tool := (studentRegistrationTool toUpperCase).

(** Registration and Verification agree: after a first registration that
    succeeded, verifying the same identity succeeds and shows the id,
    studentId, names, group and tier that the registration answer showed. *)
Theorem registration_then_verification
  (env1 env2 : Env) (i : registration.input) (v : verification.input) (st : Store)
  (a : roster.entry) :
  reliable env1 -> reliable env2 ->
  lookup_key (toUpperCase (registration.studentId i)) AUTHORIZED_STUDENTS = Some a ->
  holders toUpperCase (registration.studentId i) st = [] ->
  unbound st (registration.telegramUserId i) ->
  verification.telegramUserId v = registration.telegramUserId i ->
  let r1 := tool env1 i st in
  registration.success (output r1) = true ->
  let r2 := studentVerificationTool env2 v (store r1) in
  verification.isVerified (output r2) = true
  /\ exists s p,
       registration.student (output r1) = Some s
       /\ verification.student (output r2) = Some p
       /\ verification.id p = registration.id s
       /\ verification.studentId p = registration.out_studentId s
       /\ verification.firstName p = registration.out_firstName s
       /\ verification.lastName p = registration.out_lastName s
       /\ verification.groupId p = registration.groupId s
       /\ verification.accessLevel p = registration.accessLevel s
       /\ registration.groupName s = or_default (verification.groupName p) "Неизвестно"
       /\ verification.isActive p = true.
Proof.
  intros Hr1 Hr2 Hk Hh Hunb Hv r1 Hok r2.
  subst r2 r1. revert Hok.
  rewrite (registration_reaches_insert toUpperCase env1 i st a Hr1 Hk Hh Hunb).
  set (e := students_stored env1 (students_id_seq st) (newStudentData toUpperCase i a)).
  destruct (students_accepts st e); [|discriminate]. intros _.
  cbn [output store].
  set (st' := with_students st (students_tbl st ++ [e]) (students_id_seq st + 1)).
  assert (Hrow :
    firstn 1
      (leftJoin (fun s g => sql_eq (students.groupId s) (Some (groups.id g)))
         (filter (fun s => students.telegramUserId s =? verification.telegramUserId v)
            (students_tbl st'))
         (groups_tbl st'))
    = [(e, group_of st' e)]).
  { unfold st', with_students. cbn [students_tbl groups_tbl].
    rewrite filter_app, Hv, (unbound_select _ _ Hunb). cbn [app filter].
    unfold e at 1. cbn [students_stored newStudentData students.telegramUserId].
    rewrite Z.eqb_refl. apply leftJoin_single_hd. }
  destruct Hr2 as [Hurl Hq].
  rewrite (verification_active_output env2 v st' e (group_of st' e) Hurl
             (quiet_hd _ Hq) Hrow eq_refl).
  split; [reflexivity|].
  eexists. eexists. split; [reflexivity|]. split; [reflexivity|].
  cbn [verified verification.student ver_student reg_student
       verification.id verification.studentId verification.firstName
       verification.lastName verification.groupId verification.accessLevel
       verification.groupName verification.isActive
       registration.id registration.out_studentId registration.out_firstName
       registration.out_lastName registration.groupId registration.accessLevel
       registration.groupName].
  repeat (split; [reflexivity|]). split; [|reflexivity].
  unfold groupName_of, group_of, st', with_students. cbn [groups_tbl].
  rewrite hd_error_firstn1. do 3 f_equal.
  apply filter_ext. intros g. unfold e.
  cbn [students_stored newStudentData students.groupId sql_eq].
  apply Z.eqb_sym.
Qed.

(** The studentId is matched without regard to letter case: two requests
    that differ only in the spelling of the studentId, with one upper-cased
    form, send the same statements, leave the same database and agree on
    success and on the Student shown. *)
Theorem registration_ignores_letter_case
  (env : Env) (i1 i2 : registration.input) (st : Store) :
  toUpperCase (registration.studentId i2) = toUpperCase (registration.studentId i1) ->
  registration.telegramUserId i2 = registration.telegramUserId i1 ->
  registration.telegramUsername i2 = registration.telegramUsername i1 ->
  registration.firstName i2 = registration.firstName i1 ->
  registration.lastName i2 = registration.lastName i1 ->
  let r1 := tool env i1 st in
  let r2 := tool env i2 st in
  store r2 = store r1
  /\ queries r2 = queries r1
  /\ registration.success (output r2) = registration.success (output r1)
  /\ registration.student (output r2) = registration.student (output r1).
Proof.
  intros Hs Ht Hu Hf Hl. cbv zeta.
  assert (Hnew : forall a, newStudentData toUpperCase i2 a = newStudentData toUpperCase i1 a).
  { intros a. unfold newStudentData. now rewrite Hs, Ht, Hu, Hf, Hl. }
  remember (tool env i1 st) as r1 eqn:E1. remember (tool env i2 st) as r2 eqn:E2.
  unfold studentRegistrationTool, exec, registration_body in E1, E2.
  rewrite Hs, Ht in E2.
  destruct (lookup_key _ _) as [a|]; [|subst; repeat split].
  rewrite Hnew in E2.
  destruct (truthy (DATABASE_URL env)); cbn [negb] in E1, E2; [|subst; repeat split].
  unfold bind at 1 in E1. unfold bind at 1 in E2.
  rewrite select_students_run in E1, E2. conn_in E1. conn_in E2.
  destruct (hd false (outages env)); [subst; repeat split|].
  destruct (firstn 1 _) as [|e l].
  - unfold bind at 1 in E1. unfold bind at 1 in E2.
    rewrite select_students_run in E1, E2. conn_in E1. conn_in E2.
    destruct (hd false (tl (outages env))); [subst; repeat split|].
    destruct (firstn 1 _) as [|o os]; [|subst; repeat split].
    unfold bind at 1 in E1. unfold bind at 1 in E2.
    rewrite insert_students_run in E1, E2. conn_in E1. conn_in E2.
    destruct (hd false (tl (tl (outages env)))); [subst; repeat split|].
    cbv zeta in E1, E2.
    destruct (students_accepts st _); [|subst; repeat split].
    unfold bind in E1, E2. rewrite select_groups_run in E1, E2. conn_in E1. conn_in E2.
    destruct (hd false (tl (tl (tl (outages env))))); subst; repeat split.
  - destruct (students.telegramUserId e =? _); [|subst; repeat split].
    unfold bind in E1, E2. rewrite select_groups_run in E1, E2. conn_in E1. conn_in E2.
    destruct (hd false (tl (outages env))); subst; repeat split.
Qed.

End RegistrationComposed.

(** ** Homework: who may write, and where *)

(** ** Sorting by falling creation time *)

Lemma desc_before_total (a b : option Z) :
  desc_before a b = false -> desc_before b a = true.
Proof.
  destruct a as [x|], b as [y|]; simpl; try discriminate; auto.
  intros H. apply Z.leb_gt in H. apply Z.leb_le. lia.
Qed.

Lemma insert_desc_perm {A} (key : A -> option Z) (x : A) (l : list A) :
  Permutation (insert_desc key x l) (x :: l).
Proof.
  induction l as [|a l IH]; [reflexivity|].
  cbn [insert_desc]. destruct (desc_before (key x) (key a)); [reflexivity|].
  rewrite IH. apply perm_swap.
Qed.

Lemma orderBy_desc_perm {A} (key : A -> option Z) (l : list A) :
  Permutation (orderBy_desc key l) l.
Proof.
  unfold orderBy_desc. induction l as [|a l IH]; [reflexivity|].
  cbn [fold_right]. rewrite insert_desc_perm. now constructor.
Qed.

Lemma desc_before_not_older (a b : option Z) :
  desc_before a b = true -> not_older a b.
Proof.
  destruct a as [x|], b as [y|]; simpl; try discriminate; auto.
  intros H. now apply Z.leb_le.
Qed.

Lemma not_older_trans (a b c : option Z) :
  not_older a b -> not_older b c -> not_older a c.
Proof.
  destruct a as [x|], b as [y|], c as [z|]; simpl; try tauto. lia.
Qed.

Lemma insert_desc_sorted {A} (key : A -> option Z) (x : A) (l : list A) :
  StronglySorted (fun a b => not_older (key a) (key b)) l ->
  StronglySorted (fun a b => not_older (key a) (key b)) (insert_desc key x l).
Proof.
  induction l as [|a l IH]; intros Hs; cbn [insert_desc].
  - constructor; constructor.
  - pose proof (StronglySorted_inv Hs) as [Hl Ha].
    destruct (desc_before (key x) (key a)) eqn:E.
    + constructor; [exact Hs|]. constructor.
      * now apply desc_before_not_older.
      * apply Forall_forall. intros b Hb. rewrite Forall_forall in Ha.
        apply (not_older_trans _ (key a)); [now apply desc_before_not_older|auto].
    + constructor; [now apply IH|].
      apply Forall_forall. intros b Hb.
      apply (Permutation_in _ (insert_desc_perm key x l)) in Hb.
      destruct Hb as [<-|Hb].
      * now apply desc_before_not_older, desc_before_total.
      * rewrite Forall_forall in Ha. auto.
Qed.

Lemma orderBy_desc_sorted {A} (key : A -> option Z) (l : list A) :
  StronglySorted (fun a b => not_older (key a) (key b)) (orderBy_desc key l).
Proof.
  unfold orderBy_desc. induction l as [|a l IH]; cbn [fold_right].
  - constructor.
  - now apply insert_desc_sorted.
Qed.

Lemma sorted_map {A B} (f : A -> B) (R : B -> B -> Prop) (l : list A) :
  StronglySorted (fun a b => R (f a) (f b)) l -> StronglySorted R (map f l).
Proof.
  induction 1 as [|a l Hs IH Ha]; cbn [map]; constructor; [exact IH|].
  apply Forall_forall. intros b Hb. apply in_map_iff in Hb.
  destruct Hb as (b' & <- & Hb'). rewrite Forall_forall in Ha. auto.
Qed.

Lemma sorted_prefix {A} (R : A -> A -> Prop) (l1 l2 : list A) :
  StronglySorted R (l1 ++ l2) -> StronglySorted R l1.
Proof.
  induction l1 as [|a l1 IH]; intros Hs; [constructor|].
  cbn [app] in Hs. pose proof (StronglySorted_inv Hs) as [Hl Ha].
  constructor; [now apply IH|].
  apply Forall_forall. intros b Hb. rewrite Forall_forall in Ha.
  apply Ha. apply in_or_app. now left.
Qed.

Lemma sorted_across {A} (R : A -> A -> Prop) (l1 l2 : list A) :
  StronglySorted R (l1 ++ l2) ->
  forall x y, In x l1 -> In y l2 -> R x y.
Proof.
  induction l1 as [|a l1 IH]; intros Hs x y Hx Hy; [destruct Hx|].
  cbn [app] in Hs. pose proof (StronglySorted_inv Hs) as [Hl Ha].
  destruct Hx as [<-|Hx].
  - rewrite Forall_forall in Ha. apply Ha. apply in_or_app. now right.
  - now apply IH.
Qed.

Lemma sorted_nth {A} (R : A -> A -> Prop) (l : list A) :
  StronglySorted R l ->
  forall k m x y, (k < m)%nat ->
    nth_error l k = Some x -> nth_error l m = Some y -> R x y.
Proof.
  induction 1 as [|a l Hs IH Ha]; intros k m x y Hkm Hk Hm.
  - destruct k; discriminate.
  - destruct m as [|m]; [lia|]. cbn [nth_error] in Hm.
    destruct k as [|k]; cbn [nth_error] in Hk.
    + injection Hk as <-. apply nth_error_In in Hm.
      rewrite Forall_forall in Ha. auto.
    + apply (IH k m); auto. lia.
Qed.

Lemma limited_firstn {A} (n : Z) (l : list A) :
  limited n l = firstn (if n <? 0 then List.length l else Z.to_nat n) l.
Proof.
  unfold limited. destruct (n <? 0); [now rewrite firstn_all|reflexivity].
Qed.

Section HomeworkPaths.

Variable trim : string -> string.
Variable Date_parse : string -> option Z.
Variable toISOString : Z -> string.

Local Abbreviation add_tool := (addHomeworkTool Date_parse toISOString).
Local Abbreviation view_tool := (viewHomeworkTool trim toISOString).

(** Add is for the three upper tiers only: a caller whose tier is [student],
    NULL, empty or any other text is refused in every environment, nothing
    is written, and when the store answers the refusal is the permission
    message after a single SELECT. *)
Theorem add_denied_below_monitor
  (env : Env) (i : add.input) (st : Store) (u : students.row) :
  unique_telegramUserId st ->
  bound_to st (add.createdByTelegramId i) u ->
  hasPermission (students.accessLevel u) = false ->
  let r := add_tool env i st in
  add.success (output r) = false
  /\ add.homework (output r) = None
  /\ store r = st
  /\ (reliable env ->
      output r = add_fail msg_add_denied /\ queries r = [Select Tstudents]).
Proof.
  intros Hut Hu Hp r. subst r.
  unfold addHomeworkTool, exec, add_body, reliable.
  destruct (truthy (DATABASE_URL env)); cbn [negb].
  2:{ simpl. do 3 (split; [reflexivity|]). intros [? _]; discriminate. }
  unfold bind. rewrite select_students_run. conn.
  destruct (hd false (outages env)) eqn:Hhd.
  - simpl. do 3 (split; [reflexivity|]). intros [_ Hq].
    apply quiet_hd in Hq. congruence.
  - rewrite (bound_to_select _ _ _ Hut Hu), Hp. simpl. auto.
Qed.

(** An identity with no Student row gets nothing from the homework tools:
    Add, View and Delete fail in every environment without writing, and
    when the store answers each says that the user was not found. *)
Theorem homework_tools_unknown_identity (env : Env) (st : Store) (t : Z) :
  unbound st t ->
  (forall i, add.createdByTelegramId i = t ->
     let r := add_tool env i st in
     add.success (output r) = false /\ store r = st
     /\ (reliable env -> output r = add_fail msg_user_not_found))
  /\ (forall i, view.telegramUserId i = t ->
        let r := view_tool env i st in
        view.success (output r) = false /\ view.homeworkList (output r) = []
        /\ store r = st
        /\ (reliable env -> output r = view_fail msg_user_not_found))
  /\ (forall i, delete.telegramUserId i = t ->
        let r := deleteHomeworkTool env i st in
        delete.success (output r) = false /\ store r = st
        /\ (reliable env -> output r = del_fail msg_user_not_found)).
Proof.
  intros Hunb. split; [|split]; intros i Hi r; subst r.
  - unfold addHomeworkTool, exec, add_body, reliable.
    destruct (truthy (DATABASE_URL env)); cbn [negb].
    2:{ simpl. do 2 (split; [reflexivity|]). intros [? _]; discriminate. }
    unfold bind. rewrite select_students_run. conn.
    destruct (hd false (outages env)) eqn:Hhd.
    + simpl. do 2 (split; [reflexivity|]). intros [_ Hq].
      apply quiet_hd in Hq. congruence.
    + rewrite Hi, (unbound_select _ _ Hunb). simpl. auto.
  - unfold viewHomeworkTool, exec, view_body, reliable.
    destruct (truthy (DATABASE_URL env)); cbn [negb].
    2:{ simpl. do 3 (split; [reflexivity|]). intros [? _]; discriminate. }
    unfold bind. rewrite select_students_run. conn.
    destruct (hd false (outages env)) eqn:Hhd.
    + simpl. do 3 (split; [reflexivity|]). intros [_ Hq].
      apply quiet_hd in Hq. congruence.
    + rewrite Hi, (unbound_select _ _ Hunb). simpl. auto.
  - unfold deleteHomeworkTool, exec, delete_body, reliable.
    destruct (truthy (DATABASE_URL env)); cbn [negb].
    2:{ simpl. do 2 (split; [reflexivity|]). intros [? _]; discriminate. }
    unfold bind. rewrite select_students_run. conn.
    destruct (hd false (outages env)) eqn:Hhd.
    + simpl. do 2 (split; [reflexivity|]). intros [_ Hq].
      apply quiet_hd in Hq. congruence.
    + rewrite Hi, (unbound_select _ _ Hunb). simpl. auto.
Qed.

(** The run of Add for a privileged caller whose target group exists. *)
Lemma add_run_privileged
  (env : Env) (i : add.input) (st : Store) (u : students.row) (g : groups.row) :
  reliable env ->
  unique_telegramUserId st -> unique_groups_id st -> homework_seq_ahead st ->
  bound_to st (add.createdByTelegramId i) u ->
  privileged (students.accessLevel u) ->
  In g (groups_tbl st) ->
  or_elseZ (add.groupId i) (students.groupId u) = Some (groups.id g) ->
  groups.id g <> 0 ->
  let due := parse_dueDate Date_parse (add.dueDate i) in
  let created :=
    {| homework.id := homework_id_seq st;
       homework.title := add.title i;
       homework.description := or_else (add.description i) None;
       homework.dueDate := due;
       homework.subject := or_else (add.subject i) None;
       homework.groupId := Some (groups.id g);
       homework.createdBy := Some (students.id u);
       homework.createdAt := Some (now env);
       homework.updatedAt := Some (now env) |} in
  add_tool env i st
  = {| output :=
         {| add.success := true;
            add.homework :=
              Some {| add.id := homework_id_seq st;
                      add.out_title := add.title i;
                      add.out_description := or_else (add.description i) None;
                      add.out_subject := or_else (add.subject i) None;
                      add.out_dueDate := or_else (option_map toISOString due) None;
                      add.groupName := groups.groupName g |};
            add.message := msg_add_ok (add.title i) (groups.groupName g) |};
       store := with_homework st (homework_tbl st ++ [created]) (homework_id_seq st + 1);
       queries := [Select Tstudents; Select Tgroups; Insert Thomework] |}.
Proof.
  intros [Hurl Hq] Hut Hug Hseq Hu Hp Hg Htarget Hnz due created.
  unfold addHomeworkTool, exec, add_body.
  rewrite Hurl. cbn [negb].
  erewrite bind_ok by (apply select_students_quiet; still_quiet).
  conn. rewrite (bound_to_select _ _ _ Hut Hu).
  rewrite (privileged_hasPermission _ Hp). cbn [negb].
  rewrite Htarget.
  assert (Htr : truthyZ (Some (groups.id g)) = true).
  { simpl. apply negb_true_iff. now apply Z.eqb_neq. }
  rewrite Htr. cbn [negb].
  erewrite bind_ok by (apply select_groups_quiet; still_quiet).
  conn. cbn [sql_eq].
  rewrite (filter_unique groups.id _ g _ Hug Hg eq_refl). cbn [firstn].
  unfold bind. rewrite insert_homework_run. conn.
  rewrite (quiet_hd _ (quiet_tl _ (quiet_tl _ Hq))). cbv zeta.
  fold due.
  change (homework_stored env (homework_id_seq st) _) with created.
  assert (Hacc : homework_accepts st created = true).
  { unfold homework_accepts, created, fk_group, fk_student.
    cbn [homework.id homework.groupId homework.createdBy].
    rewrite (seq_ahead_fresh _ Hseq).
    rewrite (existsb_In_true _ _ g Hg (Z.eqb_refl _)).
    destruct Hu as [Hin _].
    rewrite (existsb_In_true _ _ u Hin (Z.eqb_refl _)). reflexivity. }
  rewrite Hacc. reflexivity.
Qed.

(** Add puts the homework where the request says: a group named in the
    request is taken as it is, for a monitor as for an admin or owner and
    whatever the caller's own group, and only without one does the caller's
    group apply. The row carries the caller's id as creator, the next id of
    the sequence and the due date as the [Date] constructor read it, which
    the answer shows in ISO form. *)
Theorem add_honours_requested_group
  (env : Env) (i : add.input) (st : Store) (u : students.row) (g : groups.row) :
  reliable env ->
  unique_telegramUserId st -> unique_groups_id st -> homework_seq_ahead st ->
  bound_to st (add.createdByTelegramId i) u ->
  privileged (students.accessLevel u) ->
  In g (groups_tbl st) ->
  add.groupId i = Some (groups.id g) ->
  groups.id g <> 0 ->
  let r := add_tool env i st in
  let due := parse_dueDate Date_parse (add.dueDate i) in
  add.success (output r) = true
  /\ add.message (output r) = msg_add_ok (add.title i) (groups.groupName g)
  /\ option_map add.out_dueDate (add.homework (output r))
     = Some (or_else (option_map toISOString due) None)
  /\ exists created,
       homework_tbl (store r) = homework_tbl st ++ [created]
       /\ homework.id created = homework_id_seq st
       /\ homework.groupId created = Some (groups.id g)
       /\ homework.createdBy created = Some (students.id u)
       /\ homework.dueDate created = due
       /\ homework.title created = add.title i.
Proof.
  intros Hrel Hut Hug Hseq Hu Hp Hg Hreq Hnz r due.
  assert (Htarget : or_elseZ (add.groupId i) (students.groupId u) = Some (groups.id g)).
  { unfold or_elseZ. rewrite Hreq. simpl.
    apply Z.eqb_neq in Hnz. now rewrite Hnz. }
  subst r.
  rewrite (add_run_privileged env i st u g Hrel Hut Hug Hseq Hu Hp Hg Htarget Hnz).
  cbn [output store add.success add.message add.homework option_map add.out_dueDate
       with_homework homework_tbl].
  do 3 (split; [reflexivity|]).
  eexists. split; [reflexivity|]. repeat split.
Qed.

(** Add writes nothing when the group cannot be resolved: with no group in
    the request (or group 0) and none on the caller's row the call stops
    after the caller's lookup, and with a target id that no Group row has it
    stops after the group lookup. *)
Theorem add_unresolved_group_writes_nothing
  (env : Env) (i : add.input) (st : Store) (u : students.row) :
  reliable env ->
  unique_telegramUserId st ->
  bound_to st (add.createdByTelegramId i) u ->
  privileged (students.accessLevel u) ->
  let target := or_elseZ (add.groupId i) (students.groupId u) in
  (truthyZ target = false ->
   add_tool env i st
   = {| output := add_fail msg_add_no_group; store := st;
        queries := [Select Tstudents] |})
  /\ (forall x, target = Some x -> x <> 0 -> no_group st x ->
      add_tool env i st
      = {| output := add_fail msg_add_group_missing; store := st;
           queries := [Select Tstudents; Select Tgroups] |}).
Proof.
  intros [Hurl Hq] Hut Hu Hp target. split.
  - intros Hfalsy.
    unfold addHomeworkTool, exec, add_body.
    rewrite Hurl. cbn [negb].
    erewrite bind_ok by (apply select_students_quiet; still_quiet).
    conn. rewrite (bound_to_select _ _ _ Hut Hu).
    rewrite (privileged_hasPermission _ Hp). cbn [negb].
    fold target. rewrite Hfalsy. reflexivity.
  - intros x Hx Hnz Hng.
    unfold addHomeworkTool, exec, add_body.
    rewrite Hurl. cbn [negb].
    erewrite bind_ok by (apply select_students_quiet; still_quiet).
    conn. rewrite (bound_to_select _ _ _ Hut Hu).
    rewrite (privileged_hasPermission _ Hp). cbn [negb].
    fold target. rewrite Hx.
    assert (Htr : truthyZ (Some x) = true).
    { simpl. apply negb_true_iff. now apply Z.eqb_neq. }
    rewrite Htr. cbn [negb].
    erewrite bind_ok by (apply select_groups_quiet; still_quiet).
    conn. rewrite filter_none; [reflexivity|].
    intros r Hin. cbn [sql_eq]. apply Z.eqb_neq. now apply Hng.
Qed.

(** ** Homework: deleting *)

(** The run of Delete for a privileged caller. *)
Lemma delete_run_privileged
  (env : Env) (i : delete.input) (st : Store) (u : students.row) :
  reliable env ->
  unique_telegramUserId st ->
  bound_to st (delete.telegramUserId i) u ->
  privileged (students.accessLevel u) ->
  deleteHomeworkTool env i st
  = match filter (fun h => homework.id h =? delete.homeworkId i) (homework_tbl st) with
    | [] => {| output := del_fail msg_del_not_found; store := st;
               queries := [Select Tstudents; Select Thomework] |}
    | existing :: _ =>
        {| output := {| delete.success := true;
                        delete.message := msg_del_ok (homework.title existing) |};
           store := with_homework st
                      (filter (fun h => negb (homework.id h =? delete.homeworkId i))
                         (homework_tbl st))
                      (homework_id_seq st);
           queries := [Select Tstudents; Select Thomework; Delete Thomework] |}
    end.
Proof.
  intros [Hurl Hq] Hut Hu Hp.
  unfold deleteHomeworkTool, exec, delete_body.
  rewrite Hurl. cbn [negb].
  erewrite bind_ok by (apply select_students_quiet; still_quiet).
  conn. rewrite (bound_to_select _ _ _ Hut Hu).
  rewrite (privileged_hasPermission _ Hp). cbn [negb].
  erewrite bind_ok by (apply select_homework_quiet; still_quiet).
  conn. destruct (filter _ (homework_tbl st)) as [|h hs]; [reflexivity|].
  cbn [firstn].
  erewrite bind_ok by (apply delete_homework_quiet; still_quiet).
  reflexivity.
Qed.

Lemma filter_negb_twice {A} (p : A -> bool) (l : list A) :
  filter p (filter (fun x => negb (p x)) l) = [].
Proof.
  apply filter_none. intros x Hx. apply filter_In in Hx.
  destruct Hx as [_ Hx]. now apply negb_true_iff.
Qed.

Lemma filter_all {A} (p : A -> bool) (l : list A) :
  (forall x, In x l -> p x = true) -> filter p l = l.
Proof.
  induction l as [|a l IH]; simpl; intros H; auto.
  rewrite (H a (or_introl eq_refl)). f_equal. apply IH. intros x Hx. apply H. now right.
Qed.

(** Delete after Add undoes it: deleting the id that a successful Add
    returned gives the confirmation with the title that was added and
    leaves the [homework] table as it was before the Add. The id is not
    handed out again: the sequence stays one ahead. *)
Theorem add_then_delete_restores_table
  (env1 env2 : Env) (a : add.input) (d : delete.input) (st : Store)
  (u w : students.row) (g : groups.row) :
  reliable env1 -> reliable env2 ->
  unique_telegramUserId st -> unique_groups_id st -> homework_seq_ahead st ->
  bound_to st (add.createdByTelegramId a) u ->
  privileged (students.accessLevel u) ->
  In g (groups_tbl st) ->
  or_elseZ (add.groupId a) (students.groupId u) = Some (groups.id g) ->
  groups.id g <> 0 ->
  bound_to st (delete.telegramUserId d) w ->
  privileged (students.accessLevel w) ->
  let r1 := add_tool env1 a st in
  option_map add.id (add.homework (output r1)) = Some (delete.homeworkId d) ->
  let r2 := deleteHomeworkTool env2 d (store r1) in
  output r2 = {| delete.success := true; delete.message := msg_del_ok (add.title a) |}
  /\ homework_tbl (store r2) = homework_tbl st
  /\ homework_id_seq (store r2) = homework_id_seq st + 1.
Proof.
  intros Hr1 Hr2 Hut Hug Hseq Hu Hp Hg Htarget Hnz Hw Hpw r1 Hid r2.
  subst r2 r1. revert Hid.
  rewrite (add_run_privileged env1 a st u g Hr1 Hut Hug Hseq Hu Hp Hg Htarget Hnz).
  cbn [output store add.homework option_map add.id]. intros Hid.
  injection Hid as Hid.
  rewrite (delete_run_privileged env2 d _ w Hr2); auto.
  cbn [with_homework homework_tbl homework_id_seq]. rewrite <- Hid.
  rewrite !filter_app. cbn [filter homework.id]. rewrite Z.eqb_refl. cbn [negb].
  rewrite filter_none.
  2:{ intros h Hin. apply Z.eqb_neq.
      unfold homework_seq_ahead in Hseq. rewrite Forall_forall in Hseq.
      apply Hseq in Hin. lia. }
  cbn [app output store with_homework homework_tbl homework_id_seq homework.title].
  rewrite app_nil_r, filter_all; [repeat split|].
  intros h Hin. apply negb_true_iff, Z.eqb_neq.
  unfold homework_seq_ahead in Hseq. rewrite Forall_forall in Hseq.
  apply Hseq in Hin. lia.
Qed.

(** Deleting the same id again reports not-found: whatever the first call
    found, a second Delete of that id by a privileged caller fails with the
    not-found message, sends no DELETE and changes nothing. *)
Theorem delete_twice_reports_not_found
  (env1 env2 : Env) (i : delete.input) (st : Store) (u : students.row) :
  reliable env1 -> reliable env2 ->
  unique_telegramUserId st ->
  bound_to st (delete.telegramUserId i) u ->
  privileged (students.accessLevel u) ->
  let r1 := deleteHomeworkTool env1 i st in
  deleteHomeworkTool env2 i (store r1)
  = {| output := del_fail msg_del_not_found; store := store r1;
       queries := [Select Tstudents; Select Thomework] |}.
Proof.
  intros Hr1 Hr2 Hut Hu Hp r1. subst r1.
  rewrite (delete_run_privileged env1 i st u Hr1 Hut Hu Hp).
  destruct (filter _ (homework_tbl st)) as [|h hs] eqn:Hf; cbn [store].
  - rewrite (delete_run_privileged env2 i st u Hr2 Hut Hu Hp). now rewrite Hf.
  - rewrite (delete_run_privileged env2 i _ u Hr2); auto.
    cbn [with_homework homework_tbl].
    now rewrite (filter_negb_twice (fun h => homework.id h =? delete.homeworkId i)).
Qed.

Lemma filter_idem {A} (p : A -> bool) (l : list A) :
  filter p (filter p l) = filter p l.
Proof.
  apply filter_all. intros x Hx. apply filter_In in Hx. tauto.
Qed.

(** In every environment Delete touches nothing but rows of [homework] with
    the requested id: the other homework rows are there as before and in
    the same order, no row is added, and [students], [groups] and the
    sequences are as they were. *)
Theorem delete_touches_only_the_target
  (env : Env) (i : delete.input) (st : Store) :
  let r := deleteHomeworkTool env i st in
  let others (l : list homework.row) :=
    filter (fun h => negb (homework.id h =? delete.homeworkId i)) l in
  others (homework_tbl (store r)) = others (homework_tbl st)
  /\ (forall h, In h (homework_tbl (store r)) -> In h (homework_tbl st))
  /\ students_tbl (store r) = students_tbl st
  /\ groups_tbl (store r) = groups_tbl st
  /\ students_id_seq (store r) = students_id_seq st
  /\ homework_id_seq (store r) = homework_id_seq st.
Proof.
  cbv zeta.
  destruct (delete_store_cases env i st) as [-> | ->]; [repeat split; auto|].
  cbn [with_homework homework_tbl students_tbl groups_tbl students_id_seq
       homework_id_seq].
  split; [apply filter_idem|]. split; [|repeat split].
  intros h Hin. apply filter_In in Hin. tauto.
Qed.

(** ** Homework: viewing *)

(** View only reads: in every environment and on every input the database
    after the call is the database before it, and the call sends at most
    the caller's lookup and the listing query, in that order. *)
Theorem view_only_reads (env : Env) (i : view.input) (st : Store) :
  let r := view_tool env i st in
  store r = st
  /\ (queries r = [] \/ queries r = [Select Tstudents]
      \/ queries r = [Select Tstudents; Select Thomework]).
Proof.
  cbv zeta. remember (view_tool env i st) as r eqn:Hr.
  unfold viewHomeworkTool, exec, view_body in Hr.
  destruct (truthy (DATABASE_URL env)); cbn [negb] in Hr; [|subst r; cbn; auto].
  unfold bind at 1 in Hr. rewrite select_students_run in Hr. conn_in Hr.
  destruct (hd false (outages env)); [subst r; cbn; auto|].
  destruct (firstn 1 _) as [|u l]; [subst r; cbn; auto|].
  destruct (truthyZ _); cbn [negb] in Hr; [|subst r; cbn; auto].
  unfold bind in Hr. rewrite select_homework_joined_run in Hr. conn_in Hr.
  destruct (hd false (tl (outages env))); subst r; cbn; auto.
Qed.

(** The run of View for a caller with a group to list. *)
Lemma view_run
  (env : Env) (i : view.input) (st : Store) (u : students.row) :
  reliable env ->
  unique_telegramUserId st ->
  bound_to st (view.telegramUserId i) u ->
  let target :=
    view_target (students.accessLevel u) (view.groupId i) (students.groupId u) in
  truthyZ target = true ->
  view_tool env i st
  = let rows := limited (view.limit i) (joined_rows st target) in
    {| output :=
         {| view.success := true;
            view.homeworkList := map (view_item trim toISOString) rows;
            view.message :=
              if (0 <? List.length (map (view_item trim toISOString) rows))%nat
              then msg_view_found (List.length (map (view_item trim toISOString) rows))
              else msg_view_none |};
       store := st;
       queries := [Select Tstudents; Select Thomework] |}.
Proof.
  intros [Hurl Hq] Hut Hu target Htr.
  unfold viewHomeworkTool, exec, view_body.
  rewrite Hurl. cbn [negb].
  erewrite bind_ok by (apply select_students_quiet; still_quiet).
  conn. rewrite (bound_to_select _ _ _ Hut Hu). fold target. rewrite Htr. cbn [negb].
  unfold bind. rewrite select_homework_joined_run. conn.
  rewrite (quiet_hd _ (quiet_tl _ Hq)).
  reflexivity.
Qed.

Lemma filter_at_most_one {A} (key : A -> Z) (p : A -> bool) (k : Z) (l : list A) :
  NoDup (map key l) ->
  (forall a, p a = true -> key a = k) ->
  (List.length (filter p l) <= 1)%nat.
Proof.
  intros Hnd Hp. induction l as [|a l IH]; [simpl; lia|].
  inversion Hnd as [|? ? Hnotin Hnd']; subst.
  cbn [filter]. destruct (p a) eqn:E; [|now apply IH].
  rewrite filter_none; [simpl; lia|].
  intros b Hb. destruct (p b) eqn:Eb; auto.
  exfalso. apply Hnotin. rewrite (Hp a E), <- (Hp b Eb). now apply in_map.
Qed.

Lemma leftJoin_at_most_one {A B} (on : A -> B -> bool) (l : list A) (r : list B) :
  (forall a, (List.length (filter (on a) r) <= 1)%nat) ->
  map fst (leftJoin on l r) = l.
Proof.
  intros H. unfold leftJoin. induction l as [|a l IH]; [reflexivity|].
  cbn [flat_map]. rewrite map_app, IH. specialize (H a).
  destruct (filter (on a) r) as [|b [|b' bs]]; [reflexivity|reflexivity|].
  simpl in H. lia.
Qed.

(** With primary keys in place the joins neither drop nor repeat a row: the
    homework rows behind the listing query are those of the group, each
    once. *)
Lemma joined_rows_cover (st : Store) (tg : option Z) :
  unique_groups_id st -> unique_students_id st ->
  Permutation (map joined_hw (joined_rows st tg)) (homework_of st tg).
Proof.
  intros Hg Hs. unfold joined_rows, homework_of.
  rewrite orderBy_desc_perm.
  rewrite <- (filter_map_swap (fun h => sql_eq (homework.groupId h) tg) joined_hw).
  assert (Hfst : forall L : list joined, map joined_hw L = map fst (map fst L))
    by (intros L; now rewrite map_map).
  rewrite Hfst.
  rewrite leftJoin_at_most_one, leftJoin_at_most_one; [reflexivity| |].
  - intros h. destruct (homework.groupId h) as [x|] eqn:E.
    + apply (filter_at_most_one groups.id _ x); [exact Hg|].
      intros g Hon. simpl in Hon. apply Z.eqb_eq in Hon. congruence.
    + rewrite filter_none; [simpl; lia|]. reflexivity.
  - intros [h g]. cbn [fst]. destruct (homework.createdBy h) as [x|] eqn:E.
    + apply (filter_at_most_one students.id _ x); [exact Hs|].
      intros s Hon. simpl in Hon. apply Z.eqb_eq in Hon. congruence.
    + rewrite filter_none; [simpl; lia|]. reflexivity.
Qed.

(** ** The order and the size of a listing *)

(** View lists the newest homework of the group, newest first, and [limit]
    caps the listing only when it is not negative. The items are, in this
    order, the rows [listed]; together with the rows [rest] left out they are
    the homework of the target group, each row once. A row listed above
    another one was not created before it, and no row left out was created
    after a listed one. With [0 <= limit] there are [limit] items, or as
    many as the group has when that is less; with a negative [limit] the
    query carries no LIMIT and the whole group is listed. *)
Theorem view_newest_first_and_capped
  (env : Env) (i : view.input) (st : Store) (u : students.row) :
  reliable env ->
  unique_telegramUserId st -> unique_groups_id st -> unique_students_id st ->
  bound_to st (view.telegramUserId i) u ->
  let target :=
    view_target (students.accessLevel u) (view.groupId i) (students.groupId u) in
  truthyZ target = true ->
  let r := view_tool env i st in
  exists listed rest : list homework.row,
    view.success (output r) = true
    /\ map (fun it => (view.id it, view.title it)) (view.homeworkList (output r))
       = map (fun h => (homework.id h, homework.title h)) listed
    /\ Permutation (listed ++ rest) (homework_of st target)
    /\ (forall k m x y, (k < m)%nat ->
          nth_error listed k = Some x -> nth_error listed m = Some y ->
          not_older (homework.createdAt x) (homework.createdAt y))
    /\ (forall x y, In x listed -> In y rest ->
          not_older (homework.createdAt x) (homework.createdAt y))
    /\ List.length listed
       = (if view.limit i <? 0 then List.length (homework_of st target)
          else Nat.min (Z.to_nat (view.limit i))
                 (List.length (homework_of st target))).
Proof.
  intros Hrel Hut Hug Hus Hu target Htr r. subst r.
  rewrite (view_run env i st u Hrel Hut Hu Htr). fold target.
  cbn [output view.success view.homeworkList].
  pose proof (joined_rows_cover st target Hug Hus) as Hcover.
  set (full := map joined_hw (joined_rows st target)) in Hcover |- *.
  set (k := if view.limit i <? 0 then List.length (joined_rows st target)
            else Z.to_nat (view.limit i)).
  assert (Hsorted : StronglySorted
            (fun a b => not_older (homework.createdAt a) (homework.createdAt b))
            (firstn k full ++ skipn k full)).
  { rewrite firstn_skipn. apply sorted_map. unfold joined_rows.
    apply (orderBy_desc_sorted (fun x => homework.createdAt (joined_hw x))). }
  exists (firstn k full), (skipn k full).
  split; [reflexivity|]. split.
  { rewrite limited_firstn. fold k. rewrite map_map.
    cbn [view_item view.id view.title].
    rewrite <- (map_map joined_hw (fun h => (homework.id h, homework.title h))).
    unfold full. now rewrite firstn_map. }
  split; [now rewrite firstn_skipn|].
  split; [exact (sorted_nth _ _ (sorted_prefix _ _ _ Hsorted))|].
  split; [exact (sorted_across _ _ _ Hsorted)|].
  rewrite length_firstn, <- (Permutation_length Hcover).
  unfold k, full. rewrite length_map.
  destruct (view.limit i <? 0); [apply Nat.min_id|reflexivity].
Qed.

(** The listing of a group that the limit covers. *)
Lemma view_whole_group_run
  (env : Env) (i : view.input) (st : Store) (u : students.row) :
  reliable env ->
  unique_telegramUserId st -> unique_groups_id st -> unique_students_id st ->
  bound_to st (view.telegramUserId i) u ->
  let target :=
    view_target (students.accessLevel u) (view.groupId i) (students.groupId u) in
  truthyZ target = true ->
  Z.of_nat (List.length (homework_of st target)) <= view.limit i ->
  let r := view_tool env i st in
  view.success (output r) = true
  /\ Permutation
       (map (fun it => (view.id it, view.title it)) (view.homeworkList (output r)))
       (map (fun h => (homework.id h, homework.title h)) (homework_of st target)).
Proof.
  intros Hrel Hut Hug Hus Hu target Htr Hlim r. subst r.
  rewrite (view_run env i st u Hrel Hut Hu Htr). fold target.
  assert (Hpos : (view.limit i <? 0) = false) by (apply Z.ltb_ge; lia).
  unfold limited. rewrite Hpos. cbn [output view.success view.homeworkList].
  split; [reflexivity|].
  pose proof (joined_rows_cover st target Hug Hus) as Hcover.
  rewrite firstn_all2.
  2:{ rewrite <- (length_map joined_hw), (Permutation_length Hcover). lia. }
  rewrite map_map. cbn [view_item view.id view.title].
  rewrite <- (map_map joined_hw (fun h => (homework.id h, homework.title h))).
  now apply Permutation_map.
Qed.

(** With a limit that covers the group, View lists the whole group: every
    homework row of the target group appears exactly once, with its id and
    title, and nothing else appears. *)
Theorem view_lists_the_whole_group
  (env : Env) (i : view.input) (st : Store) (u : students.row) :
  reliable env ->
  unique_telegramUserId st -> unique_groups_id st -> unique_students_id st ->
  bound_to st (view.telegramUserId i) u ->
  let target :=
    view_target (students.accessLevel u) (view.groupId i) (students.groupId u) in
  truthyZ target = true ->
  Z.of_nat (List.length (homework_of st target)) <= view.limit i ->
  let r := view_tool env i st in
  view.success (output r) = true
  /\ Permutation
       (map (fun it => (view.id it, view.title it)) (view.homeworkList (output r)))
       (map (fun h => (homework.id h, homework.title h)) (homework_of st target)).
Proof.
  intros Hrel Hut Hug Hus Hu target Htr Hlim.
  exact (view_whole_group_run env i st u Hrel Hut Hug Hus Hu Htr Hlim).
Qed.

(** What Add stores, View shows: after a successful Add, a caller whose
    listing is taken from the group that the homework went to sees the new
    homework, under the id that Add returned and with its title, provided
    the limit covers the group. *)
Theorem add_then_view_shows_it
  (env1 env2 : Env) (a : add.input) (v : view.input) (st : Store)
  (u w : students.row) (g : groups.row) :
  reliable env1 -> reliable env2 ->
  unique_telegramUserId st -> unique_groups_id st -> unique_students_id st ->
  homework_seq_ahead st ->
  bound_to st (add.createdByTelegramId a) u ->
  privileged (students.accessLevel u) ->
  In g (groups_tbl st) ->
  or_elseZ (add.groupId a) (students.groupId u) = Some (groups.id g) ->
  groups.id g <> 0 ->
  bound_to st (view.telegramUserId v) w ->
  view_target (students.accessLevel w) (view.groupId v) (students.groupId w)
  = Some (groups.id g) ->
  Z.of_nat (List.length (homework_of st (Some (groups.id g)))) < view.limit v ->
  let r1 := add_tool env1 a st in
  let r2 := view_tool env2 v (store r1) in
  view.success (output r2) = true
  /\ In (homework_id_seq st, add.title a)
       (map (fun it => (view.id it, view.title it)) (view.homeworkList (output r2)))
  /\ option_map add.id (add.homework (output r1)) = Some (homework_id_seq st).
Proof.
  intros Hr1 Hr2 Hut Hug Hus Hseq Hu Hp Hg Htarget Hnz Hw Hview Hlim r1 r2.
  subst r2 r1.
  rewrite (add_run_privileged env1 a st u g Hr1 Hut Hug Hseq Hu Hp Hg Htarget Hnz).
  cbn [output store add.homework option_map add.id].
  set (created := {| homework.id := homework_id_seq st;
                     homework.title := add.title a;
                     homework.description := or_else (add.description a) None;
                     homework.dueDate := parse_dueDate Date_parse (add.dueDate a);
                     homework.subject := or_else (add.subject a) None;
                     homework.groupId := Some (groups.id g);
                     homework.createdBy := Some (students.id u);
                     homework.createdAt := Some (now env1);
                     homework.updatedAt := Some (now env1) |}).
  set (st' := with_homework st (homework_tbl st ++ [created]) (homework_id_seq st + 1)).
  assert (Hof : homework_of st' (Some (groups.id g))
                = homework_of st (Some (groups.id g)) ++ [created]).
  { unfold homework_of, st', with_homework. cbn [homework_tbl].
    rewrite filter_app. cbn [filter created homework.groupId sql_eq].
    now rewrite Z.eqb_refl. }
  assert (Htr : truthyZ (Some (groups.id g)) = true).
  { simpl. apply negb_true_iff. now apply Z.eqb_neq. }
  destruct (view_whole_group_run env2 v st' w Hr2) as [Hok Hperm]; auto.
  - now rewrite Hview.
  - rewrite Hview, Hof, length_app. cbn [List.length]. lia.
  - split; [exact Hok|]. split; [|reflexivity].
    apply (Permutation_in _ (Permutation_sym Hperm)).
    rewrite Hview, Hof, map_app. apply in_or_app. right. now left.
Qed.

End HomeworkPaths.

(** ** The schema's constraints are kept *)

Lemma NoDup_snoc_any {A} (l : list A) (x : A) : NoDup l -> ~ In x l -> NoDup (l ++ [x]).
Proof.
  intros Hl Hx. apply NoDup_app; auto.
  - repeat constructor. intros [].
  - intros y Hy [<-|[]]. contradiction.
Qed.

Lemma existsb_false_no_key {A B} (key : A -> B) (eqb : B -> B -> bool) (l : list A)
  (k : B) :
  (forall x, eqb x x = true) ->
  existsb (fun a => eqb (key a) k) l = false -> ~ In k (map key l).
Proof.
  intros Hrefl H Hin. apply in_map_iff in Hin. destruct Hin as (a & Ha & Hin).
  rewrite (existsb_In_true _ _ a Hin) in H; [discriminate|].
  rewrite Ha. apply Hrefl.
Qed.

Lemma fk_student_grows (st : Store) (l : list students.row) (n : Z) (x : option Z) :
  (forall k, In k (map students.id (students_tbl st)) -> In k (map students.id l)) ->
  fk_student st x = true -> fk_student (with_students st l n) x = true.
Proof.
  intros Hsub. unfold fk_student, with_students. cbn [students_tbl].
  destruct x as [k|]; [|reflexivity]. intros H.
  apply existsb_exists in H. destruct H as (s & Hin & Hs). apply Z.eqb_eq in Hs.
  assert (Hk : In k (map students.id l)).
  { apply Hsub. rewrite <- Hs. now apply in_map. }
  apply in_map_iff in Hk. destruct Hk as (s' & Hs' & Hin').
  apply existsb_exists. exists s'. split; [exact Hin'|]. now apply Z.eqb_eq.
Qed.

(** A change of the [students] table that keeps every id in place keeps the
    foreign keys of [homework]. *)
Lemma homework_fk_with_students (st : Store) (l : list students.row) (n : Z) :
  (forall k, In k (map students.id (students_tbl st)) -> In k (map students.id l)) ->
  Forall (fun h => fk_group st (homework.groupId h) = true
                   /\ fk_student st (homework.createdBy h) = true)
    (homework_tbl st) ->
  Forall (fun h => fk_group (with_students st l n) (homework.groupId h) = true
                   /\ fk_student (with_students st l n) (homework.createdBy h) = true)
    (homework_tbl (with_students st l n)).
Proof.
  intros Hsub H. cbn [with_students homework_tbl].
  eapply Forall_impl; [|exact H]. cbv beta. intros h [Hg Hs]. split.
  - exact Hg.
  - now apply fk_student_grows.
Qed.

Lemma schema_ok_students_seq (st : Store) :
  schema_ok st ->
  schema_ok (with_students st (students_tbl st) (students_id_seq st + 1)).
Proof.
  intros (Hg & Hsi & Ht & Hsd & Hh & Hfs & Hfh & Hss & Hhs).
  repeat split; try assumption.
  all: first
    [ now apply homework_fk_with_students
    | unfold students_seq_ahead, with_students in *;
      cbn [students_tbl students_id_seq];
      eapply Forall_impl; [|exact Hss]; cbv beta; intros; lia ].
Qed.

Lemma schema_ok_students_append (st : Store) (e : students.row) :
  schema_ok st ->
  students_accepts st e = true ->
  students.id e = students_id_seq st ->
  schema_ok (with_students st (students_tbl st ++ [e]) (students_id_seq st + 1)).
Proof.
  intros (Hg & Hsi & Ht & Hsd & Hh & Hfs & Hfh & Hss & Hhs) Hacc Hid.
  unfold students_accepts in Hacc.
  apply andb_true_iff in Hacc. destruct Hacc as [Hacc Hfk].
  apply andb_true_iff in Hacc. destruct Hacc as [Hacc Hsid].
  apply andb_true_iff in Hacc. destruct Hacc as [Hpk Htg].
  apply negb_true_iff in Hpk, Htg, Hsid.
  assert (Hgrow : forall k, In k (map students.id (students_tbl st)) ->
                            In k (map students.id (students_tbl st ++ [e])))
    by (intros k Hk; rewrite map_app; apply in_or_app; now left).
  repeat split; try assumption.
  all: unfold unique_students_id, unique_telegramUserId, students_seq_ahead in *.
  all: first
    [ now apply homework_fk_with_students
    | cbn [with_students students_tbl students_id_seq]; rewrite map_app;
      apply NoDup_snoc_any;
      [assumption
      |first [ apply (existsb_false_no_key students.id Z.eqb);
               [apply Z.eqb_refl|exact Hpk]
             | apply (existsb_false_no_key students.telegramUserId Z.eqb);
               [apply Z.eqb_refl|exact Htg]
             | apply (existsb_false_no_key students.studentId String.eqb);
               [apply String.eqb_refl|exact Hsid] ]]
    | cbn [with_students students_tbl students_id_seq];
      apply Forall_app; split;
      [exact Hfs|constructor; [exact Hfk|constructor]]
    | cbn [with_students students_tbl students_id_seq];
      apply Forall_app; split;
      [eapply Forall_impl; [|exact Hss]; cbv beta; intros; lia
      |repeat constructor; lia] ].
Qed.

Lemma schema_ok_handle_updated (st : Store) (t : Z) (h : string) (n : Z) :
  schema_ok st -> schema_ok (handle_updated st t h n).
Proof.
  intros (Hg & Hsi & Ht & Hsd & Hh & Hfs & Hfh & Hss & Hhs).
  set (f := fun s => if students.telegramUserId s =? t then set_username h n s else s).
  assert (Hid : forall s, students.id (f s) = students.id s)
    by (intros s; unfold f; now destruct (_ =? _)).
  assert (Htu : forall s, students.telegramUserId (f s) = students.telegramUserId s)
    by (intros s; unfold f; now destruct (_ =? _)).
  assert (Hst : forall s, students.studentId (f s) = students.studentId s)
    by (intros s; unfold f; now destruct (_ =? _)).
  assert (Hgr : forall s, students.groupId (f s) = students.groupId s)
    by (intros s; unfold f; now destruct (_ =? _)).
  unfold handle_updated. fold f.
  repeat split; try assumption.
  all: unfold unique_students_id, unique_telegramUserId, students_seq_ahead in *.
  all: first
    [ apply homework_fk_with_students; [|exact Hfh];
      intros k Hk; rewrite map_map; now rewrite (map_ext _ _ Hid)
    | cbn [with_students students_tbl students_id_seq]; rewrite map_map;
      first [ now rewrite (map_ext _ _ Hid)
            | now rewrite (map_ext _ _ Htu)
            | now rewrite (map_ext _ _ Hst) ]
    | cbn [with_students students_tbl students_id_seq];
      apply Forall_map; eapply Forall_impl; [|exact Hfs]; cbv beta;
      intros s Hs; now rewrite Hgr
    | cbn [with_students students_tbl students_id_seq];
      apply Forall_map; eapply Forall_impl; [|exact Hss]; cbv beta;
      intros s Hs; now rewrite Hid ].
Qed.

Lemma registration_store_shape
  (toUpperCase : string -> string) (env : Env) (i : registration.input) (st : Store) :
  let s' := store (studentRegistrationTool toUpperCase env i st) in
  s' = st
  \/ s' = with_students st (students_tbl st) (students_id_seq st + 1)
  \/ exists e, students_accepts st e = true
               /\ students.id e = students_id_seq st
               /\ s' = with_students st (students_tbl st ++ [e]) (students_id_seq st + 1).
Proof.
  cbv zeta. remember (studentRegistrationTool toUpperCase env i st) as r eqn:Hr.
  unfold studentRegistrationTool, exec, registration_body in Hr.
  destruct (lookup_key _ _) as [a|]; [|subst r; now left].
  destruct (truthy (DATABASE_URL env)); cbn [negb] in Hr; [|subst r; now left].
  unfold bind at 1 in Hr. rewrite select_students_run in Hr. conn_in Hr.
  destruct (hd false (outages env)); [subst r; now left|].
  destruct (firstn 1 _) as [|e l].
  - unfold bind at 1 in Hr. rewrite select_students_run in Hr. conn_in Hr.
    destruct (hd false (tl (outages env))); [subst r; now left|].
    destruct (firstn 1 _) as [|o os]; [|subst r; now left].
    unfold bind at 1 in Hr. rewrite insert_students_run in Hr. conn_in Hr.
    destruct (hd false (tl (tl (outages env)))); [subst r; now left|].
    cbv zeta in Hr.
    destruct (students_accepts st _) eqn:Hacc.
    + unfold bind in Hr. rewrite select_groups_run in Hr. conn_in Hr.
      right; right. eexists. split; [exact Hacc|]. split; [reflexivity|].
      destruct (hd false (tl (tl (tl (outages env))))); subst r; reflexivity.
    + subst r. right; left. reflexivity.
  - destruct (students.telegramUserId e =? _); [|subst r; now left].
    unfold bind in Hr. rewrite select_groups_run in Hr. conn_in Hr.
    destruct (hd false (tl (outages env))); subst r; now left.
Qed.

(** Registration and Verification keep the schema: from a database that
    meets every declared constraint, with the sequences ahead of the ids in
    use, each of them, in every environment and on every input, ends in a
    database that does. *)
Theorem student_tools_keep_the_schema
  (toUpperCase : string -> string) (env : Env) (st : Store) :
  schema_ok st ->
  (forall i, schema_ok (store (studentRegistrationTool toUpperCase env i st)))
  /\ (forall i, schema_ok (store (studentVerificationTool env i st))).
Proof.
  intros Hok. split; intros i.
  - destruct (registration_store_shape toUpperCase env i st)
      as [-> | [-> | (e & Hacc & Hid & ->)]].
    + exact Hok.
    + now apply schema_ok_students_seq.
    + now apply schema_ok_students_append.
  - destruct (verification_store_cases env i st) as [-> | (h & ->)].
    + exact Hok.
    + now apply schema_ok_handle_updated.
Qed.

Lemma schema_ok_homework_seq (st : Store) :
  schema_ok st ->
  schema_ok (with_homework st (homework_tbl st) (homework_id_seq st + 1)).
Proof.
  intros (Hg & Hsi & Ht & Hsd & Hh & Hfs & Hfh & Hss & Hhs).
  repeat split; try assumption.
  all: unfold homework_seq_ahead, with_homework in *;
    cbn [homework_tbl homework_id_seq];
    eapply Forall_impl; [|exact Hhs]; cbv beta; intros; lia.
Qed.

Lemma schema_ok_homework_append (st : Store) (h : homework.row) :
  schema_ok st ->
  homework_accepts st h = true ->
  homework.id h = homework_id_seq st ->
  schema_ok (with_homework st (homework_tbl st ++ [h]) (homework_id_seq st + 1)).
Proof.
  intros (Hg & Hsi & Ht & Hsd & Hh & Hfs & Hfh & Hss & Hhs) Hacc Hid.
  unfold homework_accepts in Hacc.
  apply andb_true_iff in Hacc. destruct Hacc as [Hacc Hfst].
  apply andb_true_iff in Hacc. destruct Hacc as [Hpk Hfg].
  apply negb_true_iff in Hpk.
  repeat split; try assumption.
  all: unfold unique_homework_id, homework_seq_ahead in *.
  all: first
    [ cbn [with_homework homework_tbl homework_id_seq]; rewrite map_app;
      apply NoDup_snoc_any; [exact Hh|];
      apply (existsb_false_no_key homework.id Z.eqb); [apply Z.eqb_refl|exact Hpk]
    | cbn [with_homework homework_tbl homework_id_seq];
      apply Forall_app; split; [exact Hfh|];
      constructor; [|constructor]; split; [exact Hfg|exact Hfst]
    | cbn [with_homework homework_tbl homework_id_seq];
      apply Forall_app; split;
      [eapply Forall_impl; [|exact Hhs]; cbv beta; intros; lia
      |repeat constructor; lia] ].
Qed.

Lemma schema_ok_homework_filter (st : Store) (p : homework.row -> bool) :
  schema_ok st ->
  schema_ok (with_homework st (filter p (homework_tbl st)) (homework_id_seq st)).
Proof.
  intros (Hg & Hsi & Ht & Hsd & Hh & Hfs & Hfh & Hss & Hhs).
  repeat split; try assumption.
  all: unfold unique_homework_id, homework_seq_ahead in *.
  all: first
    [ cbn [with_homework homework_tbl homework_id_seq]; now apply NoDup_map_filter
    | cbn [with_homework homework_tbl homework_id_seq];
      rewrite Forall_forall in *; intros h Hin; apply filter_In in Hin;
      first [now apply Hfh | now apply Hhs] ].
Qed.

(** Add, View and Delete keep the schema: from a database that meets every
    declared constraint, with the sequences ahead of the ids in use, each of
    them, in every environment and on every input, ends in a database that
    does. In particular no homework row is ever left pointing at a missing
    group or creator. *)
Theorem homework_tools_keep_the_schema
  (trim : string -> string) (Date_parse : string -> option Z)
  (toISOString : Z -> string) (env : Env) (st : Store) :
  schema_ok st ->
  (forall i, schema_ok (store (addHomeworkTool Date_parse toISOString env i st)))
  /\ (forall i, schema_ok (store (viewHomeworkTool trim toISOString env i st)))
  /\ (forall i, schema_ok (store (deleteHomeworkTool env i st))).
Proof.
  intros Hok. split; [|split]; intros i.
  - destruct (add_store_cases Date_parse toISOString env i st)
      as [-> | [-> | (h & Hacc & Hid & ->)]].
    + exact Hok.
    + now apply schema_ok_homework_seq.
    + now apply schema_ok_homework_append.
  - now rewrite view_store.
  - destruct (delete_store_cases env i st) as [-> | ->].
    + exact Hok.
    + now apply schema_ok_homework_filter.
Qed.

(** ** The Bot API transport *)

(** Without a bot token nothing leaves the process: the messaging tool and
    the workflow's delivery step both report failure and [fetch] is never
    called, whatever the message. An empty token counts as none. *)
Theorem no_token_nothing_is_sent
  (net : Net) (i : send.input) (d : delivery.input) :
  truthy (TELEGRAM_BOT_TOKEN net) = false ->
  sendTelegramMessageTool net i
  = {| reply := send_fail "Bot token not configured"; requests := [] |}
  /\ send_telegram_reply net d
     = {| reply := {| delivery.sent := false |}; requests := [] |}.
Proof.
  intros Htok. unfold sendTelegramMessageTool, send_telegram_reply.
  destruct (TELEGRAM_BOT_TOKEN net) as [token|]; [|split; reflexivity].
  rewrite Htok. split; reflexivity.
Qed.

(** With a token, the messaging tool calls [fetch] exactly once, with a POST
    to the token's [sendMessage] address carrying the chat id, the text and
    [parse_mode = HTML]; a keyboard goes along only when [inline_keyboard]
    is present. The tool reports success exactly when that request was
    accepted and the body of the answer parsed to something other than
    [null]; on success no error text is returned. *)
Theorem send_succeeds_exactly_when_accepted
  (net : Net) (i : send.input) (token : string) :
  TELEGRAM_BOT_TOKEN net = Some token -> token <> EmptyString ->
  let request :=
    sendMessage_request token (send.chatId i) (send.message i)
      (attached_markup (send.replyMarkup i)) in
  let r := sendTelegramMessageTool net i in
  requests r = [request]
  /\ (send.success (reply r) = true
      <-> exists resp j, fetch net request = Done resp
                         /\ response.ok resp = true
                         /\ response.json resp = Done j
                         /\ j <> JNull)
  /\ (send.success (reply r) = true -> send.error (reply r) = None)
  /\ (send.success (reply r) = false -> send.error (reply r) <> None).
Proof.
  intros Htok Hne request r. subst r.
  unfold sendTelegramMessageTool. rewrite Htok.
  assert (Ht : truthy (Some token) = true).
  { simpl. now destruct (String.eqb_spec token EmptyString). }
  rewrite Ht. cbn [negb]. fold request. cbn [requests reply].
  split; [reflexivity|].
  destruct (fetch net request) as [resp|e].
  2:{ cbn. split; [|split; [discriminate|intros _; discriminate]].
      split; [discriminate|]. intros (resp & j & H & _). discriminate. }
  destruct (response.ok resp) eqn:Hok; cbn [negb].
  2:{ destruct (response.text resp); cbn.
      all: split; [|split; [discriminate|intros _; discriminate]].
      all: split; [discriminate|].
      all: intros (resp' & j & H & Hok' & _); inversion H; subst; congruence. }
  destruct (response.json resp) as [j|e] eqn:Hj.
  2:{ cbn. split; [|split; [discriminate|intros _; discriminate]].
      split; [discriminate|].
      intros (resp' & j & H & _ & Hj' & _). inversion H; subst. congruence. }
  destruct j; cbn.
  1:{ split; [|split; [discriminate|intros _; discriminate]].
      split; [discriminate|].
      intros (resp' & j & H & _ & Hj' & Hnull). inversion H; subst.
      rewrite Hj in Hj'. inversion Hj'. subst. contradiction. }
  all: split; [|split; [reflexivity|discriminate]].
  all: split; [intros _|reflexivity].
  all: eexists; eexists; repeat split; try eassumption; try reflexivity; discriminate.
Qed.

(** The delivery step of the workflow and the messaging tool speak to the
    transport alike: for one chat and one text, without a keyboard, they
    make the same request. The step reports [sent] exactly when that
    request was accepted, so whenever the tool reports success the step
    would too; the tool alone also fails on an accepted request whose
    answer does not parse. *)
Theorem delivery_step_agrees_with_tool
  (net : Net) (chatId : Z) (text : string) (token : string) :
  TELEGRAM_BOT_TOKEN net = Some token -> token <> EmptyString ->
  let request := sendMessage_request token chatId text None in
  let step := send_telegram_reply net
                {| delivery.response := text; delivery.chatId := chatId |} in
  let tool := sendTelegramMessageTool net
                {| send.chatId := chatId; send.message := text;
                   send.replyMarkup := None |} in
  requests step = [request]
  /\ requests tool = requests step
  /\ (delivery.sent (reply step) = true <-> accepted net request)
  /\ (send.success (reply tool) = true -> delivery.sent (reply step) = true)
  /\ (forall resp e, fetch net request = Done resp -> response.ok resp = true ->
                     response.json resp = Failed e ->
                     delivery.sent (reply step) = true
                     /\ reply tool = send_fail e).
Proof.
  intros Htok Hne request step tool. subst step tool.
  unfold sendTelegramMessageTool, send_telegram_reply. rewrite Htok.
  assert (Ht : truthy (Some token) = true).
  { simpl. now destruct (String.eqb_spec token EmptyString). }
  rewrite Ht.
  cbn [negb delivery.chatId delivery.response send.chatId send.message
       send.replyMarkup attached_markup requests reply].
  fold request. split; [reflexivity|]. split; [reflexivity|].
  unfold accepted.
  destruct (fetch net request) as [resp|e].
  2:{ repeat split; try discriminate.
      intros (r & H & _); discriminate. }
  destruct (response.ok resp) eqn:Hok; cbn [negb].
  - split; [split; [intros _; now exists resp|reflexivity]|].
    split; [reflexivity|].
    intros resp' e H _ Hj. inversion H; subst. rewrite Hj. split; reflexivity.
  - assert (Hs : delivery.sent (match response.text resp with
                                | Done _ | _ => {| delivery.sent := false |} end)
                 = false) by (now destruct (response.text resp)).
    split; [|split].
    + rewrite Hs. split; [discriminate|].
      intros (r & H & Hok'). inversion H; subst. congruence.
    + destruct (response.text resp); discriminate.
    + intros resp' e H Hok'. inversion H; subst. congruence.
Qed.

(** ** The further statements at work on the sample data *)

Lemma unbound_check (st : Store) (t : Z) :
  existsb (fun s => students.telegramUserId s =? t) (students_tbl st) = false ->
  unbound st t.
Proof.
  intros H s Hin Ht.
  rewrite (existsb_In_true _ _ s Hin) in H; [discriminate|]. now apply Z.eqb_eq.
Qed.

Lemma no_group_check (st : Store) (g : Z) :
  existsb (fun r => groups.id r =? g) (groups_tbl st) = false -> no_group st g.
Proof.
  intros H r Hin Hg.
  rewrite (existsb_In_true _ _ r Hin) in H; [discriminate|]. now apply Z.eqb_eq.
Qed.

Lemma seq_ahead_check (l : list Z) (n : Z) :
  forallb (fun x => x <? n) l = true -> Forall (fun x => x < n) l.
Proof.
  intros H. apply Forall_forall. intros x Hx.
  rewrite forallb_forall in H. apply Z.ltb_lt. now apply H.
Qed.

Lemma sample_students_seq_ahead : students_seq_ahead sample_store.
Proof.
  unfold students_seq_ahead. simpl.
  repeat (constructor; [reflexivity|]). constructor.
Qed.

Lemma sample_homework_seq_ahead : homework_seq_ahead sample_store.
Proof.
  unfold homework_seq_ahead. simpl.
  repeat (constructor; [reflexivity|]). constructor.
Qed.

Lemma sample_unique_students_id : unique_students_id sample_store.
Proof. apply distinctZ_NoDup. reflexivity. Qed.

Lemma sample_schema_ok : schema_ok sample_store.
Proof.
  split; [exact sample_unique_groups_id|].
  split; [exact sample_unique_students_id|].
  split; [exact sample_unique_telegramUserId|].
  split.
  { simpl. repeat (constructor; [simpl; intuition discriminate|]). constructor. }
  split; [exact sample_unique_homework_id|].
  split; [simpl; repeat (constructor; [reflexivity|]); constructor|].
  split; [simpl; repeat (constructor; [split; reflexivity|]); constructor|].
  split; [exact sample_students_seq_ahead|exact sample_homework_seq_ahead].
Qed.

Lemma maria_is_bound : bound_to sample_store 1002 maria.
Proof. split; simpl; auto. Qed.

Lemma alexey_is_bound : bound_to sample_store 1003 alexey.
Proof. split; simpl; auto. Qed.

Lemma maria_is_privileged : privileged (students.accessLevel maria).
Proof. left. reflexivity. Qed.

Lemma registration_identity_already_bound_witness :
  bound_to sample_store 1002 maria
  /\ holders upper_ascii (registration.studentId reg_maria_second) sample_store = []
  /\ registrationTool sample_env reg_maria_second sample_store
     = {| output := reg_fail (msg_reg_bound "ST002"); store := sample_store;
          queries := [Select Tstudents; Select Tstudents] |}.
Proof.
  split; [exact maria_is_bound|]. split; [reflexivity|].
  apply (registration_identity_already_bound upper_ascii sample_env reg_maria_second
           sample_store maria).
  - exact sample_env_reliable.
  - discriminate.
  - reflexivity.
  - exact sample_unique_telegramUserId.
  - exact maria_is_bound.
Defined.

Lemma registration_first_time_succeeds_witness :
  unbound sample_store 42
  /\ option_map registration.id
       (registration.student (output (registrationTool sample_env reg_42 sample_store)))
     = Some 5
  /\ option_map registration.accessLevel
       (registration.student (output (registrationTool sample_env reg_42 sample_store)))
     = Some "student"%string
  /\ List.length (students_tbl (store (registrationTool sample_env reg_42 sample_store)))
     = 5%nat.
Proof.
  assert (Hunb : unbound sample_store 42) by (apply unbound_check; reflexivity).
  split; [exact Hunb|].
  assert (Hg : In group1 (groups_tbl sample_store)) by (simpl; auto).
  pose proof (registration_first_time_succeeds upper_ascii sample_env reg_42
                sample_store _ group1 sample_env_reliable eq_refl eq_refl Hunb
                sample_students_seq_ahead sample_unique_groups_id Hg eq_refl) as H.
  cbv zeta in H. unfold registrationTool. rewrite H.
  repeat split; reflexivity.
Defined.

Lemma registration_group_not_provisioned_witness :
  no_group empty_store 1
  /\ registrationTool sample_env reg_42 empty_store
     = {| output := reg_fail msg_reg_error;
          store := with_students empty_store [] 2;
          queries := [Select Tstudents; Select Tstudents; Insert Tstudents] |}.
Proof.
  assert (Hng : no_group empty_store 1) by (apply no_group_check; reflexivity).
  split; [exact Hng|].
  apply (registration_group_not_provisioned upper_ascii sample_env reg_42 empty_store
           {| roster.groupId := 1; roster.firstName := Some "Иван"%string;
              roster.lastName := Some "Петров"%string;
              roster.accessLevel := "student" |}).
  - exact sample_env_reliable.
  - reflexivity.
  - reflexivity.
  - apply unbound_check. reflexivity.
  - exact Hng.
Defined.

Lemma registration_outage_after_insert_witness :
  output (registrationTool env_outage_after_insert reg_42 sample_store)
  = reg_fail msg_reg_error
  /\ List.length
       (students_tbl (store (registrationTool env_outage_after_insert reg_42 sample_store)))
     = 5%nat
  /\ registration.message
       (output (registrationTool sample_env reg_42
                  (store (registrationTool env_outage_after_insert reg_42 sample_store))))
     = msg_reg_already.
Proof.
  assert (Hunb : unbound sample_store 42) by (apply unbound_check; reflexivity).
  assert (Hg : In group1 (groups_tbl sample_store)) by (simpl; auto).
  destruct (registration_outage_after_insert upper_ascii env_outage_after_insert
              sample_env reg_42 sample_store _ group1 eq_refl eq_refl eq_refl eq_refl
              Hunb sample_students_seq_ahead Hg eq_refl sample_env_reliable)
    as (Hout & Htbl & Hagain & _).
  unfold registrationTool.
  split; [exact Hout|]. split; [rewrite Htbl; reflexivity|].
  rewrite Hagain. reflexivity.
Defined.

Lemma registration_then_verification_witness :
  registration.success (output (registrationTool sample_env reg_42 sample_store)) = true
  /\ verification.isVerified
       (output (studentVerificationTool sample_env verify_42
                  (store (registrationTool sample_env reg_42 sample_store))))
     = true
  /\ option_map verification.id
       (verification.student
          (output (studentVerificationTool sample_env verify_42
                     (store (registrationTool sample_env reg_42 sample_store)))))
     = option_map registration.id
         (registration.student (output (registrationTool sample_env reg_42 sample_store))).
Proof.
  assert (Hunb : unbound sample_store 42) by (apply unbound_check; reflexivity).
  split; [reflexivity|].
  destruct (registration_then_verification upper_ascii sample_env sample_env reg_42
              verify_42 sample_store _ sample_env_reliable sample_env_reliable
              eq_refl eq_refl Hunb eq_refl eq_refl)
    as (Hv & s & p & Hs & Hp & Hid & _).
  unfold registrationTool.
  split; [exact Hv|]. rewrite Hs, Hp. cbn [option_map]. now rewrite Hid.
Defined.

Lemma registration_ignores_letter_case_witness :
  registration.studentId reg_42_caps <> registration.studentId reg_42
  /\ store (registrationTool sample_env reg_42_caps sample_store)
     = store (registrationTool sample_env reg_42 sample_store)
  /\ registration.student (output (registrationTool sample_env reg_42_caps sample_store))
     = registration.student (output (registrationTool sample_env reg_42 sample_store)).
Proof.
  split; [discriminate|].
  destruct (registration_ignores_letter_case upper_ascii sample_env reg_42 reg_42_caps
              sample_store eq_refl eq_refl eq_refl eq_refl eq_refl)
    as (Hst & _ & _ & Hstu).
  split; [exact Hst|exact Hstu].
Defined.

Lemma verification_unknown_identity_witness :
  unbound sample_store 42
  /\ output (studentVerificationTool sample_env verify_42 sample_store)
     = ver_fail msg_ver_not_found
  /\ store (studentVerificationTool sample_env verify_42 sample_store) = sample_store
  /\ queries (studentVerificationTool sample_env verify_42 sample_store)
     = [Select Tstudents].
Proof.
  assert (Hunb : unbound sample_store 42) by (apply unbound_check; reflexivity).
  split; [exact Hunb|].
  destruct (verification_unknown_identity sample_env verify_42 sample_store
              sample_env_reliable Hunb) as (Ho & _ & Hs & Hq).
  split; [exact Ho|]. split; [exact Hs|exact Hq].
Defined.

Lemma verification_verifies_exactly_the_active_witness :
  verification.isVerified
    (output (studentVerificationTool sample_env verify_maria_quiet sample_store)) = true
  /\ ~ (exists u, bound_to sample_store 1007 u /\ students.isActive u = Some true).
Proof.
  split.
  - apply (verification_verifies_exactly_the_active sample_env verify_maria_quiet
             sample_store sample_env_reliable sample_unique_telegramUserId).
    exists maria. split; [exact maria_is_bound|reflexivity].
  - intros H.
    apply (verification_verifies_exactly_the_active sample_env verify_oleg
             sample_store sample_env_reliable sample_unique_telegramUserId) in H.
    discriminate H.
Defined.

Lemma verification_without_drift_only_reads_witness :
  bound_to sample_store 1002 maria
  /\ verification.isVerified
       (output (studentVerificationTool sample_env verify_maria_quiet sample_store))
     = true
  /\ store (studentVerificationTool sample_env verify_maria_quiet sample_store)
     = sample_store
  /\ queries (studentVerificationTool sample_env verify_maria_quiet sample_store)
     = [Select Tstudents].
Proof.
  split; [exact maria_is_bound|].
  destruct (verification_without_drift_only_reads sample_env verify_maria_quiet
              sample_store maria sample_env_reliable sample_unique_telegramUserId
              maria_is_bound eq_refl (or_introl eq_refl)) as (Hv & _ & Hs & Hq).
  split; [exact Hv|]. split; [exact Hs|exact Hq].
Defined.

Lemma verification_repeated_is_read_only_witness :
  queries (studentVerificationTool sample_env verify_maria sample_store)
  = [Select Tstudents; Update Tstudents]
  /\ let r1 := studentVerificationTool sample_env verify_maria sample_store in
     let r2 := studentVerificationTool sample_env verify_maria (store r1) in
     output r2 = output r1 /\ store r2 = store r1 /\ queries r2 = [Select Tstudents].
Proof.
  split; [reflexivity|].
  destruct (verification_repeated_is_read_only sample_env sample_env verify_maria
              sample_store maria "masha" sample_env_reliable sample_env_reliable
              sample_unique_telegramUserId maria_is_bound eq_refl eq_refl)
    as (Ho & Hs & Hq & _).
  cbv zeta. split; [exact Ho|]. split; [exact Hs|exact Hq].
Defined.

Lemma add_denied_below_monitor_witness :
  bound_to sample_store 1003 alexey
  /\ hasPermission (students.accessLevel alexey) = false
  /\ addTool sample_env (add_by 1003 "2025-09-01 10:00") sample_store
     = {| output := add_fail msg_add_denied; store := sample_store;
          queries := [Select Tstudents] |}.
Proof.
  split; [exact alexey_is_bound|]. split; [reflexivity|].
  destruct (add_denied_below_monitor sample_Date_parse sample_toISOString sample_env
              (add_by 1003 "2025-09-01 10:00") sample_store alexey
              sample_unique_telegramUserId alexey_is_bound eq_refl)
    as (_ & _ & Hst & Hrel).
  destruct (Hrel sample_env_reliable) as [Hout Hq]. cbv zeta in Hst.
  unfold addTool.
  destruct (addHomeworkTool sample_Date_parse sample_toISOString sample_env
              (add_by 1003 "2025-09-01 10:00") sample_store) as [o s q].
  cbn [output store queries] in *. now subst.
Defined.

Lemma homework_tools_unknown_identity_witness :
  unbound sample_store 42
  /\ output (addTool sample_env (add_by 42 "2025-09-01 10:00") sample_store)
     = add_fail msg_user_not_found
  /\ output (viewTool sample_env (view_by 42 None) sample_store)
     = view_fail msg_user_not_found
  /\ output (deleteHomeworkTool sample_env (delete_by 42 1) sample_store)
     = del_fail msg_user_not_found
  /\ store (deleteHomeworkTool env_flaky (delete_by 42 1) sample_store) = sample_store.
Proof.
  assert (Hunb : unbound sample_store 42) by (apply unbound_check; reflexivity).
  split; [exact Hunb|].
  destruct (homework_tools_unknown_identity trim_spaces sample_Date_parse
              sample_toISOString sample_env sample_store 42 Hunb) as (Ha & Hv & Hd).
  destruct (homework_tools_unknown_identity trim_spaces sample_Date_parse
              sample_toISOString env_flaky sample_store 42 Hunb) as (_ & _ & Hd').
  split; [apply (Ha (add_by 42 "2025-09-01 10:00") eq_refl); exact sample_env_reliable|].
  split; [apply (Hv (view_by 42 None) eq_refl); exact sample_env_reliable|].
  split; [apply (Hd (delete_by 42 1) eq_refl); exact sample_env_reliable|].
  apply (Hd' (delete_by 42 1) eq_refl).
Defined.

Lemma add_honours_requested_group_witness :
  students.groupId maria = Some 1
  /\ let r := addTool sample_env (add_to 1002 2 "2025-09-01 10:00") sample_store in
     add.success (output r) = true
     /\ option_map add.out_dueDate (add.homework (output r))
        = Some (Some "2025-09-01T10:00:00.000Z"%string)
     /\ map homework.groupId (homework_tbl (store r)) = [Some 1; Some 2; Some 2]
     /\ map homework.dueDate (homework_tbl (store r)) = [None; None; Some 1756720800000].
Proof.
  split; [reflexivity|].
  assert (Hg : In group2 (groups_tbl sample_store)) by (simpl; auto).
  assert (Hnz : groups.id group2 <> 0) by discriminate.
  destruct (add_honours_requested_group sample_Date_parse sample_toISOString sample_env
              (add_to 1002 2 "2025-09-01 10:00") sample_store maria group2
              sample_env_reliable sample_unique_telegramUserId sample_unique_groups_id
              sample_homework_seq_ahead maria_is_bound maria_is_privileged Hg eq_refl Hnz)
    as (Hok & _ & Hdue & created & Htbl & _ & Hgrp & _ & Hdate & _).
  cbv zeta. unfold addTool. split; [exact Hok|]. split; [exact Hdue|].
  rewrite Htbl, !map_app. cbn [map]. rewrite Hgrp, Hdate. split; reflexivity.
Defined.

Lemma add_unresolved_group_writes_nothing_witness :
  (bound_to store_with_boris 1005 boris
   /\ addTool sample_env (add_by 1005 "2025-09-01 10:00") store_with_boris
      = {| output := add_fail msg_add_no_group; store := store_with_boris;
           queries := [Select Tstudents] |})
  /\ (no_group sample_store 77
      /\ addTool sample_env (add_to 1002 77 "2025-09-01 10:00") sample_store
         = {| output := add_fail msg_add_group_missing; store := sample_store;
              queries := [Select Tstudents; Select Tgroups] |}).
Proof.
  assert (Hb : bound_to store_with_boris 1005 boris) by (split; simpl; auto 10).
  assert (Hub : unique_telegramUserId store_with_boris)
    by (apply distinctZ_NoDup; reflexivity).
  assert (Hpb : privileged (students.accessLevel boris)) by (left; reflexivity).
  assert (Hng : no_group sample_store 77) by (apply no_group_check; reflexivity).
  split.
  - split; [exact Hb|].
    destruct (add_unresolved_group_writes_nothing sample_Date_parse sample_toISOString
                sample_env (add_by 1005 "2025-09-01 10:00") store_with_boris boris
                sample_env_reliable Hub Hb Hpb) as [Hnone _].
    exact (Hnone eq_refl).
  - split; [exact Hng|].
    destruct (add_unresolved_group_writes_nothing sample_Date_parse sample_toISOString
                sample_env (add_to 1002 77 "2025-09-01 10:00") sample_store maria
                sample_env_reliable sample_unique_telegramUserId maria_is_bound
                maria_is_privileged) as [_ Hmissing].
    apply (Hmissing 77 eq_refl); [discriminate|exact Hng].
Defined.

Lemma add_then_delete_restores_table_witness :
  let r1 := addTool sample_env (add_by 1002 "2025-09-01 10:00") sample_store in
  let r2 := deleteHomeworkTool sample_env (delete_by 1002 3) (store r1) in
  option_map add.id (add.homework (output r1)) = Some 3
  /\ output r2 = {| delete.success := true; delete.message := msg_del_ok "Геометрия" |}
  /\ homework_tbl (store r2) = homework_tbl sample_store
  /\ homework_id_seq (store r2) = 4.
Proof.
  assert (Hg : In group1 (groups_tbl sample_store)) by (simpl; auto).
  assert (Hnz : groups.id group1 <> 0) by discriminate.
  cbv zeta. split; [reflexivity|].
  apply (add_then_delete_restores_table sample_Date_parse sample_toISOString
           sample_env sample_env (add_by 1002 "2025-09-01 10:00") (delete_by 1002 3)
           sample_store maria maria group1
           sample_env_reliable sample_env_reliable sample_unique_telegramUserId
           sample_unique_groups_id sample_homework_seq_ahead maria_is_bound
           maria_is_privileged Hg eq_refl Hnz maria_is_bound maria_is_privileged
           eq_refl).
Defined.

Lemma delete_twice_reports_not_found_witness :
  delete.success (output (deleteHomeworkTool sample_env (delete_by 1002 2) sample_store))
  = true
  /\ deleteHomeworkTool sample_env (delete_by 1002 2)
       (store (deleteHomeworkTool sample_env (delete_by 1002 2) sample_store))
     = {| output := del_fail msg_del_not_found;
          store := store (deleteHomeworkTool sample_env (delete_by 1002 2) sample_store);
          queries := [Select Tstudents; Select Thomework] |}.
Proof.
  split; [reflexivity|].
  apply (delete_twice_reports_not_found sample_env sample_env (delete_by 1002 2)
           sample_store maria sample_env_reliable sample_env_reliable
           sample_unique_telegramUserId maria_is_bound maria_is_privileged).
Defined.

Lemma term_unique_telegramUserId : unique_telegramUserId term_store.
Proof. apply distinctZ_NoDup. reflexivity. Qed.

Lemma term_unique_groups_id : unique_groups_id term_store.
Proof. apply distinctZ_NoDup. reflexivity. Qed.

Lemma term_unique_students_id : unique_students_id term_store.
Proof. apply distinctZ_NoDup. reflexivity. Qed.

Lemma view_newest_first_and_capped_witness :
  map (fun h => (homework.title h, homework.createdAt h)) (homework_of term_store (Some 1))
  = [("Алгебра"%string, Some 10); ("Сочинение"%string, Some 30);
     ("Черчение"%string, Some 5)]
  /\ map view.title
       (view.homeworkList (output (viewTool sample_env (view_limit 1002 2) term_store)))
     = ["Сочинение"%string; "Алгебра"%string]
  /\ map view.title
       (view.homeworkList (output (viewTool sample_env (view_limit 1002 (-1)) term_store)))
     = ["Сочинение"%string; "Алгебра"%string; "Черчение"%string]
  /\ (exists listed rest,
        map (fun it => (view.id it, view.title it))
          (view.homeworkList (output (viewTool sample_env (view_limit 1002 2) term_store)))
        = map (fun h => (homework.id h, homework.title h)) listed
        /\ Permutation (listed ++ rest) (homework_of term_store (Some 1))
        /\ (forall x y, In x listed -> In y rest ->
              not_older (homework.createdAt x) (homework.createdAt y))
        /\ List.length listed = 2%nat)
  /\ (exists listed,
        map (fun it => (view.id it, view.title it))
          (view.homeworkList (output (viewTool sample_env (view_limit 1002 (-1)) term_store)))
        = map (fun h => (homework.id h, homework.title h)) listed
        /\ List.length listed = 3%nat).
Proof.
  assert (Hb : bound_to term_store 1002 maria) by (split; simpl; auto).
  split; [reflexivity|]. split; [reflexivity|]. split; [reflexivity|].
  destruct (view_newest_first_and_capped trim_spaces sample_toISOString sample_env
              (view_limit 1002 2) term_store maria sample_env_reliable
              term_unique_telegramUserId term_unique_groups_id
              term_unique_students_id Hb eq_refl)
    as (listed & rest & _ & Hitems & Hperm & _ & Hacross & Hlen).
  destruct (view_newest_first_and_capped trim_spaces sample_toISOString sample_env
              (view_limit 1002 (-1)) term_store maria sample_env_reliable
              term_unique_telegramUserId term_unique_groups_id
              term_unique_students_id Hb eq_refl)
    as (all & none & _ & Hitems' & _ & _ & _ & Hlen').
  split.
  - exists listed, rest. split; [exact Hitems|]. split; [exact Hperm|].
    split; [exact Hacross|exact Hlen].
  - exists all. split; [exact Hitems'|exact Hlen'].
Defined.

Lemma view_lists_the_whole_group_witness :
  map homework.title (homework_of sample_store (Some 1)) = ["Алгебра"%string]
  /\ Permutation
       (map (fun it => (view.id it, view.title it))
          (view.homeworkList (output (viewTool sample_env (view_limit 1002 10) sample_store))))
       [(1, "Алгебра"%string)].
Proof.
  split; [reflexivity|].
  assert (Hlim : Z.of_nat (List.length (homework_of sample_store (Some 1)))
                 <= view.limit (view_limit 1002 10)) by (simpl; lia).
  destruct (view_lists_the_whole_group trim_spaces sample_toISOString sample_env
              (view_limit 1002 10) sample_store maria sample_env_reliable
              sample_unique_telegramUserId sample_unique_groups_id
              sample_unique_students_id maria_is_bound eq_refl Hlim) as [_ Hperm].
  exact Hperm.
Defined.

Lemma add_then_view_shows_it_witness :
  let r1 := addTool sample_env (add_to 1002 2 "2025-09-01 10:00") sample_store in
  let r2 := viewTool sample_env (view_limit 1003 10) (store r1) in
  view.success (output r2) = true
  /\ In (3, "Геометрия"%string)
       (map (fun it => (view.id it, view.title it)) (view.homeworkList (output r2)))
  /\ map view.title (view.homeworkList (output r2))
     = ["Геометрия"%string; "Физика"%string].
Proof.
  assert (Hg : In group2 (groups_tbl sample_store)) by (simpl; auto).
  assert (Hnz : groups.id group2 <> 0) by discriminate.
  assert (Hlim : Z.of_nat (List.length (homework_of sample_store (Some (groups.id group2))))
                 < view.limit (view_limit 1003 10)) by (simpl; lia).
  destruct (add_then_view_shows_it trim_spaces sample_Date_parse sample_toISOString
              sample_env sample_env (add_to 1002 2 "2025-09-01 10:00")
              (view_limit 1003 10) sample_store maria alexey group2
              sample_env_reliable sample_env_reliable sample_unique_telegramUserId
              sample_unique_groups_id sample_unique_students_id
              sample_homework_seq_ahead maria_is_bound maria_is_privileged Hg eq_refl
              Hnz alexey_is_bound eq_refl Hlim) as (Hok & Hin & _).
  cbv zeta. split; [exact Hok|]. split; [exact Hin|reflexivity].
Defined.

Lemma student_tools_keep_the_schema_witness :
  schema_ok sample_store
  /\ schema_ok (store (registrationTool sample_env reg_42 sample_store))
  /\ schema_ok (store (studentVerificationTool sample_env verify_maria sample_store)).
Proof.
  split; [exact sample_schema_ok|].
  destruct (student_tools_keep_the_schema upper_ascii sample_env sample_store
              sample_schema_ok) as [Hreg Hver].
  split; [apply Hreg|apply Hver].
Defined.

Lemma homework_tools_keep_the_schema_witness :
  schema_ok (store (addTool sample_env (add_by 1002 "2025-09-01 10:00") sample_store))
  /\ schema_ok (store (viewTool sample_env (view_by 1003 None) sample_store))
  /\ schema_ok (store (deleteHomeworkTool sample_env (delete_by 1002 2) sample_store)).
Proof.
  destruct (homework_tools_keep_the_schema trim_spaces sample_Date_parse
              sample_toISOString sample_env sample_store sample_schema_ok)
    as (Hadd & Hview & Hdel).
  split; [apply Hadd|]. split; [apply Hview|apply Hdel].
Defined.

Lemma no_token_nothing_is_sent_witness :
  requests (sendTelegramMessageTool net_no_token hello) = []
  /\ send.error (reply (sendTelegramMessageTool net_no_token hello))
     = Some "Bot token not configured"%string
  /\ send_telegram_reply net_no_token hello_reply
     = {| reply := {| delivery.sent := false |}; requests := [] |}.
Proof.
  destruct (no_token_nothing_is_sent net_no_token hello hello_reply eq_refl)
    as [Htool Hstep].
  rewrite Htool. split; [reflexivity|]. split; [reflexivity|exact Hstep].
Defined.

Lemma send_succeeds_exactly_when_accepted_witness :
  send.success (reply (sendTelegramMessageTool net_ok hello)) = true
  /\ send.messageId (reply (sendTelegramMessageTool net_ok hello)) = Some (JNumber 7)
  /\ requests (sendTelegramMessageTool net_ok hello)
     = [sendMessage_request "123:abc" (-1001) "Привет" None]
  /\ send.success (reply (sendTelegramMessageTool net_unparsed hello)) = false.
Proof.
  assert (Hne : "123:abc"%string <> EmptyString) by discriminate.
  destruct (send_succeeds_exactly_when_accepted net_ok hello "123:abc" eq_refl Hne)
    as (Hreq & Hiff & _).
  destruct (send_succeeds_exactly_when_accepted net_unparsed hello "123:abc" eq_refl Hne)
    as (_ & Hiff' & _).
  split.
  - apply Hiff. eexists. eexists.
    split; [reflexivity|]. split; [reflexivity|]. split; [reflexivity|discriminate].
  - split; [reflexivity|]. split; [exact Hreq|].
    destruct (send.success (reply (sendTelegramMessageTool net_unparsed hello))) eqn:E;
      [|reflexivity].
    exfalso. destruct (proj1 Hiff' eq_refl) as (resp & j & Hf & _ & Hj & _).
    inversion Hf; subst. discriminate Hj.
Defined.

Lemma delivery_step_agrees_with_tool_witness :
  accepted net_unparsed (sendMessage_request "123:abc" (-1001) "Привет" None)
  /\ delivery.sent (reply (send_telegram_reply net_unparsed hello_reply)) = true
  /\ reply (sendTelegramMessageTool net_unparsed
              {| send.chatId := -1001; send.message := "Привет";
                 send.replyMarkup := None |})
     = send_fail "SyntaxError: Unexpected token <"
  /\ requests (send_telegram_reply net_unparsed hello_reply)
     = requests (sendTelegramMessageTool net_unparsed
                   {| send.chatId := -1001; send.message := "Привет";
                      send.replyMarkup := None |}).
Proof.
  assert (Hne : "123:abc"%string <> EmptyString) by discriminate.
  assert (Hacc : accepted net_unparsed
                   (sendMessage_request "123:abc" (-1001) "Привет" None))
    by (eexists; split; reflexivity).
  destruct (delivery_step_agrees_with_tool net_unparsed (-1001) "Привет" "123:abc"
              eq_refl Hne) as (_ & Hsame & Hsent & _ & Hbad).
  split; [exact Hacc|].
  destruct (Hbad _ "SyntaxError: Unexpected token <"%string eq_refl eq_refl eq_refl)
    as [Hs Ht].
  split; [exact Hs|]. split; [exact Ht|]. symmetry. exact Hsame.
Defined.
